(** * naverbot: the chatbot backend, embedded and checked against its specification

    The development follows the server file of the repository: conversation
    memory ([addMessageToHistory], [summarizeAndResetHistory]), the two stat
    encoders ([createAnalyticsContext], [createTasksContext]), the fallback
    responders ([generateFallbackRecommendations], [generateFallbackResponse],
    [parseRecommendations]), the date anchors and time rules of [createPrompt],
    and the two request handlers.

    Conventions of the embedding:
    - a JavaScript string is the list of its UTF-16 code units;
    - a JavaScript number is an IEEE-754 binary64 value (Rocq's primitive
      [float]); array lengths and counts are [nat];
    - a [Date] is its time value in milliseconds since the epoch, [None] for
      an invalid date;
    - an absent ([undefined] or [null]) property is [None];
    - what a function throws is a value of [result];
    - what the JavaScript engine or the outer world supplies (locale tables,
      the clock, the model's answer) is an argument. *)

From Stdlib Require Import ZArith NArith List String Ascii Bool Lia Floats.
From Stdlib Require DecimalPos DecimalZ.
From stdpp Require Import gmap.
Import ListNotations.

(** ** JavaScript strings *)

Module Js.

Abbreviation char16 := N (only parsing).
Abbreviation jsstring := (list N) (only parsing).

(** Source literals are written as Rocq strings (UTF-8 bytes) and decoded to
    UTF-16 code units. *)
Definition utf16_of_code_point (cp : N) : jsstring :=
  if (cp <? 0x10000)%N then [cp]
  else let c := (cp - 0x10000)%N in
       [(0xD800 + N.shiftr c 10)%N; (0xDC00 + N.land c 0x3FF)%N].

Definition cont (b : N) : N := N.land b 0x3F.

Fixpoint utf8_decode (bs : list N) : jsstring :=
  match bs with
  | [] => []
  | b0 :: r0 =>
    if (b0 <? 0x80)%N then b0 :: utf8_decode r0
    else match r0 with
    | [] => [0xFFFD%N]
    | b1 :: r1 =>
      if (b0 <? 0xE0)%N
      then utf16_of_code_point (N.lor (N.shiftl (N.land b0 0x1F) 6) (cont b1))
             ++ utf8_decode r1
      else match r1 with
      | [] => [0xFFFD%N]
      | b2 :: r2 =>
        if (b0 <? 0xF0)%N
        then utf16_of_code_point
               (N.lor (N.shiftl (N.land b0 0x0F) 12)
                  (N.lor (N.shiftl (cont b1) 6) (cont b2)))
               ++ utf8_decode r2
        else match r2 with
        | [] => [0xFFFD%N]
        | b3 :: r3 =>
          utf16_of_code_point
            (N.lor (N.shiftl (N.land b0 0x07) 18)
               (N.lor (N.shiftl (cont b1) 12)
                  (N.lor (N.shiftl (cont b2) 6) (cont b3))))
            ++ utf8_decode r3
        end
      end
    end
  end.

Definition utf16 (s : string) : jsstring :=
  utf8_decode (List.map N_of_ascii (list_ascii_of_string s)).
Arguments utf16 s%_string : simpl never.

(** The double quote, which a Rocq literal cannot hold conveniently. *)
Definition dquote : N := 34%N.
Definition quoted (s : jsstring) : jsstring := dquote :: s ++ [dquote].

(** Strict equality of two strings. *)
Fixpoint str_eqb (a b : jsstring) : bool :=
  match a, b with
  | [], [] => true
  | x :: a', y :: b' => (x =? y)%N && str_eqb a' b'
  | _, _ => false
  end.

(** [WhiteSpace] and [LineTerminator] of ECMAScript: what [trim] strips and
    what the regular-expression class backslash-s matches. *)
Definition is_ws (c : N) : bool :=
  ((0x09 <=? c) && (c <=? 0x0D) || (c =? 0x20) || (c =? 0xA0) || (c =? 0x1680)
   || (0x2000 <=? c) && (c <=? 0x200A) || (c =? 0x2028) || (c =? 0x2029)
   || (c =? 0x202F) || (c =? 0x205F) || (c =? 0x3000) || (c =? 0xFEFF))%N.

Fixpoint trimStart (s : jsstring) : jsstring :=
  match s with
  | c :: r => if is_ws c then trimStart r else s
  | [] => []
  end.

Definition trimEnd (s : jsstring) : jsstring := rev (trimStart (rev s)).
Definition trim (s : jsstring) : jsstring := trimEnd (trimStart s).

Fixpoint startsWith (p s : jsstring) : bool :=
  match p, s with
  | [], _ => true
  | a :: p', b :: s' => (a =? b)%N && startsWith p' s'
  | _ :: _, [] => false
  end.

(** [String.prototype.includes]. *)
Fixpoint includes (needle hay : jsstring) : bool :=
  startsWith needle hay ||
  match hay with
  | [] => false
  | _ :: r => includes needle r
  end.

(** [split] on a one-unit separator. *)
Fixpoint split_on (sep : N) (s : jsstring) : list jsstring :=
  match s with
  | [] => [[]]
  | c :: r =>
    if (c =? sep)%N then [] :: split_on sep r
    else match split_on sep r with
         | h :: t => (c :: h) :: t
         | [] => [[c]]
         end
  end.

Fixpoint join (sep : jsstring) (l : list jsstring) : jsstring :=
  match l with
  | [] => []
  | [x] => x
  | x :: r => x ++ sep ++ join sep r
  end.

Definition newline : N := 10%N.
Definition comma : N := 44%N.

(** Decimal rendering of integers, as a template literal prints them. *)
Fixpoint uint_units (d : Decimal.uint) : jsstring :=
  match d with
  | Decimal.Nil => []
  | Decimal.D0 r => 48%N :: uint_units r
  | Decimal.D1 r => 49%N :: uint_units r
  | Decimal.D2 r => 50%N :: uint_units r
  | Decimal.D3 r => 51%N :: uint_units r
  | Decimal.D4 r => 52%N :: uint_units r
  | Decimal.D5 r => 53%N :: uint_units r
  | Decimal.D6 r => 54%N :: uint_units r
  | Decimal.D7 r => 55%N :: uint_units r
  | Decimal.D8 r => 56%N :: uint_units r
  | Decimal.D9 r => 57%N :: uint_units r
  end.

Definition Z_str (z : Z) : jsstring :=
  match Z.to_int z with
  | Decimal.Pos d => uint_units d
  | Decimal.Neg d => 45%N :: uint_units d
  end.

Definition nat_str (n : nat) : jsstring := Z_str (Z.of_nat n).

(** [s.padStart(2, '0')]. *)
Definition padStart2 (s : jsstring) : jsstring :=
  repeat 48%N (2 - length s) ++ s.

(** [parseInt] on the strings this program hands it (decimal renderings of
    counts): optional white space and sign, then the longest run of decimal
    digits; [None] is NaN. *)
Fixpoint digits_prefix (acc : option Z) (s : jsstring) : option Z :=
  match s with
  | c :: r =>
    if ((48 <=? c) && (c <=? 57))%N
    then digits_prefix
           (Some (10 * (match acc with Some a => a | None => 0 end)
                  + Z.of_N (c - 48)))%Z r
    else acc
  | [] => acc
  end.

Definition parseInt (s : jsstring) : option Z :=
  match trimStart s with
  | 45%N :: r => option_map Z.opp (digits_prefix None r)
  | 43%N :: r => digits_prefix None r
  | r => digits_prefix None r
  end.

End Js.
Import Js.

(** ** JavaScript numbers *)

Module Num.

Definition of_Z (z : Z) : float :=
  if (z <? 0)%Z then PrimFloat.opp (PrimFloat.of_uint63 (Uint63.of_Z (- z)))
  else PrimFloat.of_uint63 (Uint63.of_Z z).

(** A length or a count as a number (exact below 2^53). *)
Definition of_nat (n : nat) : float := of_Z (Z.of_nat n).

(** The time value of a [Date] as a number: NaN for an invalid date. *)
Definition of_time (t : option Z) : float :=
  match t with
  | Some z => of_Z z
  | None => PrimFloat.nan
  end.

(** ToBoolean on a number. *)
Definition truthy (x : float) : bool :=
  negb (PrimFloat.eqb x 0%float) && negb (PrimFloat.is_nan x).

(** [x || 0] on an optional numeric property. *)
Definition or_zero (o : option float) : float :=
  match o with
  | Some x => if truthy x then x else 0%float
  | None => 0%float
  end.

(** The integer a finite number denotes, when it denotes one. *)
Definition to_Z (x : float) : option Z :=
  match Prim2SF x with
  | S754_zero _ => Some 0%Z
  | S754_finite s m e =>
    let n := if s then Z.neg m else Z.pos m in
    if (0 <=? e)%Z then Some (n * 2 ^ e)%Z
    else if (n mod 2 ^ (- e) =? 0)%Z then Some (n / 2 ^ (- e))%Z
    else None
  | _ => None
  end.

Definition is_integer (x : float) : bool :=
  match to_Z x with Some _ => true | None => false end.

(** [Math.round]: the nearest integer, ties towards plus infinity. The sign
    of a zero result is not tracked (it prints as 0 either way). *)
Definition Math_round (x : float) : float :=
  match Prim2SF x with
  | S754_finite s m e =>
    if (0 <=? e)%Z then x
    else let n := if s then Z.neg m else Z.pos m in
         let d := (2 ^ (- e))%Z in
         of_Z ((2 * n + d) / (2 * d))
  | _ => x
  end.

End Num.

(** ** Thrown values *)

Inductive exn :=
| TypeError (what : list N)
| SyntaxError.

Inductive result (A : Type) :=
| Ok (a : A)
| Throw (e : exn).
Arguments Ok {A} a.
Arguments Throw {A} e.

Definition bind {A B} (r : result A) (k : A -> result B) : result B :=
  match r with
  | Ok a => k a
  | Throw e => Throw e
  end.

Notation "'let!' x ':=' r 'in' k" := (bind r (fun x => k))
  (at level 10, x name, r at level 100, k at level 200).

(** [try { r } catch (e) { h e }]. *)
Definition try_catch {A} (r : result A) (h : exn -> A) : A :=
  match r with
  | Ok a => a
  | Throw e => h e
  end.

(** Reading a property of a value that may be [undefined] or [null]. *)
Definition deref {A} (what : string) (o : option A) : result A :=
  match o with
  | Some a => Ok a
  | None => Throw (TypeError (utf16 what))
  end.

(** ** Dates *)

Module JsDate.

Local Open Scope Z_scope.

Definition msPerDay : Z := 86400000.
Definition msPerHour : Z := 3600000.
Definition msPerMinute : Z := 60000.
Definition msPerSecond : Z := 1000.

(** Day number of a civil date (month 1 to 12) and back: the proleptic
    Gregorian calendar of ECMAScript, day 0 being 1970-01-01. *)
Definition days_from_civil (y m d : Z) : Z :=
  let y' := if m <=? 2 then y - 1 else y in
  let era := y' / 400 in
  let yoe := y' - era * 400 in
  let mp := if m <=? 2 then m + 9 else m - 3 in
  let doy := (153 * mp + 2) / 5 + d - 1 in
  let doe := yoe * 365 + yoe / 4 - yoe / 100 + doy in
  era * 146097 + doe - 719468.

Definition civil_from_days (z : Z) : Z * Z * Z :=
  let z' := z + 719468 in
  let era := z' / 146097 in
  let doe := z' - era * 146097 in
  let yoe := (doe - doe / 1460 + doe / 36524 - doe / 146096) / 365 in
  let doy := doe - (365 * yoe + yoe / 4 - yoe / 100) in
  let mp := (5 * doy + 2) / 153 in
  let d := doy - (153 * mp + 2) / 5 + 1 in
  let m := if mp <? 10 then mp + 3 else mp - 9 in
  ((yoe + era * 400) + (if m <=? 2 then 1 else 0), m, d).

(** The fields of a time value read on a clock that runs [tza] milliseconds
    ahead of UTC. [month0] counts from 0 as [getMonth] does; [weekday] is
    [getDay], 0 for Sunday. *)
Record fields := {
  year : Z; month0 : Z; date : Z;
  hours : Z; minutes : Z; seconds : Z; milliseconds : Z;
  weekday : Z
}.

Definition fields_at (tza t : Z) : fields :=
  let lt := t + tza in
  let dn := lt / msPerDay in
  let tod := lt mod msPerDay in
  let '(y, m, d) := civil_from_days dn in
  {| year := y; month0 := m - 1; date := d;
     hours := tod / msPerHour;
     minutes := (tod / msPerMinute) mod 60;
     seconds := (tod / msPerSecond) mod 60;
     milliseconds := tod mod 1000;
     weekday := (dn + 4) mod 7 |}.

(** [MakeDay], [MakeTime] and [MakeDate] of ECMAScript, then back to UTC. *)
Definition MakeDay (y m0 dt : Z) : Z :=
  days_from_civil (y + m0 / 12) (m0 mod 12 + 1) 1 + dt - 1.

Definition MakeTime (h mi s ms : Z) : Z :=
  h * msPerHour + mi * msPerMinute + s * msPerSecond + ms.

Definition of_fields (tza : Z) (y m0 dt h mi s ms : Z) : Z :=
  MakeDay y m0 dt * msPerDay + MakeTime h mi s ms - tza.

(** [d.setDate(n)] and [d.setHours(h, mi, s, ms)] on a valid date. *)
Definition setDate (tza t n : Z) : Z :=
  let f := fields_at tza t in
  of_fields tza (year f) (month0 f) n (hours f) (minutes f) (seconds f)
    (milliseconds f).

Definition setHours (tza t h mi s ms : Z) : Z :=
  let f := fields_at tza t in
  of_fields tza (year f) (month0 f) (date f) h mi s ms.

(** A date accessor on a possibly invalid date, then printed: NaN prints as
    the three letters. *)
Definition field_str (o : option Z) : jsstring :=
  match o with
  | Some z => Z_str z
  | None => utf16 "NaN"
  end.

End JsDate.

(** ** What the engine supplies

    Locale-dependent and implementation-defined library functions are taken
    from the engine the server runs on. The server's local time zone is a
    fixed offset from UTC. *)

Class Engine := {
  (** local time minus UTC, in milliseconds *)
  localTZA : Z;
  (** [Date.parse]: [None] for a string that yields an invalid date *)
  Date_parse : list N -> option Z;
  toLowerCase : list N -> list N;
  toUpperCase : list N -> list N;
  (** [d.toLocaleDateString('vi-VN')] *)
  toLocaleDateString_vi : option Z -> list N;
  (** [Number::toString] on a finite number that is not an integer *)
  fraction_toString : float -> list N
}.

(** Template-literal printing of a number. *)
Definition Number_toString `{Engine} (x : float) : jsstring :=
  match Prim2SF x with
  | S754_nan => utf16 "NaN"
  | S754_infinity false => utf16 "Infinity"
  | S754_infinity true => utf16 "-Infinity"
  | S754_zero _ => utf16 "0"
  | S754_finite _ _ _ =>
    match Num.to_Z x with
    | Some z => if (Z.abs z <? 10 ^ 21)%Z then Z_str z else fraction_toString x
    | None => fraction_toString x
    end
  end.

(** [new Date(s)] for a string [s]. *)
Definition new_Date `{Engine} (s : jsstring) : option Z := Date_parse s.

(** ** Request data *)

(** Optional string properties: ToBoolean, strict equality with a literal,
    and [x || default]. *)
Definition truthy_str (o : option (list N)) : bool :=
  match o with
  | Some (_ :: _) => true
  | _ => false
  end.

Definition is_str (o : option (list N)) (lit : list N) : bool :=
  match o with
  | Some s => str_eqb s lit
  | None => false
  end.

Definition or_str (o : option (list N)) (dflt : list N) : list N :=
  match o with
  | Some (c :: r) => c :: r
  | _ => dflt
  end.

(** A task or an event as the caller sends it; every property is optional. *)
Module Item.
Record t := {
  title : option (list N);
  category : option (list N);
  type : option (list N);
  priority : option (list N);
  status : option (list N);
  dueDate : option (list N);
  startTime : option (list N);
  endTime : option (list N);
  estimatedDuration : option float
}.
End Item.

(** The heatmap object: keys [<weekday>_<hour>] with their counts, in the
    order the caller's JSON lists them. *)
Abbreviation Heatmap := (list (list N * float)) (only parsing).

(** [taskStats], the aggregates the caller computed. [heatmapAnalysis] is an
    object the server only passes on; it is kept as its JSON text. *)
Module TaskStats.
Record t := {
  completedTasks : option float;
  overdueTasks : option float;
  productivityScore : option float;
  averageCompletionTime : option float;
  weeklyEventTime : option float;
  heatmapData : option (list (list N * float));
  heatmapAnalysis : option (list N)
}.
Definition empty : t :=
  {| completedTasks := None; overdueTasks := None; productivityScore := None;
     averageCompletionTime := None; weeklyEventTime := None;
     heatmapData := None; heatmapAnalysis := None |}.
End TaskStats.

Module TimeAccuracy.
Record t := {
  accuracy : option float;
  averageOverrun : option float
}.
Definition empty : t := {| accuracy := None; averageOverrun := None |}.
End TimeAccuracy.

Module HeatmapInfo.
Record t := {
  heatmapData : option (list (list N * float));
  heatmapAnalysis : option (list N);
  weeklyEventTime : option float
}.
End HeatmapInfo.

(** ** The stat encoder of the recommendations path: [createAnalyticsContext] *)

Module AnalyticsContext.
Record t := {
  totalEvents : nat;
  totalTasks : nat;
  totalItems : nat;
  completedTasks : float;
  overdueTasks : float;
  productivityScore : float;
  averageCompletionTime : float;
  timeEstimationAccuracy : float;
  averageOverrun : float;
  categoryStats : list (list N);
  priorityStats : list (list N);
  weeklyEventTime : float;
  completionRate : float;
  events : list Item.t;
  tasks : list Item.t;
  heatmapData : option (list (list N * float));
  heatmapAnalysis : option (list N)
}.
End AnalyticsContext.

Definition categories : list (list N) :=
  [utf16 "academic"; utf16 "work"; utf16 "personal"; utf16 "health";
   utf16 "social"].

Definition priorities : list (list N) :=
  [utf16 "urgent"; utf16 "high"; utf16 "medium"; utf16 "low"].

Definition is_event (item : Item.t) : bool :=
  is_str (Item.type item) (utf16 "event").

(** [item.type === 'task' || !item.type] *)
Definition is_task_or_untyped (item : Item.t) : bool :=
  is_str (Item.type item) (utf16 "task") || negb (truthy_str (Item.type item)).

Definition is_completed (item : Item.t) : bool :=
  is_str (Item.status item) (utf16 "completed").

(** [total > 0 ? (completed / total) * 100 : 0] *)
Definition rate (completed : float) (total : nat) : float :=
  if (0 <? total)%nat
  then PrimFloat.mul (PrimFloat.div completed (Num.of_nat total)) 100%float
  else 0%float.

Section Encoders.
Context `{Engine}.

(** One deadline of the priority rows: the local fields of
    [new Date(task.dueDate)], hours, minutes and seconds padded to two
    digits, the rest as the numbers print. *)
Definition encode_deadline (due : list N) : list N :=
  let f := option_map (JsDate.fields_at localTZA) (new_Date due) in
  let get (p : JsDate.fields -> Z) := option_map p f in
  let day := JsDate.field_str (get JsDate.date) in
  let month := JsDate.field_str (get (fun f => JsDate.month0 f + 1)%Z) in
  let year := JsDate.field_str (get JsDate.year) in
  let hours := padStart2 (JsDate.field_str (get JsDate.hours)) in
  let minutes := padStart2 (JsDate.field_str (get JsDate.minutes)) in
  let seconds := padStart2 (JsDate.field_str (get JsDate.seconds)) in
  let milliseconds := JsDate.field_str (get JsDate.milliseconds) in
  hours ++ utf16 ":" ++ minutes ++ utf16 ":" ++ seconds ++ utf16 "."
    ++ milliseconds ++ utf16 ":" ++ day ++ utf16 "." ++ month ++ utf16 ":"
    ++ year.

Definition category_row (allItems : list Item.t) (category : list N) : list N :=
  let categoryItems :=
    List.filter (fun item => is_str (Item.category item) category) allItems in
  let total := length categoryItems in
  category ++ utf16 "," ++ nat_str total.

Definition priority_row (taskItems : list Item.t) (priority : list N) : list N :=
  let priorityTasks :=
    List.filter (fun task => is_str (Item.priority task) priority) taskItems in
  let completed := length (List.filter is_completed priorityTasks) in
  let total := length priorityTasks in
  let completionRate := rate (Num.of_nat completed) total in
  let deadlines :=
    List.map (fun task => encode_deadline (or_str (Item.dueDate task) []))
      (List.filter (fun task => truthy_str (Item.dueDate task)) priorityTasks) in
  let deadlineString := join (utf16 ",") deadlines in
  priority ++ utf16 "," ++ nat_str total ++ utf16 "," ++ nat_str completed
    ++ utf16 "," ++ Number_toString (Num.Math_round completionRate)
    ++ utf16 "," ++ deadlineString.

Definition createAnalyticsContext
    (tasks : option (list Item.t)) (taskStats : option TaskStats.t)
    (timeAccuracy : option TimeAccuracy.t) (heatmapInfo : option HeatmapInfo.t)
    : result AnalyticsContext.t :=
  let! tasks := deref "tasks" tasks in
  let events := List.filter is_event tasks in
  let taskItems := List.filter is_task_or_untyped tasks in
  let totalEvents := length events in
  let totalTasks := length taskItems in
  let totalItems := (totalEvents + totalTasks)%nat in
  let! taskStats := deref "taskStats" taskStats in
  let completedTasks := Num.or_zero (TaskStats.completedTasks taskStats) in
  let overdueTasks := Num.or_zero (TaskStats.overdueTasks taskStats) in
  let productivityScore := Num.or_zero (TaskStats.productivityScore taskStats) in
  let averageCompletionTime :=
    Num.or_zero (TaskStats.averageCompletionTime taskStats) in
  let timeEstimationAccuracy :=
    Num.or_zero (timeAccuracy ≫= TimeAccuracy.accuracy) in
  let averageOverrun :=
    Num.or_zero (timeAccuracy ≫= TimeAccuracy.averageOverrun) in
  let heatmapData := heatmapInfo ≫= HeatmapInfo.heatmapData in
  let heatmapAnalysis := heatmapInfo ≫= HeatmapInfo.heatmapAnalysis in
  let weeklyEventTime :=
    Num.or_zero (heatmapInfo ≫= HeatmapInfo.weeklyEventTime) in
  let allItems := events ++ taskItems in
  let categoryStats := List.map (category_row allItems) categories in
  let priorityStats := List.map (priority_row taskItems) priorities in
  Ok {| AnalyticsContext.totalEvents := totalEvents;
        AnalyticsContext.totalTasks := totalTasks;
        AnalyticsContext.totalItems := totalItems;
        AnalyticsContext.completedTasks := completedTasks;
        AnalyticsContext.overdueTasks := overdueTasks;
        AnalyticsContext.productivityScore := productivityScore;
        AnalyticsContext.averageCompletionTime := averageCompletionTime;
        AnalyticsContext.timeEstimationAccuracy := timeEstimationAccuracy;
        AnalyticsContext.averageOverrun := averageOverrun;
        AnalyticsContext.categoryStats := categoryStats;
        AnalyticsContext.priorityStats := priorityStats;
        AnalyticsContext.weeklyEventTime := weeklyEventTime;
        AnalyticsContext.completionRate := rate completedTasks totalTasks;
        AnalyticsContext.events := events;
        AnalyticsContext.tasks := taskItems;
        AnalyticsContext.heatmapData := heatmapData;
        AnalyticsContext.heatmapAnalysis := heatmapAnalysis |}.

End Encoders.

(** ** Plain objects used as dictionaries

    Own properties in creation order. [keys] is the order of [Object.keys]:
    array-index keys first, ascending, then the other keys as created. Keys that
    name members of [Object.prototype] (such as [constructor]) are outside this
    model: reading one on a fresh object finds the inherited member. *)

Module Obj.

Fixpoint get {V} (o : list (list N * V)) (k : list N) : option V :=
  match o with
  | [] => None
  | (k', v) :: r => if str_eqb k' k then Some v else get r k
  end.

Fixpoint set {V} (o : list (list N * V)) (k : list N) (v : V)
    : list (list N * V) :=
  match o with
  | [] => [(k, v)]
  | (k', v') :: r => if str_eqb k' k then (k', v) :: r else (k', v') :: set r k v
  end.

(** A canonical numeric string below 2^32 - 1 is an array index. *)
Definition array_index (k : list N) : option Z :=
  match digits_prefix None k with
  | Some z =>
    if str_eqb (Z_str z) k && (z <? 4294967295)%Z then Some z else None
  | None => None
  end.

Fixpoint insert_index (x : Z * list N) (l : list (Z * list N))
    : list (Z * list N) :=
  match l with
  | [] => [x]
  | y :: r => if (fst x <? fst y)%Z then x :: y :: r else y :: insert_index x r
  end.

Definition keys {V} (o : list (list N * V)) : list (list N) :=
  let ks := List.map fst o in
  let indices :=
    List.fold_left
      (fun acc k =>
         match array_index k with
         | Some z => insert_index (z, k) acc
         | None => acc
         end) ks [] in
  List.map snd indices
    ++ List.filter (fun k => match array_index k with
                             | Some _ => false
                             | None => true
                             end) ks.

End Obj.

(** ** The stat encoder of the chat path: [createTasksContext] *)

Module Upcoming.
Record t := {
  title : option (list N);
  dueDate : list N;
  priority : list N;
  category : option (list N);
  type : option (list N)
}.
End Upcoming.

(** The context object. The properties after [upcomingDeadlines] in the
    second group are absent from the object returned for an empty
    collection. *)
Module TasksContext.
Record t := {
  totalTasks : nat;
  pendingTasks : nat;
  inProgressTasks : nat;
  completedTasks : nat;
  overdueTasks : nat;
  urgentTasks : nat;
  highPriorityTasks : nat;
  upcomingDeadlines : list Upcoming.t;
  heatmapData : option (list (list N * float));
  heatmapAnalysis : option (list N);
  totalEvents : option nat;
  totalItems : option nat;
  productivityScore : option float;
  completionRate : option float;
  weeklyEventTime : option float;
  categoryStats : option (list (list N));
  priorityStats : option (list (list N))
}.
End TasksContext.

Module PriorityData.
Record t := {
  total : nat;
  completed : nat;
  deadlines : list (list N)
}.
End PriorityData.

(** [Array.prototype.sort] with a comparator: a stable sort, written as
    insertion from the left. A comparator result that is not negative
    (zero, positive or NaN) leaves the earlier element first. *)
Section Sort.
Context {A : Type} (compare : A -> A -> float).

Fixpoint sort_insert (x : A) (l : list A) : list A :=
  match l with
  | [] => [x]
  | y :: r =>
    if PrimFloat.ltb (compare x y) 0%float then x :: y :: r
    else y :: sort_insert x r
  end.

Definition sort (l : list A) : list A :=
  List.fold_left (fun acc x => sort_insert x acc) l [].
End Sort.

Section TasksContextDef.
Context `{Engine}.

(** [t.type === 'event' ? (t.startTime || t.dueDate || '') : (t.dueDate || '')] *)
Definition schedule_key (t : Item.t) : list N :=
  if is_event t
  then or_str (Item.startTime t) (or_str (Item.dueDate t) [])
  else or_str (Item.dueDate t) [].

(** [new Date(t.dueDate || '') < new Date()] *)
Definition due_before (now : Z) (t : Item.t) : bool :=
  match new_Date (or_str (Item.dueDate t) []) with
  | Some d => (d <? now)%Z
  | None => false
  end.

Definition count_category (categoryCount : list (list N * nat)) (task : Item.t)
    : list (list N * nat) :=
  let category := or_str (Item.category task) (utf16 "other") in
  Obj.set categoryCount category
    (match Obj.get categoryCount category with
     | Some n => n
     | None => 0%nat
     end + 1)%nat.

Definition count_priority (priorityCount : list (list N * PriorityData.t))
    (task : Item.t) : list (list N * PriorityData.t) :=
  let priority := or_str (Item.priority task) (utf16 "none") in
  let data :=
    match Obj.get priorityCount priority with
    | Some d => d
    | None => {| PriorityData.total := 0; PriorityData.completed := 0;
                 PriorityData.deadlines := [] |}
    end in
  Obj.set priorityCount priority
    {| PriorityData.total := S (PriorityData.total data);
       PriorityData.completed :=
         if is_completed task then S (PriorityData.completed data)
         else PriorityData.completed data;
       PriorityData.deadlines :=
         if truthy_str (Item.dueDate task)
         then PriorityData.deadlines data ++ [or_str (Item.dueDate task) []]
         else PriorityData.deadlines data |}.

Definition priority_line (priority : list N) (data : PriorityData.t) : list N :=
  let completionRate :=
    if (0 <? PriorityData.total data)%nat
    then Num.Math_round
           (rate (Num.of_nat (PriorityData.completed data))
              (PriorityData.total data))
    else 0%float in
  let deadlineStr := join (utf16 ",") (PriorityData.deadlines data) in
  priority ++ utf16 "," ++ nat_str (PriorityData.total data) ++ utf16 ","
    ++ nat_str (PriorityData.completed data) ++ utf16 ","
    ++ Number_toString completionRate ++ utf16 "," ++ deadlineStr.

Definition createTasksContext (now : Z) (tasks : option (list Item.t))
    (heatmapInfo : option HeatmapInfo.t) : TasksContext.t :=
  match tasks with
  | None | Some [] =>
    {| TasksContext.totalTasks := 0;
       TasksContext.pendingTasks := 0;
       TasksContext.inProgressTasks := 0;
       TasksContext.completedTasks := 0;
       TasksContext.overdueTasks := 0;
       TasksContext.urgentTasks := 0;
       TasksContext.highPriorityTasks := 0;
       TasksContext.upcomingDeadlines := [];
       TasksContext.heatmapData := heatmapInfo ≫= HeatmapInfo.heatmapData;
       TasksContext.heatmapAnalysis := heatmapInfo ≫= HeatmapInfo.heatmapAnalysis;
       TasksContext.totalEvents := None;
       TasksContext.totalItems := None;
       TasksContext.productivityScore := None;
       TasksContext.completionRate := None;
       TasksContext.weeklyEventTime := None;
       TasksContext.categoryStats := None;
       TasksContext.priorityStats := None |}
  | Some tasks =>
    let events := List.filter is_event tasks in
    let totalTasks := length tasks in
    let totalEvents := length events in
    let totalItems := totalTasks in
    let count (p : Item.t -> bool) := length (List.filter p tasks) in
    let pendingTasks :=
      count (fun t => is_str (Item.status t) (utf16 "pending")) in
    let inProgressTasks :=
      count (fun t => is_str (Item.status t) (utf16 "in-progress")) in
    let completedTasks := count is_completed in
    let overdueTasks :=
      count (fun t => negb (is_event t) && negb (is_completed t)
                      && due_before now t) in
    let urgentTasks :=
      count (fun t => is_str (Item.priority t) (utf16 "urgent")) in
    let highPriorityTasks :=
      count (fun t => is_str (Item.priority t) (utf16 "high")) in
    let productivityScore :=
      Num.Math_round (rate (Num.of_nat completedTasks) totalTasks) in
    let completionRate :=
      Num.Math_round (rate (Num.of_nat completedTasks) totalTasks) in
    let weeklyEventTime :=
      List.fold_left
        (fun total event =>
           match Item.estimatedDuration event with
           | Some d => if Num.truthy d then PrimFloat.add total d else total
           | None => total
           end) events 0%float in
    let categoryCount := List.fold_left count_category tasks [] in
    let categoryStats :=
      List.map
        (fun category =>
           category ++ utf16 ","
             ++ nat_str (match Obj.get categoryCount category with
                         | Some n => n
                         | None => 0%nat
                         end))
        (Obj.keys categoryCount) in
    let priorityCount := List.fold_left count_priority tasks [] in
    let priorityStats :=
      List.flat_map
        (fun priority =>
           match Obj.get priorityCount priority with
           | Some data => [priority_line priority data]
           | None => []
           end)
        (Obj.keys priorityCount) in
    let time_of (t : Item.t) := Num.of_time (new_Date (schedule_key t)) in
    let upcomingDeadlines :=
      List.map
        (fun t =>
           {| Upcoming.title := Item.title t;
              Upcoming.dueDate := schedule_key t;
              Upcoming.priority := or_str (Item.priority t) (utf16 "none");
              Upcoming.category := Item.category t;
              Upcoming.type := Item.type t |})
        (firstn 5
           (sort (fun a b => PrimFloat.sub (time_of a) (time_of b))
              (List.filter (fun t => negb (is_completed t)) tasks))) in
    {| TasksContext.totalTasks := totalTasks;
       TasksContext.pendingTasks := pendingTasks;
       TasksContext.inProgressTasks := inProgressTasks;
       TasksContext.completedTasks := completedTasks;
       TasksContext.overdueTasks := overdueTasks;
       TasksContext.urgentTasks := urgentTasks;
       TasksContext.highPriorityTasks := highPriorityTasks;
       TasksContext.upcomingDeadlines := upcomingDeadlines;
       TasksContext.heatmapData := heatmapInfo ≫= HeatmapInfo.heatmapData;
       TasksContext.heatmapAnalysis := heatmapInfo ≫= HeatmapInfo.heatmapAnalysis;
       TasksContext.totalEvents := Some totalEvents;
       TasksContext.totalItems := Some totalItems;
       TasksContext.productivityScore := Some productivityScore;
       TasksContext.completionRate := Some completionRate;
       TasksContext.weeklyEventTime := Some weeklyEventTime;
       TasksContext.categoryStats := Some categoryStats;
       TasksContext.priorityStats := Some priorityStats |}
  end.

End TasksContextDef.

(** ** The fallback recommendations: [generateFallbackRecommendations] *)

Module MostActive.
Record t := {
  total : Z;
  category : list N
}.
End MostActive.

Section Recommendations.
Context `{Engine}.

(** The current week as the fallback computes it: from local midnight of the
    last Sunday ([now.getDate() - now.getDay()]) to the last millisecond of
    the sixth day after. *)
Definition startOfWeek (now : Z) : Z :=
  let f := JsDate.fields_at localTZA now in
  JsDate.setHours localTZA
    (JsDate.setDate localTZA now (JsDate.date f - JsDate.weekday f)) 0 0 0 0.

Definition endOfWeek (now : Z) : Z :=
  let s := startOfWeek now in
  JsDate.setHours localTZA
    (JsDate.setDate localTZA s (JsDate.date (JsDate.fields_at localTZA s) + 6))
    23 59 59 999.

(** The second [filter] of the weekly sum: both times present and the start
    inside the week (a comparison with an invalid date is false). *)
Definition in_week (now : Z) (task : Item.t) : bool :=
  if negb (truthy_str (Item.startTime task)) || negb (truthy_str (Item.endTime task))
  then false
  else match new_Date (or_str (Item.startTime task) []) with
       | Some startTime =>
         (startOfWeek now <=? startTime)%Z && (startTime <=? endOfWeek now)%Z
       | None => false
       end.

(** The [reduce] step: [(endTime.getTime() - startTime.getTime()) / (1000 * 60)]. *)
Definition add_minutes (total : float) (task : Item.t) : float :=
  if negb (truthy_str (Item.startTime task)) || negb (truthy_str (Item.endTime task))
  then total
  else
    let startTime := new_Date (or_str (Item.startTime task) []) in
    let endTime := new_Date (or_str (Item.endTime task) []) in
    PrimFloat.add total
      (PrimFloat.div
         (PrimFloat.sub (Num.of_time endTime) (Num.of_time startTime))
         (Num.of_Z (1000 * 60))).

Definition weeklyEventTime_of (now : Z) (tasks : list Item.t) : float :=
  List.fold_left add_minutes
    (List.filter (in_week now) (List.filter is_event tasks)) 0%float.

(** The [reduce] over the category tokens: each is split at its commas and
    its count read back with [parseInt]. *)
Definition more_active (max : MostActive.t) (stat : list N) : MostActive.t :=
  match split_on comma stat with
  | category :: total :: _ =>
    match parseInt total with
    | Some totalNum =>
      if (MostActive.total max <? totalNum)%Z
      then {| MostActive.total := totalNum; MostActive.category := category |}
      else max
    | None => max
    end
  | _ => max
  end.

Definition categoryName_vi (category : list N) : list N :=
  if str_eqb category (utf16 "academic") then utf16 "học tập"
  else if str_eqb category (utf16 "work") then utf16 "công việc"
  else if str_eqb category (utf16 "personal") then utf16 "cá nhân"
  else if str_eqb category (utf16 "health") then utf16 "sức khỏe"
  else if str_eqb category (utf16 "social") then utf16 "xã hội"
  else category.

Definition generateFallbackRecommendations (now : Z)
    (tasks : option (list Item.t)) (taskStats : option TaskStats.t)
    (timeAccuracy : option TimeAccuracy.t) (language : option (list N))
    : result (list (list N)) :=
  let language := default (utf16 "vi") language in
  let isVietnamese := str_eqb language (utf16 "vi") in
  let! tasks := deref "tasks" tasks in
  let totalTasks := length tasks in
  let! taskStats := deref "taskStats" taskStats in
  let completedTasks := Num.or_zero (TaskStats.completedTasks taskStats) in
  let overdueTasks := Num.or_zero (TaskStats.overdueTasks taskStats) in
  let productivityScore := Num.or_zero (TaskStats.productivityScore taskStats) in
  let accuracy := Num.or_zero (timeAccuracy ≫= TimeAccuracy.accuracy) in
  let weeklyEventTime := weeklyEventTime_of now tasks in
  let weeklyHours := PrimFloat.div weeklyEventTime 60%float in
  let categoryStats :=
    List.map
      (fun category =>
         let categoryTasks :=
           List.filter (fun task => is_str (Item.category task) category) tasks in
         category ++ utf16 "," ++ nat_str (length categoryTasks))
      categories in
  let mostActiveCategory :=
    List.fold_left more_active categoryStats
      {| MostActive.total := 0; MostActive.category := [] |} in
  let percentage :=
    Num.Math_round
      (PrimFloat.mul
         (PrimFloat.div (Num.of_Z (MostActive.total mostActiveCategory))
            (Num.of_nat totalTasks)) 100%float) in
  let balanced :=
    PrimFloat.leb 20%float weeklyHours && PrimFloat.leb weeklyHours 50%float
    && PrimFloat.eqb overdueTasks 0%float in
  if isVietnamese then
    let categoryName := categoryName_vi (MostActive.category mostActiveCategory) in
    let r1 :=
      if PrimFloat.ltb 50%float weeklyHours then
        [utf16 "Thời gian: Bạn đang dành quá nhiều thời gian cho việc học và "
          ++ utf16 "làm việc trong tuần. Hãy cân bằng với thời gian nghỉ ngơi để "
          ++ utf16 "tránh kiệt sức."]
      else if PrimFloat.ltb weeklyHours 20%float then
        [utf16 "Thời gian: Thời gian học tập và làm việc trong tuần khá ít. Có "
          ++ utf16 "thể tăng cường thêm để tối ưu hóa năng suất."]
      else
        [utf16 "Thời gian: Thời gian học tập và làm việc trong tuần của bạn khá "
          ++ utf16 "hợp lý. Hãy tiếp tục duy trì nhịp độ này."] in
    let r2 :=
      if PrimFloat.ltb 0%float overdueTasks then
        [utf16 "Deadline: Bạn có "
          ++ Number_toString overdueTasks
          ++ utf16 " nhiệm vụ đã quá hạn. Hãy ưu tiên hoàn thành những nhiệm vụ này "
          ++ utf16 "trước khi bắt đầu nhiệm vụ mới."]
      else [] in
    let r3 :=
      if (0 <? MostActive.total mostActiveCategory)%Z then
        if PrimFloat.ltb 50%float percentage then
          [utf16 "Sở thích: Bạn có xu hướng tập trung nhiều vào "
          ++ categoryName
          ++ utf16 " ("
          ++ Number_toString percentage
          ++ utf16 "% tổng số nhiệm vụ). Đây có thể là sở thích hoặc ưu tiên của "
          ++ utf16 "bạn."]
        else if PrimFloat.ltb percentage 10%float then
          [utf16 "Sở thích: Bạn ít quan tâm đến "
          ++ categoryName
          ++ utf16 " (chỉ "
          ++ Number_toString percentage
          ++ utf16 "% tổng số nhiệm vụ). Có thể cần cân bằng hơn."]
        else []
      else [] in
    let r4 :=
      if balanced then
        [utf16 "Quản lý thời gian: Cách sắp xếp thời gian và học tập của bạn "
          ++ utf16 "khá hợp lý. Hãy tiếp tục duy trì thói quen tốt này."]
      else
        [utf16 "Kỹ thuật: Sử dụng kỹ thuật Pomodoro (25 phút tập trung + 5 phút "
          ++ utf16 "nghỉ) để tăng hiệu quả học tập và làm việc."] in
    Ok (r1 ++ r2 ++ r3 ++ r4)
  else
    let r1 :=
      if PrimFloat.ltb 50%float weeklyHours then
        [utf16 "Time: You're spending too much time on study and work this "
          ++ utf16 "week. Balance with rest time to avoid burnout."]
      else if PrimFloat.ltb weeklyHours 20%float then
        [utf16 "Time: Your study and work time this week is quite low. Consider "
          ++ utf16 "increasing it to optimize productivity."]
      else
        [utf16 "Time: Your weekly study and work time is well balanced. Keep "
          ++ utf16 "maintaining this pace."] in
    let r2 :=
      if PrimFloat.ltb 0%float overdueTasks then
        [utf16 "Deadline: You have "
          ++ Number_toString overdueTasks
          ++ utf16 " overdue tasks. Prioritize completing these before starting new "
          ++ utf16 "ones."]
      else [] in
    let r3 :=
      if (0 <? MostActive.total mostActiveCategory)%Z then
        if PrimFloat.ltb 50%float percentage then
          [utf16 "Preferences: You tend to focus heavily on "
          ++ MostActive.category mostActiveCategory
          ++ utf16 " ("
          ++ Number_toString percentage
          ++ utf16 "% of total tasks). This might be your preference or priority."]
        else if PrimFloat.ltb percentage 10%float then
          [utf16 "Preferences: You pay less attention to "
          ++ MostActive.category mostActiveCategory
          ++ utf16 " (only "
          ++ Number_toString percentage
          ++ utf16 "% of total tasks). Consider balancing more."]
        else []
      else [] in
    let r4 :=
      if balanced then
        [utf16 "Time Management: Your time management and study approach is "
          ++ utf16 "quite reasonable. Keep maintaining these good habits."]
      else
        [utf16 "Technique: Use Pomodoro technique (25 minutes focus + 5 minutes "
          ++ utf16 "break) to increase study and work efficiency."] in
    Ok (r1 ++ r2 ++ r3 ++ r4).

(** ** Reading the model's recommendations: [parseRecommendations] *)

Definition labels : list (list N) :=
  [utf16 "Thời gian:";
   utf16 "Deadline:";
   utf16 "Sở thích:";
   utf16 "Gợi ý:";
   utf16 "Quản lý thời gian:";
   utf16 "Tối ưu lịch trình:";
   utf16 "Công cụ:";
   utf16 "Kỹ thuật:";
   utf16 "Time:";
   utf16 "Preferences:";
   utf16 "Suggestions:";
   utf16 "Time Management:";
   utf16 "Schedule Optimization:";
   utf16 "Tools:";
   utf16 "Technique:"].

Definition emoji_markers : list (list N) :=
  [utf16 "🎯"; utf16 "⚡"; utf16 "💡"; utf16 "🌟"].

Definition has_label (line : list N) : bool :=
  includes (utf16 ":") line && existsb (fun l => includes l line) labels.

Definition has_marker (line : list N) : bool :=
  existsb (fun e => includes e line) emoji_markers.

Definition nonblank (line : list N) : bool :=
  match trim line with
  | [] => false
  | _ :: _ => true
  end.

Definition parseRecommendations (now : Z) (aiResponse : list N)
    (language : option (list N)) : result (list (list N)) :=
  let lines := List.filter nonblank (split_on newline aiResponse) in
  let recommendations := List.map trim (List.filter has_label lines) in
  let recommendations :=
    match recommendations with
    | [] => List.map trim (List.filter has_marker lines)
    | _ :: _ => recommendations
    end in
  match recommendations with
  | [] =>
    generateFallbackRecommendations now (Some []) (Some TaskStats.empty)
      (Some TimeAccuracy.empty) language
  | _ :: _ => Ok recommendations
  end.

End Recommendations.

(** ** The fallback chat answer: [generateFallbackResponse] *)

(** A property printed inside a template literal: an absent one prints as
    the word undefined. *)
Definition print_str (o : option (list N)) : list N :=
  match o with
  | Some s => s
  | None => utf16 "undefined"
  end.

Section FallbackResponse.
Context `{Engine}.

Definition mentions (lowerMessage : list N) (words : list (list N)) : bool :=
  existsb (fun w => includes w lowerMessage) words.

Definition deadline_line (index : nat) (task : Upcoming.t) : list N :=
  nat_str (index + 1)
    ++ utf16 ". "
    ++ print_str (Upcoming.title task)
    ++ utf16 " - "
    ++ toLocaleDateString_vi (new_Date (Upcoming.dueDate task))
    ++ utf16 " ("
    ++ toUpperCase (Upcoming.priority task)
    ++ utf16 ")".

Definition generateFallbackResponse (now : Z) (userMessage : list N)
    (tasks : option (list Item.t)) : list N :=
  let context := createTasksContext now tasks None in
  let lowerMessage := toLowerCase userMessage in
  if mentions lowerMessage
       [utf16 "tạo"; utf16 "thêm"; utf16 "add"; utf16 "create"; utf16 "lịch"]
  then
    utf16 "Để tạo task/event, bạn có thể nói như:"
      ++ [newline]
      ++ [newline]
      ++ utf16 "• "
      ++ [dquote]
      ++ utf16 "Tạo lịch Toán 12 vào thứ 2 từ 7:00 đến 9:50 hàng tuần"
      ++ [dquote]
      ++ [newline]
      ++ utf16 "• "
      ++ [dquote]
      ++ utf16 "Tạo task học bài ngày mai ưu tiên cao"
      ++ [dquote]
      ++ [newline]
      ++ utf16 "• "
      ++ [dquote]
      ++ utf16 "Thêm event họp nhóm thứ 3 từ 14:00 đến 15:30"
      ++ [dquote]
      ++ [newline]
      ++ [newline]
      ++ utf16 "Tôi sẽ tự động điền form và hiển thị preview để bạn xác nhận!"
  else if mentions lowerMessage
            [utf16 "ưu tiên"; utf16 "priority"; utf16 "quan trọng"]
  then
    let response :=
      utf16 "Hiện tại bạn có "
      ++ nat_str (TasksContext.totalTasks context)
      ++ utf16 " tasks tổng cộng."
      ++ [newline]
      ++ [newline] in
    let response :=
      if (0 <? TasksContext.overdueTasks context)%nat
      then response
           ++ utf16 "Có "
      ++ nat_str (TasksContext.overdueTasks context)
      ++ utf16 " tasks quá hạn cần xử lý ngay!"
      ++ [newline]
      else response in
    let response :=
      if (0 <? TasksContext.urgentTasks context)%nat
      then response
           ++ nat_str (TasksContext.urgentTasks context)
      ++ utf16 " tasks urgent cần ưu tiên hôm nay."
      ++ [newline]
      else response in
    let response :=
      if (0 <? TasksContext.highPriorityTasks context)%nat
      then response
           ++ nat_str (TasksContext.highPriorityTasks context)
      ++ utf16 " tasks high priority cần lên kế hoạch tuần này."
      ++ [newline]
      else response in
    response
      ++ [newline]
      ++ utf16 "Gợi ý: Chia nhỏ tasks lớn thành các phần 25-30 phút để dễ quản "
      ++ utf16 "lý hơn!"
  else if mentions lowerMessage
            [utf16 "lịch"; utf16 "schedule"; utf16 "deadline"; utf16 "hạn"]
  then
    match TasksContext.upcomingDeadlines context with
    | _ :: _ =>
      let upcomingTasks := firstn 3 (TasksContext.upcomingDeadlines context) in
      utf16 "Deadlines sắp tới:"
        ++ [newline]
        ++ join [newline] (imap deadline_line upcomingTasks)
        ++ [newline]
          ++ [newline]
          ++ utf16 "Lời khuyên: Ưu tiên tasks có deadline trong 24-48h tới, nhớ "
          ++ utf16 "dành thời gian buffer!"
    | [] =>
      utf16 "Hiện tại bạn chưa có deadline nào sắp tới. Đây là cơ hội tốt để "
      ++ utf16 "lên kế hoạch cho các tasks dài hạn!"
    end
  else if mentions lowerMessage
            [utf16 "hiệu suất"; utf16 "productivity"; utf16 "thống kê"; utf16 "phân tích"]
  then
    let completionRate :=
      if (0 <? TasksContext.totalTasks context)%nat
      then Num.Math_round
             (PrimFloat.mul
                (PrimFloat.div (Num.of_nat (TasksContext.completedTasks context))
                   (Num.of_nat (TasksContext.totalTasks context))) 100%float)
      else 0%float in
    utf16 "Hiệu suất hiện tại:"
      ++ [newline]
      ++ utf16 "• Hoàn thành: "
      ++ Number_toString completionRate
      ++ utf16 "% ("
      ++ nat_str (TasksContext.completedTasks context)
      ++ utf16 "/"
      ++ nat_str (TasksContext.totalTasks context)
      ++ utf16 " tasks)"
      ++ [newline]
      ++ utf16 "• Đang thực hiện: "
      ++ nat_str (TasksContext.inProgressTasks context)
      ++ utf16 " tasks"
      ++ [newline]
      ++ utf16 "• Quá hạn: "
      ++ nat_str (TasksContext.overdueTasks context)
      ++ utf16 " tasks"
      ++ [newline]
      ++ [newline]
      ++ utf16 "Tips cải thiện:"
      ++ [newline]
      ++ utf16 "• Sử dụng Pomodoro 25 phút + 5 phút nghỉ"
      ++ [newline]
      ++ utf16 "• Tập trung 1 task tại một thời điểm"
      ++ [newline]
      ++ utf16 "• Đặt deadline thực tế hơn"
  else if mentions lowerMessage
            [utf16 "thời gian"; utf16 "time"; utf16 "quản lý"]
  then
    let focus :=
      if (0 <? TasksContext.overdueTasks context)%nat
      then nat_str (TasksContext.overdueTasks context)
             ++ utf16 " tasks quá hạn trước"
      else utf16 "các tasks có deadline gần nhất" in
    utf16 "Quản lý thời gian hiệu quả:"
      ++ [newline]
      ++ [newline]
      ++ utf16 "Nguyên tắc cơ bản:"
      ++ [newline]
      ++ utf16 "• Quy tắc 80/20: 20% công việc tạo ra 80% kết quả"
      ++ [newline]
      ++ utf16 "• Time blocking: Chia ngày thành các khung thời gian cụ thể"
      ++ [newline]
      ++ utf16 "• Buffer time: Dành 25% thời gian cho việc không lường trước"
      ++ [newline]
      ++ [newline]
      ++ utf16 "Tình trạng hiện tại: "
      ++ nat_str (TasksContext.totalTasks context)
      ++ utf16 " tasks tổng cộng, "
      ++ nat_str (TasksContext.overdueTasks context)
      ++ utf16 " quá hạn"
      ++ [newline]
      ++ [newline]
      ++ utf16 "Gợi ý: Tập trung hoàn thành "
      ++ focus
      ++ utf16 "!"
  else if mentions lowerMessage
            [utf16 "giúp"; utf16 "help"; utf16 "hướng dẫn"]
  then
    utf16 "Tôi có thể giúp bạn:"
      ++ [newline]
      ++ [newline]
      ++ utf16 "• Tạo task: "
      ++ [dquote]
      ++ utf16 "Tạo task học bài với mô tả ôn tập toán, ngày hạn ngày mai, ưu "
      ++ utf16 "tiên cao"
      ++ [dquote]
      ++ [newline]
      ++ utf16 "• Xem ưu tiên: "
      ++ [dquote]
      ++ utf16 "Ưu tiên công việc"
      ++ [dquote]
      ++ utf16 ", "
      ++ [dquote]
      ++ utf16 "Tasks quan trọng"
      ++ [dquote]
      ++ [newline]
      ++ utf16 "• Lịch trình: "
      ++ [dquote]
      ++ utf16 "Deadline sắp tới"
      ++ [dquote]
      ++ utf16 ", "
      ++ [dquote]
      ++ utf16 "Lịch tuần này"
      ++ [dquote]
      ++ [newline]
      ++ utf16 "• Hiệu suất: "
      ++ [dquote]
      ++ utf16 "Phân tích hiệu suất"
      ++ [dquote]
      ++ utf16 ", "
      ++ [dquote]
      ++ utf16 "Thống kê tasks"
      ++ [dquote]
      ++ [newline]
      ++ utf16 "• Quản lý thời gian: "
      ++ [dquote]
      ++ utf16 "Tips quản lý thời gian"
      ++ [dquote]
      ++ [newline]
      ++ [newline]
      ++ utf16 "Chỉ cần hỏi tự nhiên, tôi sẽ hiểu và giúp bạn!"
  else if mentions lowerMessage
            [utf16 "xin chào"; utf16 "hello"; utf16 "hi"; utf16 "chào"]
  then
    utf16 "Xin chào! Tôi là AI Assistant của N-Timer."
      ++ [newline]
      ++ [newline]
      ++ utf16 "Tình trạng hiện tại:"
      ++ [newline]
      ++ utf16 "• "
      ++ nat_str (TasksContext.totalTasks context)
      ++ utf16 " tasks tổng cộng"
      ++ [newline]
      ++ utf16 "• "
      ++ nat_str (TasksContext.pendingTasks context)
      ++ utf16 " đang chờ"
      ++ [newline]
      ++ utf16 "• "
      ++ nat_str (TasksContext.inProgressTasks context)
      ++ utf16 " đang thực hiện"
      ++ [newline]
      ++ utf16 "• "
      ++ nat_str (TasksContext.completedTasks context)
      ++ utf16 " đã hoàn thành"
      ++ [newline]
      ++ utf16 "• "
      ++ nat_str (TasksContext.overdueTasks context)
      ++ utf16 " quá hạn"
      ++ [newline]
      ++ [newline]
      ++ utf16 "Tôi có thể giúp bạn tạo task, phân tích ưu tiên, quản lý thời "
      ++ utf16 "gian và nhiều hơn nữa!"
      ++ [newline]
      ++ [newline]
      ++ utf16 "Bạn muốn làm gì hôm nay?"
  else
    utf16 "Tôi hiểu bạn đang hỏi về: "
      ++ [dquote]
      ++ userMessage
      ++ [dquote]
      ++ [newline]
      ++ [newline]
      ++ utf16 "Tình trạng hiện tại: "
      ++ nat_str (TasksContext.totalTasks context)
      ++ utf16 " tasks tổng cộng"
      ++ [newline]
      ++ [newline]
      ++ utf16 "Tôi có thể giúp:"
      ++ [newline]
      ++ utf16 "• Tạo task mới"
      ++ [newline]
      ++ utf16 "• Phân tích ưu tiên công việc"
      ++ [newline]
      ++ utf16 "• Xem lịch trình và deadlines"
      ++ [newline]
      ++ utf16 "• Tips quản lý thời gian"
      ++ [newline]
      ++ utf16 "• Phân tích hiệu suất"
      ++ [newline]
      ++ [newline]
      ++ utf16 "Hãy hỏi cụ thể hơn để tôi có thể hỗ trợ tốt nhất!".

End FallbackResponse.

(** ** JSON texts: [JSON.parse] *)

Module Json.

(** A parsed value. A number is kept as its lexeme: nothing here computes
    with it. An object lists its members as written; a later member with
    the same name wins. *)
#[local] Unset Elimination Schemes.
Inductive value :=
| Null
| Bool (b : bool)
| Number (lexeme : list N)
| Str (s : list N)
| Array (elements : list value)
| Object (members : list (list N * value)).
#[local] Set Elimination Schemes.

Definition is_json_ws (c : N) : bool :=
  ((c =? 0x20) || (c =? 0x09) || (c =? 0x0A) || (c =? 0x0D))%N.

Fixpoint skip_ws (s : list N) : list N :=
  match s with
  | c :: r => if is_json_ws c then skip_ws r else s
  | [] => []
  end.

Definition is_digit (c : N) : bool := ((48 <=? c) && (c <=? 57))%N.

Definition hex_digit (c : N) : option N :=
  if is_digit c then Some (c - 48)%N
  else if ((65 <=? c) && (c <=? 70))%N then Some (c - 55)%N
  else if ((97 <=? c) && (c <=? 102))%N then Some (c - 87)%N
  else None.

(** The characters of a string after its opening quote, up to the closing
    one. *)
Fixpoint string_body (acc : list N) (s : list N) : option (list N * list N) :=
  match s with
  | [] => None
  | c :: r =>
    if (c =? 34)%N then Some (rev acc, r)
    else if (c =? 92)%N then
      match r with
      | [] => None
      | e :: r' =>
        if (e =? 34)%N || (e =? 92)%N || (e =? 47)%N then string_body (e :: acc) r'
        else if (e =? 98)%N then string_body (8%N :: acc) r'
        else if (e =? 102)%N then string_body (12%N :: acc) r'
        else if (e =? 110)%N then string_body (10%N :: acc) r'
        else if (e =? 114)%N then string_body (13%N :: acc) r'
        else if (e =? 116)%N then string_body (9%N :: acc) r'
        else if (e =? 117)%N then
          match r' with
          | h1 :: h2 :: h3 :: h4 :: r'' =>
            match hex_digit h1, hex_digit h2, hex_digit h3, hex_digit h4 with
            | Some a, Some b, Some c', Some d =>
              string_body ((((a * 16 + b) * 16 + c') * 16 + d)%N :: acc) r''
            | _, _, _, _ => None
            end
          | _ => None
          end
        else None
      end
    else if (c <? 0x20)%N then None
    else string_body (c :: acc) r
  end.

Fixpoint span_digits (s : list N) : list N * list N :=
  match s with
  | c :: r =>
    if is_digit c then let '(d, rest) := span_digits r in (c :: d, rest)
    else ([], s)
  | [] => ([], [])
  end.

(** A number: an optional minus, an integer part without a leading zero, an
    optional fraction and an optional exponent. *)
Definition number_lexeme (s : list N) : option (list N * list N) :=
  let '(sign, s1) :=
    match s with
    | 45%N :: r => ([45%N], r)
    | _ => ([], s)
    end in
  let int_part :=
    match s1 with
    | 48%N :: r => Some ([48%N], r)
    | c :: _ => if is_digit c then Some (span_digits s1) else None
    | [] => None
    end in
  match int_part with
  | None => None
  | Some (i, s2) =>
    let frac :=
      match s2 with
      | 46%N :: r =>
        match span_digits r with
        | ([], _) => None
        | (d, rest) => Some (46%N :: d, rest)
        end
      | _ => Some ([], s2)
      end in
    match frac with
    | None => None
    | Some (f, s3) =>
      let exp_of (e : N) (r : list N) :=
        let '(sg, r1) :=
          match r with
          | 43%N :: r1 => ([43%N], r1)
          | 45%N :: r1 => ([45%N], r1)
          | _ => ([], r)
          end in
        match span_digits r1 with
        | ([], _) => None
        | (d, rest) => Some (e :: sg ++ d, rest)
        end in
      let exponent :=
        match s3 with
        | 101%N :: r => exp_of 101%N r
        | 69%N :: r => exp_of 69%N r
        | _ => Some ([], s3)
        end in
      match exponent with
      | None => None
      | Some (e, s4) => Some (sign ++ i ++ f ++ e, s4)
      end
    end
  end.

Definition literal (word : list N) (v : value) (s : list N)
    : option (value * list N) :=
  if startsWith word s then Some (v, skipn (length word) s) else None.

(** Recursive descent. Every call on a nested value or on the next element
    spends one unit of [fuel]; a text of n code units needs at most n + 1. *)
Fixpoint parse_value (fuel : nat) (s : list N) : option (value * list N) :=
  match fuel with
  | O => None
  | S fuel =>
    match skip_ws s with
    | [] => None
    | c :: r =>
      if (c =? 123)%N then
        match skip_ws r with
        | 125%N :: r' => Some (Object [], r')
        | _ =>
          match parse_members fuel r with
          | Some (ms, r') => Some (Object ms, r')
          | None => None
          end
        end
      else if (c =? 91)%N then
        match skip_ws r with
        | 93%N :: r' => Some (Array [], r')
        | _ =>
          match parse_elements fuel r with
          | Some (vs, r') => Some (Array vs, r')
          | None => None
          end
        end
      else if (c =? 34)%N then
        match string_body [] r with
        | Some (str, r') => Some (Str str, r')
        | None => None
        end
      else if (c =? 116)%N then literal (utf16 "true") (Bool true) (c :: r)
      else if (c =? 102)%N then literal (utf16 "false") (Bool false) (c :: r)
      else if (c =? 110)%N then literal (utf16 "null") Null (c :: r)
      else
        match number_lexeme (c :: r) with
        | Some (lx, r') => Some (Number lx, r')
        | None => None
        end
    end
  end
with parse_elements (fuel : nat) (s : list N) : option (list value * list N) :=
  match fuel with
  | O => None
  | S fuel =>
    match parse_value fuel s with
    | None => None
    | Some (v, r) =>
      match skip_ws r with
      | 44%N :: r' =>
        match parse_elements fuel r' with
        | Some (vs, r'') => Some (v :: vs, r'')
        | None => None
        end
      | 93%N :: r' => Some ([v], r')
      | _ => None
      end
    end
  end
with parse_members (fuel : nat) (s : list N)
    : option (list (list N * value) * list N) :=
  match fuel with
  | O => None
  | S fuel =>
    match skip_ws s with
    | 34%N :: r =>
      match string_body [] r with
      | None => None
      | Some (k, r1) =>
        match skip_ws r1 with
        | 58%N :: r2 =>
          match parse_value fuel r2 with
          | None => None
          | Some (v, r3) =>
            match skip_ws r3 with
            | 44%N :: r4 =>
              match parse_members fuel r4 with
              | Some (ms, r5) => Some ((k, v) :: ms, r5)
              | None => None
              end
            | 125%N :: r4 => Some ([(k, v)], r4)
            | _ => None
            end
          end
        | _ => None
        end
      end
    | _ => None
    end
  end.

(** [JSON.parse(text)]: one value, white space around it, nothing else. *)
Definition parse (text : list N) : result value :=
  match parse_value (S (length text)) text with
  | Some (v, rest) =>
    match skip_ws rest with
    | [] => Ok v
    | _ :: _ => Throw SyntaxError
    end
  | None => Throw SyntaxError
  end.

(** [v.name] on a parsed value: the last member of that name of an object,
    [undefined] ([None] inside [Ok]) on any other value but [null], on which
    the access throws. *)
Fixpoint last_member (ms : list (list N * value)) (name : list N) : option value :=
  match ms with
  | [] => None
  | (k, v) :: r =>
    match last_member r name with
    | Some v' => Some v'
    | None => if str_eqb k name then Some v else None
    end
  end.

Definition prop (v : value) (name : string) : result (option value) :=
  match v with
  | Null => Throw (TypeError (utf16 name))
  | Object ms => Ok (last_member ms (utf16 name))
  | _ => Ok None
  end.

End Json.

(** ** The fence pattern of the chat handler

    The regular expression [/```json\s*([\s\S]*?)\s*```/] (no flags), matched
    as a backtracking engine does: the leftmost start, as much white space
    as possible after the tag, then the shortest body after which optional
    white space and a closing fence follow. *)

Module Fence.

Definition open_tag : list N := utf16 "```json".
Definition close_tag : list N := utf16 "```".

(** Does [\s*```] match at the head of [s]? What follows the match. *)
Definition closes (s : list N) : option (list N) :=
  let s' := trimStart s in
  if startsWith close_tag s' then Some (skipn (length close_tag) s') else None.

(** The lazy group and the rest of the pattern: the captured body and what
    follows the whole match. *)
Fixpoint lazy_body (s : list N) : option (list N * list N) :=
  match closes s with
  | Some rest => Some ([], rest)
  | None =>
    match s with
    | [] => None
    | c :: r =>
      match lazy_body r with
      | Some (body, rest) => Some (c :: body, rest)
      | None => None
      end
    end
  end.

(** The greedy white space after the tag, giving back when the rest fails. *)
Fixpoint after_tag (s : list N) : option (list N * list N) :=
  match s with
  | c :: r =>
    if is_ws c then
      match after_tag r with
      | Some m => Some m
      | None => lazy_body s
      end
    else lazy_body s
  | [] => lazy_body s
  end.

Definition match_here (s : list N) : option (list N * list N) :=
  if startsWith open_tag s then after_tag (skipn (length open_tag) s) else None.

(** [text.match(re)]: group 1 of the leftmost match, and the text after the
    match. *)
Fixpoint exec (s : list N) : option (list N * list N) :=
  match match_here s with
  | Some m => Some m
  | None =>
    match s with
    | [] => None
    | _ :: r => exec r
    end
  end.

End Fence.

(** ** Conversation memory

    [chatHistory] maps a user to an array of turns. Arrays are objects: the
    map holds a reference, and so does every call of
    [summarizeAndResetHistory] that is waiting for the summarizer. The arrays
    therefore live in a heap, and a reference is an index into it. *)

Module Turn.
Record t := {
  message : list N;
  isUser : bool;
  timestamp : list N
}.
End Turn.

(** A call of [summarizeAndResetHistory] suspended at its [await]: its two
    arguments and the prompt it sent. *)
Module Suspended.
Record t := {
  userId : list N;
  history : nat;
  summaryPrompt : list N
}.
End Suspended.

Record Memory := {
  arrays : list (list Turn.t);
  chatHistory : gmap (list N) nat;
  awaiting : list Suspended.t
}.

Definition MAX_HISTORY_LENGTH : nat := 5.

Definition empty_memory : Memory :=
  {| arrays := []; chatHistory := ∅; awaiting := [] |}.

(** The turns of an array, and the history stored for a user. *)
Definition turns_of (m : Memory) (ref : nat) : list Turn.t :=
  default [] (arrays m !! ref).

Definition stored_history (m : Memory) (userId : list N) : list Turn.t :=
  match chatHistory m !! userId with
  | Some ref => turns_of m ref
  | None => []
  end.

(** Code that reads and writes the memory and may throw. *)
Definition M (A : Type) : Type := Memory -> result A * Memory.

Definition ret {A} (a : A) : M A := fun m => (Ok a, m).
Definition throw {A} (e : exn) : M A := fun m => (Throw e, m).
Definition bindM {A B} (c : M A) (k : A -> M B) : M B :=
  fun m =>
    match c m with
    | (Ok a, m') => k a m'
    | (Throw e, m') => (Throw e, m')
    end.
Definition catchM {A} (c : M A) (h : exn -> M A) : M A :=
  fun m =>
    match c m with
    | (Ok a, m') => (Ok a, m')
    | (Throw e, m') => h e m'
    end.

Notation "'do!' x ':=' c 'in' k" := (bindM c (fun x => k))
  (at level 10, x name, c at level 100, k at level 200).

(** [new Date().toISOString()] *)
Definition pad_left (width : nat) (s : list N) : list N :=
  repeat 48%N (width - length s) ++ s.

Definition toISOString (t : Z) : list N :=
  let f := JsDate.fields_at 0 t in
  pad_left 4 (Z_str (JsDate.year f)) ++ utf16 "-"
    ++ pad_left 2 (Z_str (JsDate.month0 f + 1)) ++ utf16 "-"
    ++ pad_left 2 (Z_str (JsDate.date f)) ++ utf16 "T"
    ++ pad_left 2 (Z_str (JsDate.hours f)) ++ utf16 ":"
    ++ pad_left 2 (Z_str (JsDate.minutes f)) ++ utf16 ":"
    ++ pad_left 2 (Z_str (JsDate.seconds f)) ++ utf16 "."
    ++ pad_left 3 (Z_str (JsDate.milliseconds f)) ++ utf16 "Z".

Definition new_array (turns : list Turn.t) : M nat :=
  fun m =>
    (Ok (length (arrays m)),
     {| arrays := arrays m ++ [turns];
        chatHistory := chatHistory m;
        awaiting := awaiting m |}).

Definition chatHistory_set (userId : list N) (ref : nat) : M unit :=
  fun m =>
    (Ok tt,
     {| arrays := arrays m;
        chatHistory := <[userId := ref]> (chatHistory m);
        awaiting := awaiting m |}).

Definition getOrCreateUserHistory (userId : list N) : M nat :=
  fun m =>
    match chatHistory m !! userId with
    | Some ref => (Ok ref, m)
    | None => (do! ref := new_array [] in
               do! _ := chatHistory_set userId ref in
               ret ref) m
    end.

(** [history.push(turn)], and the new length. *)
Definition push (ref : nat) (turn : Turn.t) : M nat :=
  fun m =>
    let turns := turns_of m ref ++ [turn] in
    (Ok (length turns),
     {| arrays := <[ref := turns]> (arrays m);
        chatHistory := chatHistory m;
        awaiting := awaiting m |}).

Definition speaker_line (h : Turn.t) : list N :=
  (if Turn.isUser h then utf16 "User" else utf16 "AI") ++ utf16 ": "
    ++ Turn.message h.

Definition summaryPrompt_of (history : list Turn.t) : list N :=
  let conversationText := join [newline] (List.map speaker_line history) in
  utf16 "Hãy tóm tắt cuộc trò chuyện sau đây giữa user và AI assistant "
    ++ utf16 "về quản lý thời gian. Tóm tắt ngắn gọn các chủ đề chính, yêu "
    ++ utf16 "cầu của user, và phản hồi của AI. Giữ lại thông tin quan trọng "
    ++ utf16 "để AI có thể tiếp tục cuộc trò chuyện một cách tự nhiên."
    ++ [newline; newline] ++ utf16 "Cuộc trò chuyện:" ++ [newline]
    ++ conversationText ++ [newline; newline] ++ utf16 "Tóm tắt:".

(** [summarizeAndResetHistory] up to its [await]: the prompt is built from
    the array as it is now and sent; the call is suspended. What the caller
    gets is the promise, here the position of the suspended call. *)
Definition summarizeAndResetHistory (userId : list N) (history : nat) : M nat :=
  fun m =>
    (Ok (length (awaiting m)),
     {| arrays := arrays m;
        chatHistory := chatHistory m;
        awaiting :=
          awaiting m
            ++ [{| Suspended.userId := userId;
                   Suspended.history := history;
                   Suspended.summaryPrompt :=
                     summaryPrompt_of (turns_of m history) |}] |}).

(** [slice(-3)] *)
Definition last3 {A} (l : list A) : list A := skipn (length l - 3) l.

(** [summarizeAndResetHistory] after its [await]: the summarizer answered
    with a text, or the call failed and the [catch] block runs. The promise
    resolves either way: with the summary, or with [null]. *)
Definition summarizeAndResetHistory_resume (now : Z) (call : Suspended.t)
    (answer : option (list N)) : M (option (list N)) :=
  match answer with
  | Some summary =>
    do! ref := new_array
      [{| Turn.message := utf16 "[TÓM TẮT CUỘC TRÒ CHUYỆN TRƯỚC] " ++ summary;
          Turn.isUser := false;
          Turn.timestamp := toISOString now |}] in
    do! _ := chatHistory_set (Suspended.userId call) ref in
    ret (Some summary)
  | None =>
    fun m =>
      (do! recentHistory := new_array (last3 (turns_of m (Suspended.history call))) in
       do! _ := chatHistory_set (Suspended.userId call) recentHistory in
       ret None) m
  end.

(** The value [addMessageToHistory] returns is [null] ([None]) or the
    promise of the summarization it started. *)
Definition addMessageToHistory (now : Z) (userId message : list N)
    (isUser : bool) : M (option nat) :=
  do! history := getOrCreateUserHistory userId in
  do! len := push history
    {| Turn.message := message; Turn.isUser := isUser;
       Turn.timestamp := toISOString now |} in
  if (MAX_HISTORY_LENGTH <? len)%nat
  then do! promise := summarizeAndResetHistory userId history in
       ret (Some promise)
  else ret None.

Definition getHistoryContext (userId : list N) : M (list N) :=
  do! history := getOrCreateUserHistory userId in
  fun m =>
    match turns_of m history with
    | [] => (Ok [], m)
    | turns =>
      (Ok (utf16 "LỊCH SỬ CUỘC TRÒ CHUYỆN:" ++ [newline]
             ++ join [newline] (List.map speaker_line turns)
             ++ [newline; newline] ++ utf16 "---"), m)
    end.

(** The body of the reset endpoint. *)
Definition reset_history (userId : list N) : M unit :=
  fun m =>
    (Ok tt,
     {| arrays := arrays m;
        chatHistory := delete userId (chatHistory m);
        awaiting := awaiting m |}).

(** The summarizer settles the [k]-th waiting call. *)
Definition settle (now : Z) (k : nat) (answer : option (list N)) : M unit :=
  fun m =>
    match awaiting m !! k with
    | None => (Ok tt, m)
    | Some call =>
      (do! _ := summarizeAndResetHistory_resume now call answer in ret tt)
        {| arrays := arrays m;
           chatHistory := chatHistory m;
           awaiting := delete k (awaiting m) |}
    end.

(** ** The model call

    What [await Promise.race([model.generateContent(prompt), timer])] and the
    reading of the answer's text come to: a text, a failure of the call, or
    the 30-second timer rejecting first. *)

Inductive ModelOutcome :=
| Answered (text : list N)
| Failed
| TimedOut.

(** What a handler sends: a 400 with an error message, or a JSON body. *)
Inductive Reply (A : Type) :=
| BadRequest (error : list N)
| Json (body : A).
Arguments BadRequest {A} error.
Arguments Json {A} body.

(** ** The recommendations endpoint *)

Module RecRequest.
Record t := {
  tasks : option (list Item.t);
  taskStats : option TaskStats.t;
  timeAccuracy : option TimeAccuracy.t;
  language : option (list N)
}.
End RecRequest.

Module RecResponse.
Record t := {
  success : bool;
  recommendations : list (list N);
  timestamp : list N;
  note : option (list N);
  debug : option (bool * nat)
}.
End RecResponse.

Section RecommendationsEndpoint.
Context `{Engine}.

(** The [try] block of the handler. *)
Definition recommendations_try (FORCE_FALLBACK : bool) (now : Z)
    (body : RecRequest.t) (outcome : ModelOutcome)
    : result (Reply RecResponse.t) :=
  let language := default (utf16 "vi") (RecRequest.language body) in
  match RecRequest.tasks body, RecRequest.taskStats body with
  | Some tasks, Some taskStats =>
    let timeAccuracy := RecRequest.timeAccuracy body in
    let heatmapData := TaskStats.heatmapData taskStats in
    let heatmapAnalysis := TaskStats.heatmapAnalysis taskStats in
    let weeklyEventTime := Num.or_zero (TaskStats.weeklyEventTime taskStats) in
    let! analyticsContext :=
      createAnalyticsContext (Some tasks) (Some taskStats) timeAccuracy
        (Some {| HeatmapInfo.heatmapData := heatmapData;
                 HeatmapInfo.heatmapAnalysis := heatmapAnalysis;
                 HeatmapInfo.weeklyEventTime := Some weeklyEventTime |}) in
    if FORCE_FALLBACK then
      let! fallbackRecommendations :=
        generateFallbackRecommendations now (Some tasks) (Some taskStats)
          timeAccuracy (Some language) in
      Ok (Json
            {| RecResponse.success := true;
               RecResponse.recommendations := fallbackRecommendations;
               RecResponse.timestamp := toISOString now;
               RecResponse.note :=
                 Some (utf16 "Using fallback recommendations due to: "
                         ++ utf16 "FORCE_FALLBACK mode enabled");
               RecResponse.debug :=
                 Some (FORCE_FALLBACK,
                       AnalyticsContext.totalTasks analyticsContext) |})
    else
      let answered :=
        match outcome with
        | Answered aiResponse =>
          let! recommendations :=
            parseRecommendations now aiResponse (Some language) in
          Ok (Json
                {| RecResponse.success := true;
                   RecResponse.recommendations := recommendations;
                   RecResponse.timestamp := toISOString now;
                   RecResponse.note := None;
                   RecResponse.debug := None |})
        | Failed => Throw (TypeError (utf16 "AI API error"))
        | TimedOut => Throw (TypeError (utf16 "AI API timeout after 30 seconds"))
        end in
      match answered with
      | Ok reply => Ok reply
      | Throw aiError =>
        let! fallbackRecommendations :=
          generateFallbackRecommendations now (Some tasks) (Some taskStats)
            timeAccuracy (Some language) in
        Ok (Json
              {| RecResponse.success := true;
                 RecResponse.recommendations := fallbackRecommendations;
                 RecResponse.timestamp := toISOString now;
                 RecResponse.note :=
                   Some (utf16 "Using fallback recommendations due to AI API error");
                 RecResponse.debug := None |})
      end
  | _, _ => Ok (BadRequest (utf16 "Tasks and taskStats are required"))
  end.

(** The handler: the [try] block, and the outer [catch], which builds the
    fallback from the raw body. A [Throw] here is the handler failing without
    an answer. *)
Definition recommendations_handler (FORCE_FALLBACK : bool) (now : Z)
    (body : RecRequest.t) (outcome : ModelOutcome)
    : result (Reply RecResponse.t) :=
  match recommendations_try FORCE_FALLBACK now body outcome with
  | Ok reply => Ok reply
  | Throw error =>
    let! fallbackRecommendations :=
      generateFallbackRecommendations now (RecRequest.tasks body)
        (RecRequest.taskStats body) (RecRequest.timeAccuracy body)
        (RecRequest.language body) in
    Ok (Json
          {| RecResponse.success := true;
             RecResponse.recommendations := fallbackRecommendations;
             RecResponse.timestamp := toISOString now;
             RecResponse.note :=
               Some (utf16 "Using fallback recommendations due to API error");
             RecResponse.debug := None |})
  end.

End RecommendationsEndpoint.

(** ** The chat endpoint *)

Module ChatRequest.
Record t := {
  message : option (list N);
  tasks : option (list Item.t);
  taskStats : option TaskStats.t;
  userId : option (list N)
}.
End ChatRequest.

Module ChatResponse.
Record t := {
  success : bool;
  response : list N;
  timestamp : list N;
  note : option (list N);
  debug : option (bool * nat)
}.
End ChatResponse.

(** What the handler does with a fenced block of the answer: it looks for
    one, parses it and reads its [action] and [taskData] for the console.
    Nothing of it reaches the response. *)
Inductive Diagnostic :=
| NoJsonFound
| Extracted (jsonData : Json.value)
| Caught (e : exn).

Definition json_diagnostic (aiResponse : list N) : Diagnostic :=
  match Fence.exec aiResponse with
  | Some (body, _) =>
    try_catch
      (let! jsonData := Json.parse body in
       let! action := Json.prop jsonData "action" in
       let! taskData := Json.prop jsonData "taskData" in
       Ok (Extracted jsonData))
      Caught
  | None => NoJsonFound
  end.

(** Where the handler stands when it stops running: it has answered, or it
    waits for the model with the two contexts its prompt is built from. *)
Inductive ChatStage :=
| Replied (reply : Reply ChatResponse.t)
| AwaitingModel (tasksContext : TasksContext.t) (historyContext : list N).

Section ChatEndpoint.
Context `{Engine}.

(** The [catch] block of the handler. *)
Definition chat_catch (now : Z) (body : ChatRequest.t)
    : M (Reply ChatResponse.t) :=
  let fallbackResponse :=
    generateFallbackResponse now (default [] (ChatRequest.message body))
      (ChatRequest.tasks body) in
  do! _ := addMessageToHistory now
             (or_str (ChatRequest.userId body) (utf16 "default"))
             fallbackResponse false in
  ret (Json
         {| ChatResponse.success := true;
            ChatResponse.response := fallbackResponse;
            ChatResponse.timestamp := toISOString now;
            ChatResponse.note :=
              Some (utf16 "Using fallback response due to API error");
            ChatResponse.debug := None |}).

(** The [try] block up to the [await] on the model. The value
    [addMessageToHistory] returns is not awaited: when it is a promise, the
    call of [substring] on it throws. *)
Definition chat_try_begin (FORCE_FALLBACK : bool) (now : Z)
    (body : ChatRequest.t) : M ChatStage :=
  let userId := default (utf16 "default") (ChatRequest.userId body) in
  match ChatRequest.message body with
  | None | Some [] => ret (Replied (BadRequest (utf16 "Message is required")))
  | Some message =>
    do! summaryResult := addMessageToHistory now userId message true in
    do! _ := match summaryResult with
             | Some promise =>
               throw (TypeError (utf16 "summaryResult.substring is not a function"))
             | None => ret tt
             end in
    let taskStats := ChatRequest.taskStats body in
    let heatmapData := taskStats ≫= TaskStats.heatmapData in
    let heatmapAnalysis := taskStats ≫= TaskStats.heatmapAnalysis in
    let tasks := Some (default [] (ChatRequest.tasks body)) in
    let tasksContext :=
      createTasksContext now tasks
        (Some {| HeatmapInfo.heatmapData := heatmapData;
                 HeatmapInfo.heatmapAnalysis := heatmapAnalysis;
                 HeatmapInfo.weeklyEventTime := None |}) in
    if FORCE_FALLBACK then
      let fallbackResponse := generateFallbackResponse now message tasks in
      do! _ := addMessageToHistory now userId fallbackResponse false in
      ret (Replied (Json
             {| ChatResponse.success := true;
                ChatResponse.response := fallbackResponse;
                ChatResponse.timestamp := toISOString now;
                ChatResponse.note :=
                  Some (utf16 "Using fallback response due to FORCE_FALLBACK mode");
                ChatResponse.debug :=
                  Some (FORCE_FALLBACK, TasksContext.totalTasks tasksContext) |}))
    else
      do! historyContext := getHistoryContext userId in
      ret (AwaitingModel tasksContext historyContext)
  end.

(** The [try] block after the [await]. *)
Definition chat_try_resume (now : Z) (body : ChatRequest.t)
    (outcome : ModelOutcome) : M (Reply ChatResponse.t * Diagnostic) :=
  let userId := default (utf16 "default") (ChatRequest.userId body) in
  match outcome with
  | Answered aiResponse =>
    let diagnostic := json_diagnostic aiResponse in
    do! _ := addMessageToHistory now userId aiResponse false in
    ret (Json
           {| ChatResponse.success := true;
              ChatResponse.response := aiResponse;
              ChatResponse.timestamp := toISOString now;
              ChatResponse.note := None;
              ChatResponse.debug := None |}, diagnostic)
  | Failed => throw (TypeError (utf16 "AI API error"))
  | TimedOut => throw (TypeError (utf16 "AI API timeout after 30 seconds"))
  end.

(** The handler in its two runs: up to the [await], and after it. Between
    the two the memory may change under other requests and settling
    summaries. *)
Definition chat_begin (FORCE_FALLBACK : bool) (now : Z) (body : ChatRequest.t)
    : M ChatStage :=
  catchM (chat_try_begin FORCE_FALLBACK now body)
    (fun error => do! reply := chat_catch now body in ret (Replied reply)).

Definition chat_resume (now : Z) (body : ChatRequest.t) (outcome : ModelOutcome)
    : M (Reply ChatResponse.t) :=
  catchM (do! r := chat_try_resume now body outcome in ret (fst r))
    (fun error => chat_catch now body).

(** A whole request when nothing else runs in between. *)
Definition chat_handler (FORCE_FALLBACK : bool) (now : Z) (body : ChatRequest.t)
    (outcome : ModelOutcome) : M (Reply ChatResponse.t) :=
  do! stage := chat_begin FORCE_FALLBACK now body in
  match stage with
  | Replied reply => ret reply
  | AwaitingModel _ _ => chat_resume now body outcome
  end.

End ChatEndpoint.

(** ** The prompt of the chat path: date anchors and time rules

    [createPrompt] reads the clock of Asia/Ho_Chi_Minh, seven hours ahead of
    UTC all year, and writes today's and tomorrow's date into the rules it
    gives the model for turning a clock time into a UTC timestamp. The rest of
    the prompt text is not rendered here. *)

Module Prompt.

Definition vn_offset : Z := 7 * JsDate.msPerHour.

(** The fields of [vnTime]. *)
Definition vnTime (now : Z) : JsDate.fields := JsDate.fields_at vn_offset now.

(** [`${year}-${month}-${day}`], month and day padded to two digits. *)
Definition iso_date (y m0 d : Z) : list N :=
  Z_str y ++ utf16 "-" ++ padStart2 (Z_str (m0 + 1)) ++ utf16 "-"
    ++ padStart2 (Z_str d).

Definition currentDate (now : Z) : list N :=
  let f := vnTime now in
  iso_date (JsDate.year f) (JsDate.month0 f) (JsDate.date f).

(** [tomorrowVN.setDate(vnTime.getDate() + 1)], then its fields. *)
Definition tomorrowDate (now : Z) : list N :=
  let f := vnTime now in
  let '(y, m, d) :=
    JsDate.civil_from_days
      (JsDate.MakeDay (JsDate.year f) (JsDate.month0 f) (JsDate.date f + 1)) in
  iso_date y (m - 1) d.

(** The section of the prompt on computing times, line by line. *)
Definition time_section (currentDate tomorrowDate : list N) : list (list N) :=
  [utf16 "- CÁCH TÍNH THỜI GIAN:";
   utf16 "  + Sử dụng thông tin "
      ++ [dquote]
      ++ utf16 "Ngày hiện tại (ISO)"
      ++ [dquote]
      ++ utf16 " và "
      ++ [dquote]
      ++ utf16 "Ngày mai (ISO)"
      ++ [dquote]
      ++ utf16 " ở trên để tính toán";
   utf16 "  + "
      ++ [dquote]
      ++ utf16 "hôm nay"
      ++ [dquote]
      ++ utf16 " = ngày hiện tại ("
      ++ currentDate
      ++ utf16 ")";
   utf16 "  + "
      ++ [dquote]
      ++ utf16 "ngày mai"
      ++ [dquote]
      ++ utf16 " = ngày mai ("
      ++ tomorrowDate
      ++ utf16 ")";
   utf16 "  + "
      ++ [dquote]
      ++ utf16 "thứ 2"
      ++ [dquote]
      ++ utf16 " = thứ 2 tuần này hoặc tuần sau (tùy theo ngày hiện tại)";
   utf16 "  + QUAN TRỌNG: Tạo thời gian theo VN timezone (UTC+7) NHƯNG "
      ++ utf16 "lưu dưới dạng UTC";
   utf16 "  + "
      ++ [dquote]
      ++ utf16 "12 trưa"
      ++ [dquote]
      ++ utf16 " = 12:00 VN time = 05:00 UTC (trừ 7 giờ)";
   utf16 "  + "
      ++ [dquote]
      ++ utf16 "7:00 sáng"
      ++ [dquote]
      ++ utf16 " = 07:00 VN time = 00:00 UTC (trừ 7 giờ)";
   utf16 "  + "
      ++ [dquote]
      ++ utf16 "8:00 tối"
      ++ [dquote]
      ++ utf16 " = 20:00 VN time = 13:00 UTC (trừ 7 giờ)";
   utf16 "  + estimatedDuration = (endTime - startTime) tính bằng phút";
   utf16 "  + Ví dụ: "
      ++ [dquote]
      ++ utf16 "12 trưa hôm nay"
      ++ [dquote]
      ++ utf16 " = "
      ++ currentDate
      ++ utf16 "T05:00:00.000Z (12:00 VN = 05:00 UTC)";
   utf16 "  + Ví dụ: "
      ++ [dquote]
      ++ utf16 "12 trưa mai"
      ++ [dquote]
      ++ utf16 " = "
      ++ tomorrowDate
      ++ utf16 "T05:00:00.000Z (12:00 VN = 05:00 UTC)";
   utf16 "  + Ví dụ: "
      ++ [dquote]
      ++ utf16 "11:00 mai"
      ++ [dquote]
      ++ utf16 " = "
      ++ tomorrowDate
      ++ utf16 "T04:00:00.000Z (11:00 VN = 04:00 UTC)";
   utf16 "  + Ví dụ: "
      ++ [dquote]
      ++ utf16 "13:00 mai"
      ++ [dquote]
      ++ utf16 " = "
      ++ tomorrowDate
      ++ utf16 "T06:00:00.000Z (13:00 VN = 06:00 UTC)";
   utf16 "  + Ví dụ: "
      ++ [dquote]
      ++ utf16 "trưa mai lúc 11:00"
      ++ [dquote]
      ++ utf16 " = "
      ++ tomorrowDate
      ++ utf16 "T04:00:00.000Z (11:00 VN = 04:00 UTC)";
   utf16 "  + Ví dụ: "
      ++ [dquote]
      ++ utf16 "trưa mai lúc 12:00"
      ++ [dquote]
      ++ utf16 " = "
      ++ tomorrowDate
      ++ utf16 "T05:00:00.000Z (12:00 VN = 05:00 UTC)";
   utf16 "  + LƯU Ý: KHÔNG sử dụng +07:00, chỉ sử dụng Z (UTC) trong JSON";
   utf16 "  + SAI: "
      ++ [dquote]
      ++ utf16 "startTime"
      ++ [dquote]
      ++ utf16 ": "
      ++ [dquote]
      ++ utf16 "2025-09-15T12:00:00.000+07:00"
      ++ [dquote];
   utf16 "  + ĐÚNG: "
      ++ [dquote]
      ++ utf16 "startTime"
      ++ [dquote]
      ++ utf16 ": "
      ++ [dquote]
      ++ utf16 "2025-09-15T05:00:00.000Z"
      ++ [dquote];
   utf16 "  ";
   utf16 "- QUAN TRỌNG: Khi user nói "
      ++ [dquote]
      ++ utf16 "trưa mai lúc 11:00"
      ++ [dquote]
      ++ utf16 ", AI phải hiểu:";
   utf16 "  + "
      ++ [dquote]
      ++ utf16 "trưa mai"
      ++ [dquote]
      ++ utf16 " = ngày mai ("
      ++ tomorrowDate
      ++ utf16 ")";
   utf16 "  + "
      ++ [dquote]
      ++ utf16 "lúc 11:00"
      ++ [dquote]
      ++ utf16 " = 11:00 VN time = 04:00 UTC";
   utf16 "  + Kết quả: "
      ++ [dquote]
      ++ utf16 "startTime"
      ++ [dquote]
      ++ utf16 ": "
      ++ [dquote]
      ++ tomorrowDate
      ++ utf16 "T04:00:00.000Z"
      ++ [dquote];
   utf16 "  + KHÔNG được tạo "
      ++ [dquote]
      ++ utf16 "startTime"
      ++ [dquote]
      ++ utf16 ": "
      ++ [dquote]
      ++ tomorrowDate
      ++ utf16 "T05:00:00.000Z"
      ++ [dquote]
      ++ utf16 " (12:00 VN)"].

(** The six worked examples of that section, read as data: the phrase, the
    day it falls on, the clock time asked for and the UTC time written. *)
Inductive Anchor := Today | Tomorrow.

Record Conversion := {
  phrase : list N;
  anchor : Anchor;
  vn_hour : Z;
  utc_hour : Z
}.

Definition worked_examples : list Conversion :=
  [{| phrase := utf16 "12 trưa hôm nay"; anchor := Today; vn_hour := 12; utc_hour := 5 |};
   {| phrase := utf16 "12 trưa mai"; anchor := Tomorrow; vn_hour := 12; utc_hour := 5 |};
   {| phrase := utf16 "11:00 mai"; anchor := Tomorrow; vn_hour := 11; utc_hour := 4 |};
   {| phrase := utf16 "13:00 mai"; anchor := Tomorrow; vn_hour := 13; utc_hour := 6 |};
   {| phrase := utf16 "trưa mai lúc 11:00"; anchor := Tomorrow; vn_hour := 11; utc_hour := 4 |};
   {| phrase := utf16 "trưa mai lúc 12:00"; anchor := Tomorrow; vn_hour := 12; utc_hour := 5 |}].

Definition clock (h : Z) : list N := padStart2 (Z_str h) ++ utf16 ":00".

(** The timestamp an example writes: the date of its anchor, its UTC hour. *)
Definition stamp (date : list N) (h : Z) : list N :=
  date ++ utf16 "T" ++ clock h ++ utf16 ":00.000Z".

Definition example_line (currentDate tomorrowDate : list N) (c : Conversion)
    : list N :=
  let date := match anchor c with
              | Today => currentDate
              | Tomorrow => tomorrowDate
              end in
  utf16 "  + Ví dụ: " ++ quoted (phrase c) ++ utf16 " = "
    ++ stamp date (utc_hour c) ++ utf16 " (" ++ clock (vn_hour c)
    ++ utf16 " VN = " ++ clock (utc_hour c) ++ utf16 " UTC)".

(** Instants in minutes since the epoch: a UTC clock time on the day
    numbered [day], and a clock time of the +7:00 zone on that day. *)
Definition utc_instant (day h mi : Z) : Z := day * 1440 + h * 60 + mi.
Definition vn_instant (day h mi : Z) : Z := day * 1440 + h * 60 + mi - 7 * 60.

End Prompt.

(** ** An engine for worked examples

    It reads timestamps of the one form [YYYY-MM-DDTHH:mm:ss.sssZ] (any other
    string, the empty one included, is an invalid date), maps the case of
    the letters A to Z only, prints a date as day/month/year, and prints a
    fraction by its exact decimal expansion. The examples below stay within
    what it shares with a real engine. *)

Module Sample.

Definition digits_value (ds : list N) : option Z :=
  if forallb Json.is_digit ds then digits_prefix None ds else None.

Definition days_in_month (y m : Z) : Z :=
  (JsDate.MakeDay y m 1 - JsDate.MakeDay y (m - 1) 1)%Z.

Definition iso_parse (s : list N) : option Z :=
  let part (a b : nat) := firstn (b - a) (skipn a s) in
  let sep (a : nat) (c : list N) := str_eqb (part a (S a)) c in
  if (length s =? 24)%nat && sep 4%nat (utf16 "-") && sep 7%nat (utf16 "-")
     && sep 10%nat (utf16 "T") && sep 13%nat (utf16 ":")
     && sep 16%nat (utf16 ":") && sep 19%nat (utf16 ".")
     && sep 23%nat (utf16 "Z")
  then
    y ← digits_value (part 0 4)%nat;
    mo ← digits_value (part 5 7)%nat;
    d ← digits_value (part 8 10)%nat;
    h ← digits_value (part 11 13)%nat;
    mi ← digits_value (part 14 16)%nat;
    sec ← digits_value (part 17 19)%nat;
    ms ← digits_value (part 20 23)%nat;
    if ((1 <=? mo) && (mo <=? 12) && (1 <=? d) && (d <=? days_in_month y mo)
        && (h <=? 23) && (mi <=? 59) && (sec <=? 59))%Z
    then Some (JsDate.of_fields 0 y (mo - 1) d h mi sec ms)
    else None
  else None.

Definition lower (c : N) : N :=
  if ((65 <=? c) && (c <=? 90))%N then (c + 32)%N else c.

Definition upper (c : N) : N :=
  if ((97 <=? c) && (c <=? 122))%N then (c - 32)%N else c.

Definition locale_date (tza : Z) (d : option Z) : list N :=
  match d with
  | Some t =>
    let f := JsDate.fields_at tza t in
    Z_str (JsDate.date f) ++ utf16 "/" ++ Z_str (JsDate.month0 f + 1)%Z
      ++ utf16 "/" ++ Z_str (JsDate.year f)
  | None => utf16 "Invalid Date"
  end.

Fixpoint fraction_digits (fuel : nat) (num den : Z) : list N :=
  match fuel with
  | O => []
  | S fuel =>
    if (num =? 0)%Z then []
    else N.of_nat (48 + Z.to_nat (10 * num / den))
           :: fraction_digits fuel ((10 * num) mod den)%Z den
  end.

Definition exact_decimal (x : float) : list N :=
  match Prim2SF x with
  | S754_finite s m e =>
    let den := (2 ^ (- e))%Z in
    (if s then utf16 "-" else []) ++ Z_str (Z.pos m / den) ++ utf16 "."
      ++ fraction_digits (Z.to_nat (- e)) (Z.pos m mod den)%Z den
  | _ => []
  end.

Definition engine (tza : Z) : Engine :=
  {| localTZA := tza;
     Date_parse := iso_parse;
     toLowerCase := List.map lower;
     toUpperCase := List.map upper;
     toLocaleDateString_vi := locale_date tza;
     fraction_toString := exact_decimal |}.

(** The engine of a server on UTC, and of one on Vietnam time. *)
Definition utc : Engine := engine 0.
Definition vietnam : Engine := engine (7 * JsDate.msPerHour).

End Sample.

(** ** The specification's own words, for comparison

    The definitions of this module are not taken from the code: each follows
    a sentence of the specification, named in its comment, and is used only
    to state where the code departs from it. *)

Module Spec.


(** [round(100 * completed / total)], or 0 when [total] is 0: the nearest
    integer to the exact quotient, a half rounding up. *)
Definition rate_percent (completed total : nat) : Z :=
  if (total =? 0)%nat then 0%Z
  else ((200 * Z.of_nat completed + Z.of_nat total) / (2 * Z.of_nat total))%Z.

(** The deadline layout [HH:MM:SS.mmm:DD.M:YYYY], each letter a digit. *)
Definition deadline_token (f : JsDate.fields) : list N :=
  pad_left 2 (Z_str (JsDate.hours f)) ++ utf16 ":"
    ++ pad_left 2 (Z_str (JsDate.minutes f)) ++ utf16 ":"
    ++ pad_left 2 (Z_str (JsDate.seconds f)) ++ utf16 "."
    ++ pad_left 3 (Z_str (JsDate.milliseconds f)) ++ utf16 ":"
    ++ pad_left 2 (Z_str (JsDate.date f)) ++ utf16 "."
    ++ Z_str (JsDate.month0 f + 1)%Z ++ utf16 ":"
    ++ pad_left 4 (Z_str (JsDate.year f)).

(** Priority rows: one per fixed priority, with total, completed, rate and
    the deadlines of the tasks that have a due date. *)
Definition priority_rows `{Engine} (items : list Item.t) : list (list N) :=
  let tasks := List.filter is_task_or_untyped items in
  List.map
    (fun priority =>
       let ts := List.filter (fun t => is_str (Item.priority t) priority) tasks in
       let total := length ts in
       let completed := length (List.filter is_completed ts) in
       let deadlines :=
         List.flat_map
           (fun t =>
              match Item.dueDate t ≫= new_Date with
              | Some d => [deadline_token (JsDate.fields_at localTZA d)]
              | None => []
              end) ts in
       priority ++ utf16 "," ++ nat_str total ++ utf16 "," ++ nat_str completed
         ++ utf16 "," ++ Z_str (rate_percent completed total) ++ utf16 ","
         ++ join (utf16 ",") deadlines)
    priorities.

(** The action extractor: every fenced block tagged json, in order; each is
    parsed and checked against the action taxonomy; a block that fails is
    set aside. *)
Inductive ActionRequest :=
| CreateOne (taskData : Json.value)
| Update (taskId : Json.value) (taskData : option Json.value)
| Delete (taskId : Json.value).

Definition present (v : Json.value) (name : string) : bool :=
  match v with
  | Json.Object ms =>
    match Json.last_member ms (utf16 name) with
    | Some Json.Null | None => false
    | Some _ => true
    end
  | _ => false
  end.

Definition creatable (taskData : Json.value) : bool :=
  present taskData "title" && present taskData "category"
  && present taskData "type".

Definition validate (v : Json.value) : option (list ActionRequest) :=
  match v with
  | Json.Object ms =>
    let member := Json.last_member ms in
    match member (utf16 "action") with
    | Some (Json.Str action) =>
      if str_eqb action (utf16 "create_task") then
        match member (utf16 "taskData") with
        | Some taskData =>
          if creatable taskData then Some [CreateOne taskData] else None
        | None => None
        end
      else if str_eqb action (utf16 "create_multiple_tasks") then
        match member (utf16 "taskData") with
        | Some (Json.Array elements) =>
          if forallb creatable elements then Some (List.map CreateOne elements)
          else None
        | _ => None
        end
      else if str_eqb action (utf16 "update_task") then
        match member (utf16 "taskId") with
        | Some Json.Null | None => None
        | Some taskId => Some [Update taskId (member (utf16 "taskData"))]
        end
      else if str_eqb action (utf16 "delete_task") then
        match member (utf16 "taskId") with
        | Some Json.Null | None => None
        | Some taskId => Some [Delete taskId]
        end
      else None
    | _ => None
    end
  | _ => None
  end.

(** All fenced blocks, first to last. Each match is at least ten code units
    long, so the length of the text is fuel enough. *)
Fixpoint blocks (fuel : nat) (text : list N) : list (list N) :=
  match fuel with
  | O => []
  | S fuel =>
    match Fence.exec text with
    | Some (body, rest) => body :: blocks fuel rest
    | None => []
    end
  end.

Definition extract (text : list N) : list ActionRequest * list (list N) :=
  List.fold_left
    (fun '(actions, unparsed) block =>
       match Json.parse block with
       | Ok v =>
         match validate v with
         | Some new => (actions ++ new, unparsed)
         | None => (actions, unparsed ++ [block])
         end
       | Throw _ => (actions, unparsed ++ [block])
       end)
    (blocks (length text) text) ([], []).

End Spec.

(** ** Vocabulary of the statements *)

(** An item with no property at all. *)
Definition blank_item : Item.t :=
  {| Item.title := None; Item.category := None; Item.type := None;
     Item.priority := None; Item.status := None; Item.dueDate := None;
     Item.startTime := None; Item.endTime := None;
     Item.estimatedDuration := None |}.

(** The category tokens and priority rows of a collection in which nothing
    is counted. *)
Definition zero_tokens : list (list N) :=
  List.map (fun category => category ++ utf16 ",0") categories.

Definition zero_rows : list (list N) :=
  List.map (fun priority => priority ++ utf16 ",0,0,0,") priorities.

(** Every count of a chat-path context is zero and its lists are empty. *)
Definition zero_counts (c : TasksContext.t) : Prop :=
  TasksContext.totalTasks c = 0%nat
  /\ TasksContext.pendingTasks c = 0%nat
  /\ TasksContext.inProgressTasks c = 0%nat
  /\ TasksContext.completedTasks c = 0%nat
  /\ TasksContext.overdueTasks c = 0%nat
  /\ TasksContext.urgentTasks c = 0%nat
  /\ TasksContext.highPriorityTasks c = 0%nat
  /\ TasksContext.upcomingDeadlines c = []
  /\ TasksContext.weeklyEventTime c = None
  /\ TasksContext.categoryStats c = None
  /\ TasksContext.priorityStats c = None.

(** The first entry of a fallback list speaks of time use, the last one of a
    technique or of time management. *)
Definition time_entry (r : list N) : Prop :=
  startsWith (utf16 "Thời gian:") r = true \/ startsWith (utf16 "Time:") r = true.

Definition closing_entry (r : list N) : Prop :=
  startsWith (utf16 "Quản lý thời gian:") r = true
  \/ startsWith (utf16 "Kỹ thuật:") r = true
  \/ startsWith (utf16 "Time Management:") r = true
  \/ startsWith (utf16 "Technique:") r = true.

(** What [parseRecommendations] falls back to: the fallback of an empty
    collection, which depends on the language alone. *)
Definition default_recommendations (language : option (list N)) : list (list N) :=
  if str_eqb (default (utf16 "vi") language) (utf16 "vi")
  then [utf16 "Thời gian: Thời gian học tập và làm việc trong tuần khá ít. "
          ++ utf16 "Có thể tăng cường thêm để tối ưu hóa năng suất.";
        utf16 "Kỹ thuật: Sử dụng kỹ thuật Pomodoro (25 phút tập trung + 5 "
          ++ utf16 "phút nghỉ) để tăng hiệu quả học tập và làm việc."]
  else [utf16 "Time: Your study and work time this week is quite low. "
          ++ utf16 "Consider increasing it to optimize productivity.";
        utf16 "Technique: Use Pomodoro technique (25 minutes focus + 5 "
          ++ utf16 "minutes break) to increase study and work efficiency."].

(** The keys of a sequence, each once, in the order of first occurrence. *)
Definition add_key (seen : list (list N)) (k : list N) : list (list N) :=
  if existsb (fun k' => str_eqb k' k) seen then seen else seen ++ [k].

Definition first_occurrences (ks : list (list N)) : list (list N) :=
  List.fold_left add_key ks [].


Definition priority_of (task : Item.t) : list N :=
  or_str (Item.priority task) (utf16 "none").

(** The names a fresh object inherits from [Object.prototype]. *)
Definition inherited_names : list (list N) :=
  [utf16 "constructor"; utf16 "__proto__"; utf16 "hasOwnProperty";
   utf16 "isPrototypeOf"; utf16 "propertyIsEnumerable";
   utf16 "toLocaleString"; utf16 "toString"; utf16 "valueOf";
   utf16 "__defineGetter__"; utf16 "__defineSetter__";
   utf16 "__lookupGetter__"; utf16 "__lookupSetter__"].

(** A key that [Object.keys] lists in creation order and that the model of
    dictionaries covers: not an array index, not an inherited name. *)
Definition ordinary_key (k : list N) : Prop :=
  Obj.array_index k = None /\ ~ In k inherited_names.

(** The head of a priority row: the priority, its total, the number
    completed and [Math.round((completed / total) * 100)] as the doubles give
    it, 0 for no task; the deadlines follow. *)
Definition row_head `{Engine} (priority : list N) (total completed : nat) : list N :=
  priority ++ utf16 "," ++ nat_str total ++ utf16 "," ++ nat_str completed
    ++ utf16 ","
    ++ Number_toString (Num.Math_round (rate (Num.of_nat completed) total))
    ++ utf16 ",".

(** A deadline of the recommendations path, from the local fields of a
    valid date: two digits for hours, minutes and seconds, the numbers as
    they print for milliseconds, day, month and year. *)
Definition deadline_of_fields (f : JsDate.fields) : list N :=
  padStart2 (Z_str (JsDate.hours f)) ++ utf16 ":"
    ++ padStart2 (Z_str (JsDate.minutes f)) ++ utf16 ":"
    ++ padStart2 (Z_str (JsDate.seconds f)) ++ utf16 "."
    ++ Z_str (JsDate.milliseconds f) ++ utf16 ":"
    ++ Z_str (JsDate.date f) ++ utf16 "."
    ++ Z_str (JsDate.month0 f + 1)%Z ++ utf16 ":"
    ++ Z_str (JsDate.year f).

(** The tasks of one priority among a list of tasks. *)
Definition of_priority (priority : list N) (tasks : list Item.t) : list Item.t :=
  List.filter (fun task => is_str (Item.priority task) priority) tasks.

Definition with_due_date (tasks : list Item.t) : list Item.t :=
  List.filter (fun task => truthy_str (Item.dueDate task)) tasks.


(** Code of the memory that cannot throw. *)
Definition returns {A} (c : M A) : Prop :=
  forall m, exists a, fst (c m) = Ok a.


(** The dictionary of the chat path's priority loop. *)
Definition no_data : PriorityData.t :=
  {| PriorityData.total := 0; PriorityData.completed := 0;
     PriorityData.deadlines := [] |}.

Definition data_of (priorityCount : list (list N * PriorityData.t))
    (p : list N) : PriorityData.t :=
  match Obj.get priorityCount p with
  | Some d => d
  | None => no_data
  end.

Definition mine (p : list N) (l : list Item.t) : list Item.t :=
  List.filter (fun t => str_eqb (priority_of t) p) l.

(** Deciding which kind of entry a literal is. *)
Ltac solve_entry :=
  first [ left; vm_compute; reflexivity
        | right; left; vm_compute; reflexivity
        | right; right; left; vm_compute; reflexivity
        | right; vm_compute; reflexivity
        | right; right; right; vm_compute; reflexivity ].

(** A memory as the server builds it: every reference of [chatHistory]
    points into the heap, no two users share an array, and the array of a
    waiting summarization holds more than [MAX_HISTORY_LENGTH] turns. *)
Definition well_formed (m : Memory) : Prop :=
  (forall userId ref,
      chatHistory m !! userId = Some ref -> (ref < length (arrays m))%nat)
  /\ (forall u1 u2 ref,
         chatHistory m !! u1 = Some ref -> chatHistory m !! u2 = Some ref ->
         u1 = u2)
  /\ Forall
       (fun call =>
          (MAX_HISTORY_LENGTH < length (turns_of m (Suspended.history call)))%nat)
       (awaiting m).

(** The turn [addMessageToHistory] stores, and the turn a summary becomes. *)
Definition turn_of (now : Z) (message : list N) (isUser : bool) : Turn.t :=
  {| Turn.message := message; Turn.isUser := isUser;
     Turn.timestamp := toISOString now |}.

Definition summary_turn (now : Z) (summary : list N) : Turn.t :=
  {| Turn.message := utf16 "[TÓM TẮT CUỘC TRÒ CHUYỆN TRƯỚC] " ++ summary;
     Turn.isUser := false;
     Turn.timestamp := toISOString now |}.

(** Arrays only grow: no array of a later memory is shorter than it was. *)
Definition grows (m m' : Memory) : Prop :=
  forall ref, (length (turns_of m ref) <= length (turns_of m' ref))%nat.

(** Code that keeps the memory well formed and shrinks no array. *)
Definition keeps {A} (c : M A) : Prop :=
  forall m, well_formed m -> well_formed (snd (c m)) /\ grows m (snd (c m)).




(** ** Worked inputs *)

Module Scenario.

(** 2025-09-15T16:59:00.000Z, a Monday. *)
Definition now : Z := 1757955540000.

Definition task (priority status dueDate : option (list N)) : Item.t :=
  {| Item.title := Some (utf16 "bài tập"); Item.category := Some (utf16 "academic");
     Item.type := Some (utf16 "task"); Item.priority := priority;
     Item.status := status; Item.dueDate := dueDate;
     Item.startTime := None; Item.endTime := None;
     Item.estimatedDuration := None |}.

Definition event (category startTime endTime : list N) (minutes : float) : Item.t :=
  {| Item.title := Some (utf16 "học toán"); Item.category := Some category;
     Item.type := Some (utf16 "event"); Item.priority := None;
     Item.status := None; Item.dueDate := None;
     Item.startTime := Some startTime; Item.endTime := Some endTime;
     Item.estimatedDuration := Some minutes |}.

(** An event of January 2020, one hour long. *)
Definition old_event : Item.t :=
  event (utf16 "academic") (utf16 "2020-01-06T01:00:00.000Z")
    (utf16 "2020-01-06T02:00:00.000Z") 60%float.

(** An event of the week of [now], one hour long, its [estimatedDuration]
    set to 30. *)
Definition week_event : Item.t :=
  event (utf16 "work") (utf16 "2025-09-16T01:00:00.000Z")
    (utf16 "2025-09-16T02:00:00.000Z") 30%float.

Definition pending_task : Item.t :=
  task (Some (utf16 "medium")) (Some (utf16 "pending")) None.

(** An urgent task due at 23:59 on 25 September 2025, Vietnam time. *)
Definition urgent_task : Item.t :=
  task (Some (utf16 "urgent")) (Some (utf16 "pending"))
    (Some (utf16 "2025-09-25T16:59:00.000Z")).

(** Forty urgent tasks without due date, twenty-three of them completed. *)
Definition forty_urgent : list Item.t :=
  repeat (task (Some (utf16 "urgent")) (Some (utf16 "completed")) None) 23
    ++ repeat (task (Some (utf16 "urgent")) (Some (utf16 "pending")) None) 17.

(** A task with neither priority nor due date. *)
Definition plain_task : Item.t := task None (Some (utf16 "pending")) None.

Definition stats_completed (n : float) : TaskStats.t :=
  {| TaskStats.completedTasks := Some n; TaskStats.overdueTasks := None;
     TaskStats.productivityScore := None;
     TaskStats.averageCompletionTime := None;
     TaskStats.weeklyEventTime := None; TaskStats.heatmapData := None;
     TaskStats.heatmapAnalysis := None |}.

(** One user talking to the chat endpoint, the model answering each time. *)
Definition user : list N := utf16 "u1".

Definition chat `{Engine} (message answer : list N) : M (Reply ChatResponse.t) :=
  chat_handler false now
    {| ChatRequest.message := Some message; ChatRequest.tasks := None;
       ChatRequest.taskStats := None; ChatRequest.userId := Some user |}
    (Answered answer).

(** A question with no items attached, and a request for recommendations
    over two items. *)
Definition question : ChatRequest.t :=
  {| ChatRequest.message := Some (utf16 "hôm nay làm gì trước?");
     ChatRequest.tasks := None; ChatRequest.taskStats := None;
     ChatRequest.userId := Some user |}.

(** Three exchanges fill the history to six turns and start a
    summarization; the summarizer fails, which leaves three turns; a fourth
    exchange makes five; then the user writes again. *)
Definition three_exchanges `{Engine} : M (Reply ChatResponse.t) :=
  do! _ := chat (utf16 "m1") (utf16 "a1") in
  do! _ := chat (utf16 "m2") (utf16 "a2") in
  chat (utf16 "m3") (utf16 "a3").

(** The memory after the three exchanges, and the summarization that then
    waits. *)
Definition full_memory : Memory :=
  snd (three_exchanges (H := Sample.utc) empty_memory).

Definition waiting_call : Suspended.t :=
  {| Suspended.userId := user;
     Suspended.history := 0;
     Suspended.summaryPrompt :=
       summaryPrompt_of (stored_history full_memory user) |}.

Definition five_requests `{Engine} : M (Reply ChatResponse.t) :=
  do! _ := chat (utf16 "m1") (utf16 "a1") in
  do! _ := chat (utf16 "m2") (utf16 "a2") in
  do! _ := chat (utf16 "m3") (utf16 "a3") in
  do! _ := settle now 0 None in
  do! _ := chat (utf16 "m4") (utf16 "a4") in
  chat (utf16 "m5") (utf16 "a5").

(** A JSON object and a fenced block, as a model writes them. *)
Definition object (members : list (list N * list N)) : list N :=
  utf16 "{" ++
  join (utf16 ", ")
    (List.map (fun '(k, v) => quoted k ++ utf16 ": " ++ v) members)
  ++ utf16 "}".

Definition fenced (body : list N) : list N :=
  utf16 "```json" ++ [newline] ++ body ++ [newline] ++ utf16 "```".

(** A [create_task] whose [taskData] lacks [category], and a valid
    [delete_task]. *)
Definition create_without_category : list N :=
  object [(utf16 "action", quoted (utf16 "create_task"));
          (utf16 "taskData",
           object [(utf16 "title", quoted (utf16 "học toán"));
                   (utf16 "type", quoted (utf16 "event"))])].

Definition delete_one : list N :=
  object [(utf16 "action", quoted (utf16 "delete_task"));
          (utf16 "taskId", quoted (utf16 "task_1"))].

Definition two_blocks : list N :=
  utf16 "Đã xử lý:" ++ [newline] ++ fenced create_without_category
    ++ [newline] ++ fenced delete_one.

(** An answer to a request for 11:00 tomorrow that carries the hour of
    12:00 instead. *)
Definition wrong_hour_answer : list N :=
  fenced
    (object [(utf16 "action", quoted (utf16 "create_task"));
             (utf16 "taskData",
              object [(utf16 "title", quoted (utf16 "toán 12"));
                      (utf16 "category", quoted (utf16 "academic"));
                      (utf16 "type", quoted (utf16 "event"));
                      (utf16 "startTime", quoted (utf16 "2025-09-16T05:00:00.000Z"));
                      (utf16 "endTime", quoted (utf16 "2025-09-16T06:30:00.000Z"))])]).

End Scenario.

(** ** The body of a request as JSON values

    What [express.json()] hands to a handler: the values of the parsed body.
    A number is its double; an object lists its own properties in creation
    order, each name once. *)

Module Val.

#[local] Unset Elimination Schemes.
Inductive t :=
| Null
| Bool (b : bool)
| Num (x : float)
| Str (s : list N)
| Arr (elements : list t)
| Obj (members : list (list N * t)).
#[local] Set Elimination Schemes.

(** ToBoolean of a property that may be absent ([None] is [undefined]). *)
Definition truthy (v : option t) : bool :=
  match v with
  | None | Some Null => false
  | Some (Bool b) => b
  | Some (Num x) => Num.truthy x
  | Some (Str []) => false
  | Some (Str (_ :: _)) => true
  | Some (Arr _) | Some (Obj _) => true
  end.

(** [v[name]] for a name that no prototype defines: an own property of an
    object, [undefined] on every other value that is not [null]. *)
Definition get (v : t) (name : list N) : option t :=
  match v with
  | Obj members => Obj.get members name
  | _ => None
  end.

(** [v === 'literal'] *)
Definition is_str (v : option t) (lit : list N) : bool :=
  match v with
  | Some (Str s) => str_eqb s lit
  | _ => false
  end.

(** [v || dflt] *)
Definition or_else (v : option t) (dflt : t) : option t :=
  if truthy v then v else Some dflt.

End Val.

(** ** The endpoint that builds a task: [POST /api/tasks/create]

    The handler reads the clock three times ([Date.now()] for the id, then
    [new Date()] for [createdAt] and for [updatedAt]) and draws
    [Math.random().toString(36).substr(2, 9)] once; the three readings and
    the drawn text are arguments. A property of the new task whose value is
    [undefined] is [None]; [res.json] leaves such a property out. The
    [catch] block of the handler answers 500; no body of JSON values reaches
    it. *)

Module CreateRequest.
Record t := {
  taskData : option Val.t;
  userId : option (list N)
}.
End CreateRequest.

Module CreateResponse.
Record t := {
  success : bool;
  task : list (list N * option Val.t);
  message : list N;
  userId : list N
}.
End CreateResponse.

(** The 400 with [success: false] and an error, or the created task. *)
Inductive CreateReply :=
| Refused (error : list N)
| Created (response : CreateResponse.t).

Definition requiredFields : list (list N) :=
  [utf16 "title"; utf16 "category"; utf16 "type"].

Definition create_handler (now createdAt updatedAt : Z) (random : list N)
    (body : CreateRequest.t) : CreateReply :=
  let userId := default (utf16 "default") (CreateRequest.userId body) in
  match CreateRequest.taskData body with
  | None => Refused (utf16 "Task data is required")
  | Some taskData =>
    if negb (Val.truthy (Some taskData)) then
      Refused (utf16 "Task data is required")
    else
      let field := Val.get taskData in
      let missingFields :=
        List.filter (fun field => negb (Val.truthy (Val.get taskData field)))
          requiredFields in
      if (0 <? length missingFields)%nat then
        Refused (utf16 "Missing required fields: "
                   ++ join (utf16 ", ") missingFields)
      else
        let taskId :=
          utf16 "task_" ++ Z_str now ++ utf16 "_" ++ random in
        let is_task := Val.is_str (field (utf16 "type")) (utf16 "task") in
        let is_event := Val.is_str (field (utf16 "type")) (utf16 "event") in
        let newTask :=
          [(utf16 "id", Some (Val.Str taskId));
           (utf16 "title", field (utf16 "title"));
           (utf16 "description",
            Val.or_else (field (utf16 "description")) (Val.Str []));
           (utf16 "category", field (utf16 "category"));
           (utf16 "type", field (utf16 "type"));
           (utf16 "createdAt", Some (Val.Str (toISOString createdAt)));
           (utf16 "updatedAt", Some (Val.Str (toISOString updatedAt)));
           (utf16 "tags", Val.or_else (field (utf16 "tags")) (Val.Arr []));
           (utf16 "procrastinationScore",
            Val.or_else (field (utf16 "procrastinationScore")) (Val.Num 1%float))]
          ++ (if is_task then
                [(utf16 "priority",
                  Val.or_else (field (utf16 "priority")) (Val.Str (utf16 "medium")));
                 (utf16 "dueDate", field (utf16 "dueDate"));
                 (utf16 "estimatedDuration",
                  Val.or_else (field (utf16 "estimatedDuration")) (Val.Num 60%float));
                 (utf16 "actualDuration",
                  Val.or_else (field (utf16 "actualDuration")) Val.Null);
                 (utf16 "status",
                  Val.or_else (field (utf16 "status")) (Val.Str (utf16 "pending")))]
              else [])
          ++ (if is_event then
                [(utf16 "startTime", field (utf16 "startTime"));
                 (utf16 "endTime", field (utf16 "endTime"));
                 (utf16 "location",
                  Val.or_else (field (utf16 "location")) (Val.Str []));
                 (utf16 "isRecurring",
                  Val.or_else (field (utf16 "isRecurring")) (Val.Bool false));
                 (utf16 "recurrencePattern",
                  Val.or_else (field (utf16 "recurrencePattern")) Val.Null);
                 (utf16 "recurrenceEndDate",
                  Val.or_else (field (utf16 "recurrenceEndDate")) Val.Null)]
              else []) in
        Created
          {| CreateResponse.success := true;
             CreateResponse.task := newTask;
             CreateResponse.message :=
               (if is_task then utf16 "Task" else utf16 "Event")
                 ++ utf16 " created successfully";
             CreateResponse.userId := userId |}
  end.

(** ** The endpoint that forgets a conversation: [POST /api/chat/reset] *)

Module ResetResponse.
Record t := {
  success : bool;
  message : list N;
  userId : list N
}.
End ResetResponse.


(** A request of the create endpoint that names a task: [taskData] is
    truthy and so are its [title], [category] and [type]. *)
Definition field_of (taskData : option Val.t) (name : list N) : option Val.t :=
  taskData ≫= (fun v => Val.get v name).


(** The properties every created task has, those of a task and those of an
    event, in the order the handler writes them. *)
Definition common_keys : list (list N) :=
  [utf16 "id"; utf16 "title"; utf16 "description"; utf16 "category";
   utf16 "type"; utf16 "createdAt"; utf16 "updatedAt"; utf16 "tags";
   utf16 "procrastinationScore"].

Definition task_keys : list (list N) :=
  [utf16 "priority"; utf16 "dueDate"; utf16 "estimatedDuration";
   utf16 "actualDuration"; utf16 "status"].

Definition event_keys : list (list N) :=
  [utf16 "startTime"; utf16 "endTime"; utf16 "location"; utf16 "isRecurring";
   utf16 "recurrencePattern"; utf16 "recurrenceEndDate"].

(** Worked requests of the two endpoints. *)
Module Example.

Definition note : Val.t :=
  Val.Obj [(utf16 "title", Val.Str (utf16 "ghi chú"));
           (utf16 "category", Val.Str (utf16 "personal"));
           (utf16 "type", Val.Str (utf16 "note"));
           (utf16 "id", Val.Str (utf16 "mine"));
           (utf16 "estimatedDuration", Val.Num 0%float)].

Definition note_request : CreateRequest.t :=
  {| CreateRequest.taskData := Some note; CreateRequest.userId := None |}.

End Example.







(** The number of items of a category, and the token the fallback makes of
    it before it reads the token back. *)
Definition category_count (tasks : list Item.t) (category : list N) : nat :=
  length (List.filter (fun task => is_str (Item.category task) category) tasks).

Definition category_token (tasks : list Item.t) (category : list N) : list N :=
  category ++ utf16 "," ++ nat_str (category_count tasks category).

(** The value of a run of decimal digits that follows digits worth [acc]. *)
Fixpoint digits_value (d : Decimal.uint) (acc : Z) : Z :=
  match d with
  | Decimal.Nil => acc
  | Decimal.D0 r => digits_value r (10 * acc + 0)
  | Decimal.D1 r => digits_value r (10 * acc + 1)
  | Decimal.D2 r => digits_value r (10 * acc + 2)
  | Decimal.D3 r => digits_value r (10 * acc + 3)
  | Decimal.D4 r => digits_value r (10 * acc + 4)
  | Decimal.D5 r => digits_value r (10 * acc + 5)
  | Decimal.D6 r => digits_value r (10 * acc + 6)
  | Decimal.D7 r => digits_value r (10 * acc + 7)
  | Decimal.D8 r => digits_value r (10 * acc + 8)
  | Decimal.D9 r => digits_value r (10 * acc + 9)
  end.

(** The value the fallback computes as [mostActiveCategory]. *)
Definition mostActiveCategory_of `{Engine} (tasks : list Item.t) : MostActive.t :=
  List.fold_left more_active (List.map (category_token tasks) categories)
    {| MostActive.total := 0; MostActive.category := [] |}.



(** ** The to-do template: [todo-template.js]

    The two helper functions of the template object and the table they
    read. The arguments are texts; [priorityEmojis[priority]] is read as an
    own property, so a priority that names a member of [Object.prototype] is
    outside the model. *)

Module TodoTemplate.

Definition priorityOrder : list (list N) :=
  [utf16 "OVERDUE"; utf16 "URGENT"; utf16 "HIGH"; utf16 "MEDIUM"; utf16 "LOW";
   utf16 "IN-PROGRESS"].

Definition priorityEmojis : list (list N * list N) :=
  [(utf16 "OVERDUE", utf16 "🚨"); (utf16 "URGENT", utf16 "⚡");
   (utf16 "HIGH", utf16 "🔥"); (utf16 "MEDIUM", utf16 "📋");
   (utf16 "LOW", utf16 "📝"); (utf16 "IN_PROGRESS", utf16 "🔄")].

Definition createTodoItem (task time priority : list N) : list N :=
  let emoji := or_str (Obj.get priorityEmojis priority) (utf16 "📝") in
  emoji ++ utf16 " ☐ " ++ task ++ utf16 " - " ++ time ++ utf16 " - " ++ priority.

Definition createTodoList (title : list N) (items : list (list N))
    (advice : list N) : list N :=
  title ++ [newline; newline] ++ join [newline] items ++ [newline; newline]
    ++ advice.

End TodoTemplate.

(** * Properties *)

(** ** Small facts used throughout *)

Lemma filter_repeat {A} (p : A -> bool) (x : A) (n : nat) :
  List.filter p (repeat x n) = if p x then repeat x n else [].
Proof.
  induction n as [|n IH]; simpl.
  - now destruct (p x).
  - rewrite IH. now destruct (p x).
Qed.

Lemma str_eqb_eq (a b : list N) : str_eqb a b = true <-> a = b.
Proof.
  revert b. induction a as [|x a IH]; intros [|y b]; simpl; try easy.
  rewrite andb_true_iff, N.eqb_eq, IH. split.
  - now intros [-> ->].
  - intros [= -> ->]. now split.
Qed.

Lemma str_eqb_refl (a : list N) : str_eqb a a = true.
Proof. now apply str_eqb_eq. Qed.

Lemma str_eqb_neq (a b : list N) : a <> b -> str_eqb a b = false.
Proof.
  intros Hne. destruct (str_eqb a b) eqn:E; [|reflexivity].
  now apply str_eqb_eq in E.
Qed.

(** ** The stat encoders never raise and count nothing in an empty collection *)

Section EncoderTotality.
Context `{Engine}.

Lemma analytics_of_blank_items (n : nat) taskStats timeAccuracy heatmapInfo :
  exists ctx,
    createAnalyticsContext (Some (repeat blank_item n)) (Some taskStats)
      timeAccuracy heatmapInfo = Ok ctx
    /\ AnalyticsContext.totalTasks ctx = n
    /\ AnalyticsContext.totalEvents ctx = 0%nat
    /\ AnalyticsContext.categoryStats ctx = zero_tokens
    /\ AnalyticsContext.priorityStats ctx = zero_rows.
Proof.
  eexists. split; [reflexivity|]. cbn -[categories priorities zero_tokens zero_rows].
  rewrite !filter_repeat. cbn -[categories priorities zero_tokens zero_rows].
  rewrite repeat_length.
  repeat split.
  - unfold zero_tokens, categories, category_row. cbn [List.map].
    rewrite !filter_repeat. reflexivity.
  - unfold zero_rows, priorities, priority_row. cbn [List.map].
    rewrite !filter_repeat. reflexivity.
Qed.

(** C9. The stat encoder is total and an empty collection encodes to zero:
    [createTasksContext] returns the all-zero context for a missing or empty
    collection; [createAnalyticsContext] returns a context (it does not
    throw) for every collection and every aggregate object, whatever
    properties are missing; for an empty collection all its counts, tokens
    and rows are zero, its rate is zero, and with no aggregate supplied every
    number of the summary is zero; items with no property at all are counted
    as tasks and add nothing to any category or priority. *)
Theorem stat_encoder_total_and_zero_on_empty :
  (forall now heatmapInfo,
      zero_counts (createTasksContext now None heatmapInfo)
      /\ zero_counts (createTasksContext now (Some []) heatmapInfo))
  /\ (forall tasks taskStats timeAccuracy heatmapInfo,
         exists ctx,
           createAnalyticsContext (Some tasks) (Some taskStats) timeAccuracy
             heatmapInfo = Ok ctx)
  /\ (forall taskStats timeAccuracy heatmapInfo,
         exists ctx,
           createAnalyticsContext (Some []) (Some taskStats) timeAccuracy
             heatmapInfo = Ok ctx
           /\ AnalyticsContext.totalEvents ctx = 0%nat
           /\ AnalyticsContext.totalTasks ctx = 0%nat
           /\ AnalyticsContext.totalItems ctx = 0%nat
           /\ AnalyticsContext.categoryStats ctx = zero_tokens
           /\ AnalyticsContext.priorityStats ctx = zero_rows
           /\ AnalyticsContext.completionRate ctx = 0%float
           /\ AnalyticsContext.events ctx = []
           /\ AnalyticsContext.tasks ctx = [])
  /\ createAnalyticsContext (Some []) (Some TaskStats.empty) None None
     = Ok {| AnalyticsContext.totalEvents := 0;
             AnalyticsContext.totalTasks := 0;
             AnalyticsContext.totalItems := 0;
             AnalyticsContext.completedTasks := 0%float;
             AnalyticsContext.overdueTasks := 0%float;
             AnalyticsContext.productivityScore := 0%float;
             AnalyticsContext.averageCompletionTime := 0%float;
             AnalyticsContext.timeEstimationAccuracy := 0%float;
             AnalyticsContext.averageOverrun := 0%float;
             AnalyticsContext.categoryStats := zero_tokens;
             AnalyticsContext.priorityStats := zero_rows;
             AnalyticsContext.weeklyEventTime := 0%float;
             AnalyticsContext.completionRate := 0%float;
             AnalyticsContext.events := [];
             AnalyticsContext.tasks := [];
             AnalyticsContext.heatmapData := None;
             AnalyticsContext.heatmapAnalysis := None |}
  /\ (forall n taskStats timeAccuracy heatmapInfo,
         exists ctx,
           createAnalyticsContext (Some (repeat blank_item n)) (Some taskStats)
             timeAccuracy heatmapInfo = Ok ctx
           /\ AnalyticsContext.totalTasks ctx = n
           /\ AnalyticsContext.totalEvents ctx = 0%nat
           /\ AnalyticsContext.categoryStats ctx = zero_tokens
           /\ AnalyticsContext.priorityStats ctx = zero_rows).
Proof.
  split; [|split; [|split; [|split]]].
  - intros now heatmapInfo. split; repeat split.
  - intros tasks taskStats timeAccuracy heatmapInfo. eexists. reflexivity.
  - intros taskStats timeAccuracy heatmapInfo. eexists.
    split; [reflexivity|]. repeat split.
  - reflexivity.
  - intros n taskStats timeAccuracy heatmapInfo.
    apply analytics_of_blank_items.
Qed.

End EncoderTotality.

(** ** The recommendations are never empty *)

Section RecommendationsNeverEmpty.
Context `{Engine}.

Lemma framed_list {A} (x y : A) (r2 r3 : list A) :
  let recs := [x] ++ r2 ++ r3 ++ [y] in
  (2 <= length recs)%nat /\ head recs = Some x /\ last recs = Some y.
Proof.
  cbn zeta. repeat split.
  - rewrite !length_app. simpl. lia.
  - rewrite !app_assoc. apply last_snoc.
Qed.

(** The fallback list always opens with a time entry and closes with a
    technique or time-management entry. *)
Lemma fallback_recommendations_shape now tasks taskStats timeAccuracy language :
  exists recs first final,
    generateFallbackRecommendations now (Some tasks) (Some taskStats)
      timeAccuracy language = Ok recs
    /\ (2 <= length recs)%nat
    /\ head recs = Some first /\ time_entry first
    /\ last recs = Some final /\ closing_entry final.
Proof.
  unfold generateFallbackRecommendations.
  cbn [deref bind]. cbv zeta.
  destruct (str_eqb (default (utf16 "vi") language) (utf16 "vi"));
    match goal with
    | |- context [Ok (?r1 ++ ?r2 ++ ?r3 ++ ?r4)] =>
      generalize r2; generalize r3; intros r3' r2'
    end;
    repeat match goal with
    | |- context [if ?c then _ else _] => destruct c; cbv iota
    end;
    (eexists _, _, _; split; [reflexivity|];
     match goal with
     | |- context [[?x] ++ ?a ++ ?b ++ [?y]] =>
       destruct (framed_list x y a b) as (Hlen & Hhd & Hlast)
     end;
     split; [exact Hlen|]; split; [exact Hhd|]; split; [solve_entry|];
     split; [exact Hlast|solve_entry]).
Qed.

Lemma fallback_for_nothing now language :
  generateFallbackRecommendations now (Some []) (Some TaskStats.empty)
    (Some TimeAccuracy.empty) language = Ok (default_recommendations language).
Proof.
  unfold generateFallbackRecommendations, default_recommendations.
  cbn [deref bind]. cbv zeta.
  destruct (str_eqb (default (utf16 "vi") language) (utf16 "vi"));
    vm_compute; reflexivity.
Qed.

(** C10. Parsing recommendations never yields an empty list: the parser
    returns the labelled lines when there are some, else the lines with an
    emoji marker when there are some, else the fallback of an empty
    collection, which is two fixed entries chosen by the language; the
    fallback generator yields at least two entries for every collection, the
    first on time use and the last on a technique or on time management; and
    every answer of the endpoint that carries a list carries a non-empty
    one, the only other answer being the 400 for a missing collection or
    missing aggregates. *)
Theorem recommendations_never_empty :
  (forall now aiResponse language,
      exists recs,
        parseRecommendations now aiResponse language = Ok recs
        /\ recs <> []
        /\ (List.filter has_label (List.filter nonblank (split_on newline aiResponse)) = []
            -> List.filter has_marker (List.filter nonblank (split_on newline aiResponse)) = []
            -> recs = default_recommendations language))
  /\ (forall now tasks taskStats timeAccuracy language,
         exists recs first final,
           generateFallbackRecommendations now (Some tasks) (Some taskStats)
             timeAccuracy language = Ok recs
           /\ (2 <= length recs)%nat
           /\ head recs = Some first /\ time_entry first
           /\ last recs = Some final /\ closing_entry final)
  /\ (forall FORCE_FALLBACK now body outcome,
         match recommendations_handler FORCE_FALLBACK now body outcome with
         | Ok (Json r) =>
           RecResponse.success r = true /\ RecResponse.recommendations r <> []
         | Ok (BadRequest _) =>
           RecRequest.tasks body = None \/ RecRequest.taskStats body = None
         | Throw _ => False
         end).
Proof.
  split; [|split].
  - intros now aiResponse language. unfold parseRecommendations. cbv zeta.
    set (lines := List.filter nonblank (split_on newline aiResponse)).
    destruct (List.filter has_label lines) as [|l1 ls1] eqn:Hlabel.
    + cbn [List.map].
      destruct (List.filter has_marker lines) as [|l2 ls2] eqn:Hmarker.
      * cbn [List.map]. rewrite fallback_for_nothing.
        eexists. split; [reflexivity|]. split; [|easy].
        unfold default_recommendations.
        now destruct (str_eqb _ _).
      * eexists. split; [reflexivity|]. split; [easy|]. intros _ Hno. easy.
    + eexists. split; [reflexivity|]. split; [easy|]. intros Hno. easy.
  - intros. apply fallback_recommendations_shape.
  - intros FORCE_FALLBACK now body outcome.
    unfold recommendations_handler, recommendations_try.
    destruct (RecRequest.tasks body) as [tasks|]; [|now left].
    destruct (RecRequest.taskStats body) as [taskStats|]; [|now right].
    cbn [createAnalyticsContext deref bind]. cbv zeta.
    assert (Hnonempty : forall (l : list (list N)), (2 <= length l)%nat -> l <> []).
    { intros [|? ?]; simpl; [lia|easy]. }
    destruct (fallback_recommendations_shape now tasks taskStats
                (RecRequest.timeAccuracy body)
                (Some (default (utf16 "vi") (RecRequest.language body))))
      as (recs & first & final & Hrecs & Hlen & _).
    destruct FORCE_FALLBACK.
    + rewrite Hrecs. cbn [bind RecResponse.success RecResponse.recommendations]. split; [reflexivity|]. now apply Hnonempty.
    + destruct outcome as [aiResponse| |].
      * unfold parseRecommendations. cbv zeta.
        set (lines := List.filter nonblank (split_on newline aiResponse)).
        destruct (List.filter has_label lines) as [|l1 ls1].
        -- cbn [List.map].
           destruct (List.filter has_marker lines) as [|l2 ls2].
           ++ cbn [List.map]. rewrite fallback_for_nothing. cbn [bind RecResponse.success RecResponse.recommendations].
              split; [reflexivity|]. unfold default_recommendations.
              now destruct (str_eqb _ _).
           ++ cbn [bind List.map RecResponse.success RecResponse.recommendations].
              split; [reflexivity|easy].
        -- cbn [bind List.map RecResponse.success RecResponse.recommendations].
           split; [reflexivity|easy].
      * cbn [bind]. rewrite Hrecs. cbn [bind RecResponse.success RecResponse.recommendations]. split; [reflexivity|].
        now apply Hnonempty.
      * cbn [bind]. rewrite Hrecs. cbn [bind RecResponse.success RecResponse.recommendations]. split; [reflexivity|].
        now apply Hnonempty.
Qed.

End RecommendationsNeverEmpty.

(** ** A failing model call degrades to the fallback *)

Section ModelFailure.
Context `{Engine}.

Lemma returns_ret {A} (a : A) : returns (ret a).
Proof. intros m. now exists a. Qed.

Lemma returns_bind {A B} (c : M A) (k : A -> M B) :
  returns c -> (forall a, returns (k a)) -> returns (bindM c k).
Proof.
  intros Hc Hk m. unfold bindM.
  destruct (Hc m) as [a Ha]. destruct (c m) as [r m'].
  simpl in Ha. subst r. apply Hk.
Qed.

Lemma getOrCreateUserHistory_returns userId :
  returns (getOrCreateUserHistory userId).
Proof.
  intros m. unfold getOrCreateUserHistory.
  destruct (chatHistory m !! userId); eexists; reflexivity.
Qed.

Lemma addMessageToHistory_returns now userId message isUser :
  returns (addMessageToHistory now userId message isUser).
Proof.
  unfold addMessageToHistory.
  apply returns_bind; [apply getOrCreateUserHistory_returns|]. intros history.
  apply returns_bind; [intros m; eexists; reflexivity|]. intros len.
  destruct (MAX_HISTORY_LENGTH <? len)%nat.
  - apply returns_bind; [intros m; eexists; reflexivity|]. intros promise.
    apply returns_ret.
  - apply returns_ret.
Qed.



End ModelFailure.


(** ** Where the code departs from its own documentation *)

Section WorkedDepartures.
#[local] Existing Instance Sample.utc.

(** C2 (the code at the failing input). The history reaches seven turns. One
    user sends five messages and the model answers; the summarization started
    by the sixth turn fails and leaves three turns. The fifth message is then
    the sixth turn: [addMessageToHistory] starts a summarization and returns
    its promise, the handler calls [substring] on the promise, which throws,
    and the [catch] block appends the fallback answer as a seventh turn
    while that summarization and a second one are still waiting. *)
Theorem history_reaches_seven_turns :
  match Scenario.five_requests empty_memory with
  | (Ok (Json answer), m) =>
    length (stored_history m Scenario.user) = 7%nat
    /\ length (awaiting m) = 2%nat
    /\ ChatResponse.note answer
       = Some (utf16 "Using fallback response due to API error")
  | _ => False
  end.
Proof. vm_compute. repeat split. Qed.

(** C7 (the code at the failing input). [createTasksContext] adds up the
    [estimatedDuration] of every event, whatever its week and whatever its
    start and end: for an hour-long event of January 2020 (duration 60) and an
    hour-long event of the current week (duration 30) it reports 90 minutes,
    where the sum over the current week of end minus start, which
    [generateFallbackRecommendations] computes, is 60. *)
Theorem chat_weekly_minutes_ignore_the_week :
  TasksContext.weeklyEventTime
    (createTasksContext Scenario.now
       (Some [Scenario.old_event; Scenario.week_event]) None)
  = Some 90%float
  /\ weeklyEventTime_of Scenario.now [Scenario.old_event; Scenario.week_event]
     = 60%float.
Proof. split; vm_compute; reflexivity. Qed.

(** C8 (the code at the failing input). The overall completion rate of
    [createAnalyticsContext] is the caller's [completedTasks] over the number
    of tasks, times 100, neither rounded nor bounded: one completed task out
    of three gives a number that is not an integer, five "completed" for a
    single task give 500. The same three tasks, one of them completed, give
    33 in [createTasksContext], which rounds. *)
Theorem analytics_completion_rate_unrounded_unbounded :
  (exists ctx,
      createAnalyticsContext (Some (repeat Scenario.pending_task 3))
        (Some (Scenario.stats_completed 1)) None None = Ok ctx
      /\ Num.is_integer (AnalyticsContext.completionRate ctx) = false
      /\ PrimFloat.ltb 33%float (AnalyticsContext.completionRate ctx) = true
      /\ PrimFloat.ltb (AnalyticsContext.completionRate ctx) 34%float = true)
  /\ (exists ctx,
         createAnalyticsContext (Some [Scenario.pending_task])
           (Some (Scenario.stats_completed 5)) None None = Ok ctx
         /\ AnalyticsContext.completionRate ctx = 500%float)
  /\ TasksContext.completionRate
       (createTasksContext Scenario.now
          (Some [Scenario.task None (Some (utf16 "completed")) None;
                 Scenario.pending_task; Scenario.pending_task]) None)
     = Some 33%float.
Proof.
  split; [|split].
  - eexists. split; [reflexivity|]. repeat split; vm_compute; reflexivity.
  - eexists. split; [reflexivity|]. vm_compute. reflexivity.
  - vm_compute. reflexivity.
Qed.

End WorkedDepartures.

(** ** Dictionaries built by a loop *)

Section Dictionaries.
Context {V : Type}.
Implicit Types (o : list (list N * V)) (k : list N) (v : V).

Lemma get_set_eq o k v : Obj.get (Obj.set o k v) k = Some v.
Proof.
  induction o as [|[k' v'] o IH]; simpl.
  - now rewrite str_eqb_refl.
  - destruct (str_eqb k' k) eqn:E; simpl; rewrite E; [reflexivity|exact IH].
Qed.

Lemma get_set_ne o k k' v : k' <> k -> Obj.get (Obj.set o k v) k' = Obj.get o k'.
Proof.
  intros Hne. induction o as [|[k0 v0] o IH]; simpl.
  - rewrite str_eqb_neq; [reflexivity|]. congruence.
  - destruct (str_eqb k0 k) eqn:E; simpl.
    + apply str_eqb_eq in E. subst k0.
      rewrite !str_eqb_neq; congruence.
    + now rewrite IH.
Qed.

Lemma keys_set o k v :
  List.map fst (Obj.set o k v) = add_key (List.map fst o) k.
Proof.
  unfold add_key. induction o as [|[k' v'] o IH]; simpl; [reflexivity|].
  destruct (str_eqb k' k); simpl; [reflexivity|].
  rewrite IH. now destruct (existsb _ _).
Qed.

Lemma get_of_key o k : In k (List.map fst o) -> Obj.get o k <> None.
Proof.
  induction o as [|[k' v'] o IH]; simpl; [easy|].
  intros [-> | Hin].
  - now rewrite str_eqb_refl.
  - destruct (str_eqb k' k); [easy|auto].
Qed.

(** Without array-index keys, [Object.keys] is the creation order. *)
Lemma keys_in_creation_order o :
  Forall (fun k => Obj.array_index k = None) (List.map fst o) ->
  Obj.keys o = List.map fst o.
Proof.
  unfold Obj.keys. generalize (List.map fst o) as ks. intros ks Hks.
  assert (Hfold : forall acc,
             List.fold_left
               (fun acc k => match Obj.array_index k with
                             | Some z => Obj.insert_index (z, k) acc
                             | None => acc
                             end) ks acc = acc).
  { induction Hks as [|k ks Hk _ IH]; intros acc; simpl; [reflexivity|].
    now rewrite Hk. }
  rewrite Hfold. clear Hfold. simpl.
  induction Hks as [|k ks Hk _ IH]; simpl; [reflexivity|].
  now rewrite Hk, IH.
Qed.

End Dictionaries.

Lemma add_key_incl seen k x :
  In x (add_key seen k) -> In x seen \/ x = k.
Proof.
  unfold add_key. destruct (existsb _ _); [now left|].
  rewrite in_app_iff. simpl. intuition.
Qed.

Lemma first_occurrences_incl ks seen x :
  In x (List.fold_left add_key ks seen) -> In x seen \/ In x ks.
Proof.
  revert seen. induction ks as [|k ks IH]; intros seen; simpl; [now left|].
  intros Hin. apply IH in Hin as [Hin | Hin]; [|now right; right].
  apply add_key_incl in Hin as [Hin | ->]; [now left|now right; left].
Qed.

(** The keys of a dictionary filled by a loop are the keys of the loop's
    items in the order of first occurrence. *)
Lemma loop_keys {A V} (key : A -> list N) (value : A -> option V -> V)
    (l : list A) (o : list (list N * V)) :
  List.map fst
    (List.fold_left
       (fun o a => Obj.set o (key a) (value a (Obj.get o (key a)))) l o)
  = List.fold_left add_key (List.map key l) (List.map fst o).
Proof.
  revert o. induction l as [|a l IH]; intros o; simpl; [reflexivity|].
  now rewrite IH, keys_set.
Qed.

Section ChatPathCounts.
Context `{Engine}.




End ChatPathCounts.

(** ** Category tokens *)



Section CategoryTokens.
Context `{Engine}.



End CategoryTokens.

Lemma ordinary_keys_checked (ks : list (list N)) :
  forallb (fun k => match Obj.array_index k with
                    | Some _ => false
                    | None => negb (existsb (str_eqb k) inherited_names)
                    end) ks = true ->
  Forall ordinary_key ks.
Proof.
  intros Hall. apply List.Forall_forall. intros k Hk.
  rewrite forallb_forall in Hall. specialize (Hall k Hk).
  unfold ordinary_key.
  destruct (Obj.array_index k); [easy|]. split; [reflexivity|].
  intros Hin. apply negb_true_iff in Hall.
  assert (Hex : existsb (str_eqb k) inherited_names = true).
  { apply existsb_exists. exists k. split; [exact Hin|apply str_eqb_refl]. }
  congruence.
Qed.



(** ** Priority rows *)

Lemma flat_map_singletons {A B} (f : A -> list B) (g : A -> B) (l : list A) :
  (forall x, In x l -> f x = [g x]) -> List.flat_map f l = List.map g l.
Proof.
  induction l as [|x l IH]; intros Hf; simpl; [reflexivity|].
  rewrite (Hf x) by now left. simpl. f_equal. apply IH.
  intros y Hy. apply Hf. now right.
Qed.

Section PriorityRows.
Context `{Engine}.

Lemma round_of_no_task completed : Num.Math_round (rate completed 0) = 0%float.
Proof. reflexivity. Qed.

(** A row of the recommendations path, in closed form. *)
Lemma priority_row_closed_form (taskItems : list Item.t) (priority : list N) :
  priority_row taskItems priority
  = row_head priority (length (of_priority priority taskItems))
      (length (List.filter is_completed (of_priority priority taskItems)))
    ++ join (utf16 ",")
         (List.map (fun task => encode_deadline (or_str (Item.dueDate task) []))
            (with_due_date (of_priority priority taskItems))).
Proof.
  unfold priority_row, row_head, of_priority, with_due_date.
  rewrite <- !app_assoc. reflexivity.
Qed.

Lemma encode_deadline_valid (due : list N) (t : Z) :
  Date_parse due = Some t ->
  encode_deadline due = deadline_of_fields (JsDate.fields_at localTZA t).
Proof.
  intros Hparse. unfold encode_deadline, new_Date. rewrite Hparse.
  reflexivity.
Qed.

Lemma encode_deadline_invalid (due : list N) :
  Date_parse due = None ->
  encode_deadline due = utf16 "NaN:NaN:NaN.NaN:NaN.NaN:NaN".
Proof.
  intros Hparse. unfold encode_deadline, new_Date. rewrite Hparse.
  vm_compute. reflexivity.
Qed.

Lemma data_of_counted (o : list (list N * PriorityData.t)) (t : Item.t) :
  data_of (count_priority o t) (priority_of t)
  = {| PriorityData.total := S (PriorityData.total (data_of o (priority_of t)));
       PriorityData.completed :=
         if is_completed t
         then S (PriorityData.completed (data_of o (priority_of t)))
         else PriorityData.completed (data_of o (priority_of t));
       PriorityData.deadlines :=
         if truthy_str (Item.dueDate t)
         then PriorityData.deadlines (data_of o (priority_of t))
                ++ [or_str (Item.dueDate t) []]
         else PriorityData.deadlines (data_of o (priority_of t)) |}.
Proof.
  unfold data_of at 1. unfold count_priority. fold (priority_of t).
  now rewrite get_set_eq.
Qed.

Lemma data_of_not_counted (o : list (list N * PriorityData.t)) (t : Item.t)
    (p : list N) :
  p <> priority_of t -> data_of (count_priority o t) p = data_of o p.
Proof.
  intros Hne. unfold data_of, count_priority. fold (priority_of t).
  now rewrite get_set_ne.
Qed.

Lemma priority_loop_data (l : list Item.t)
    (o : list (list N * PriorityData.t)) (p : list N) :
  data_of (List.fold_left count_priority l o) p
  = {| PriorityData.total :=
         PriorityData.total (data_of o p) + length (mine p l);
       PriorityData.completed :=
         PriorityData.completed (data_of o p)
         + length (List.filter is_completed (mine p l));
       PriorityData.deadlines :=
         PriorityData.deadlines (data_of o p)
         ++ List.map (fun t => or_str (Item.dueDate t) [])
              (with_due_date (mine p l)) |}.
Proof.
  revert o. induction l as [|t l IH]; intros o.
  - simpl. rewrite !Nat.add_0_r, app_nil_r. now destruct (data_of o p).
  - cbn [List.fold_left]. rewrite IH. clear IH.
    unfold mine, with_due_date. cbn [List.filter].
    destruct (str_eqb (priority_of t) p) eqn:E.
    + apply str_eqb_eq in E. subst p. rewrite data_of_counted.
      cbn [PriorityData.total PriorityData.completed PriorityData.deadlines
           List.filter length].
      destruct (is_completed t), (truthy_str (Item.dueDate t));
        cbn [List.filter List.map length]; f_equal;
        rewrite <- ?app_assoc; simpl; try lia; reflexivity.
    + rewrite data_of_not_counted; [reflexivity|].
      intros ->. now rewrite str_eqb_refl in E.
Qed.

Lemma priority_loop_keys (l : list Item.t) :
  List.map fst (List.fold_left count_priority l [])
  = first_occurrences (List.map priority_of l).
Proof.
  unfold first_occurrences.
  exact (loop_keys priority_of
           (fun task old =>
              let data := match old with
                          | Some d => d
                          | None => {| PriorityData.total := 0;
                                       PriorityData.completed := 0;
                                       PriorityData.deadlines := [] |}
                          end in
              {| PriorityData.total := S (PriorityData.total data);
                 PriorityData.completed :=
                   if is_completed task then S (PriorityData.completed data)
                   else PriorityData.completed data;
                 PriorityData.deadlines :=
                   if truthy_str (Item.dueDate task)
                   then PriorityData.deadlines data
                          ++ [or_str (Item.dueDate task) []]
                   else PriorityData.deadlines data |})
           l []).
Qed.

Lemma priority_line_closed_form (p : list N) (data : PriorityData.t) :
  priority_line p data
  = row_head p (PriorityData.total data) (PriorityData.completed data)
    ++ join (utf16 ",") (PriorityData.deadlines data).
Proof.
  unfold priority_line, row_head. rewrite <- !app_assoc.
  destruct (PriorityData.total data) as [|n]; reflexivity.
Qed.

(** The rows of the chat path, in closed form. *)
Lemma chat_priority_rows now (tasks : list Item.t) heatmapInfo :
  tasks <> [] ->
  Forall ordinary_key (List.map priority_of tasks) ->
  TasksContext.priorityStats (createTasksContext now (Some tasks) heatmapInfo)
  = Some
      (List.map
         (fun p =>
            row_head p (length (mine p tasks))
              (length (List.filter is_completed (mine p tasks)))
            ++ join (utf16 ",")
                 (List.map (fun t => or_str (Item.dueDate t) [])
                    (with_due_date (mine p tasks))))
         (first_occurrences (List.map priority_of tasks))).
Proof.
  intros Hne Hord. destruct tasks as [|t0 tasks0]; [easy|].
  unfold createTasksContext. cbn [TasksContext.priorityStats].
  set (tasks := t0 :: tasks0) in *. f_equal.
  set (pc := List.fold_left count_priority tasks []).
  assert (Hkeys : Obj.keys pc = first_occurrences (List.map priority_of tasks)).
  { rewrite <- priority_loop_keys. apply keys_in_creation_order.
    fold pc. rewrite (priority_loop_keys tasks : List.map fst pc = _).
    apply List.Forall_forall. intros k Hk.
    apply first_occurrences_incl in Hk as [[]|Hk].
    rewrite List.Forall_forall in Hord. now apply Hord. }
  rewrite (flat_map_singletons _ (fun p => priority_line p (data_of pc p))).
  - rewrite Hkeys. apply map_ext. intros p.
    rewrite priority_line_closed_form. unfold pc.
    rewrite priority_loop_data. reflexivity.
  - intros p Hp. unfold data_of.
    assert (Hget : Obj.get pc p <> None).
    { apply get_of_key. rewrite (priority_loop_keys tasks : List.map fst pc = _).
      now rewrite <- Hkeys. }
    now destruct (Obj.get pc p).
Qed.

(** C6, as amended. On the recommendations path there are exactly four
    rows, for urgent, high, medium and low in that order; each is the
    priority, the number of its tasks, the number of those completed, and
    [Math.round((completed / total) * 100)] computed in doubles, 0 when there
    is no task, followed by the deadlines of its tasks that have a non-empty
    due date, joined by commas; a deadline is written from the local fields
    of the date as hours, minutes and seconds in two digits, then
    milliseconds, day, month and year as the numbers print, in the layout
    [hh:mm:ss.ms:day.month:year]. On the chat path, for a non-empty
    collection whose priority names are ordinary keys, there is one row per
    priority that occurs, in the order of first occurrence, an item without
    priority counting as [none]; each row starts with the priority, the
    number of items, the number completed and the rounded rate. *)
Theorem priority_rows_by_path
    (now : Z) (tasks : list Item.t) (taskStats : TaskStats.t)
    (timeAccuracy : option TimeAccuracy.t)
    (heatmapInfo heatmapInfo' : option HeatmapInfo.t) :
  (exists ctx,
      createAnalyticsContext (Some tasks) (Some taskStats) timeAccuracy
        heatmapInfo = Ok ctx
      /\ AnalyticsContext.priorityStats ctx
         = List.map
             (fun p =>
                let mine := of_priority p (List.filter is_task_or_untyped tasks) in
                row_head p (length mine) (length (List.filter is_completed mine))
                ++ join (utf16 ",")
                     (List.map
                        (fun task => encode_deadline (or_str (Item.dueDate task) []))
                        (with_due_date mine)))
             [utf16 "urgent"; utf16 "high"; utf16 "medium"; utf16 "low"])
  /\ (forall p completed,
         row_head p 0 completed = p ++ utf16 ",0," ++ nat_str completed ++ utf16 ",0,")
  /\ (forall due t,
         Date_parse due = Some t ->
         encode_deadline due = deadline_of_fields (JsDate.fields_at localTZA t))
  /\ (tasks <> [] ->
      Forall ordinary_key (List.map priority_of tasks) ->
      exists rows,
        TasksContext.priorityStats
          (createTasksContext now (Some tasks) heatmapInfo') = Some rows
        /\ Forall2
             (fun p row =>
                exists deadlines,
                  row = row_head p (length (mine p tasks))
                          (length (List.filter is_completed (mine p tasks)))
                        ++ deadlines)
             (first_occurrences (List.map priority_of tasks)) rows).
Proof.
  split; [|split; [|split]].
  - eexists. split; [reflexivity|].
    cbn [AnalyticsContext.priorityStats]. unfold priorities.
    cbn [List.map]. now rewrite !priority_row_closed_form.
  - intros p completed. unfold row_head. rewrite round_of_no_task.
    reflexivity.
  - exact encode_deadline_valid.
  - intros Hne Hord. eexists. split; [now apply chat_priority_rows|].
    apply Forall2_fmap_r, Forall_Forall2_diag, List.Forall_forall.
    intros p _. eexists. reflexivity.
Qed.

End PriorityRows.

(** The chat-path half of C6 at an urgent task followed by a task without
    priority: a row for urgent, then a row for none. *)
Lemma priority_rows_by_path_witness :
  [Scenario.urgent_task; Scenario.plain_task] <> []
  /\ Forall ordinary_key
       (List.map priority_of [Scenario.urgent_task; Scenario.plain_task])
  /\ exists rows,
       TasksContext.priorityStats
         (createTasksContext (H := Sample.utc) Scenario.now
            (Some [Scenario.urgent_task; Scenario.plain_task]) None) = Some rows
       /\ Forall2
            (fun p row =>
               exists deadlines,
                 row = row_head (H := Sample.utc) p
                         (length (mine p [Scenario.urgent_task; Scenario.plain_task]))
                         (length (List.filter is_completed
                                    (mine p [Scenario.urgent_task; Scenario.plain_task])))
                       ++ deadlines)
            (first_occurrences
               (List.map priority_of [Scenario.urgent_task; Scenario.plain_task]))
            rows.
Proof.
  assert (Hne : [Scenario.urgent_task; Scenario.plain_task] <> []) by easy.
  assert (Hord : Forall ordinary_key
                   (List.map priority_of
                      [Scenario.urgent_task; Scenario.plain_task])).
  { apply ordinary_keys_checked. vm_compute. reflexivity. }
  split; [exact Hne|]. split; [exact Hord|].
  exact (proj2 (proj2 (proj2
           (priority_rows_by_path (H := Sample.utc) Scenario.now
              [Scenario.urgent_task; Scenario.plain_task]
              TaskStats.empty None None None))) Hne Hord).
Defined.

(** C6 as stated fails. On the chat path a single task without priority
    gives the one row [none,1,0,0,], not a row for each of the four fixed
    priorities. On the recommendations path, on a server on Vietnam time, the
    deadline of 23:59 on 25 September 2025 is written [23:59:00.0:25.9:2025],
    its milliseconds in one digit, not three; and twenty-three tasks completed
    out of forty give the rate 57, the product in doubles falling just below
    57.5, where [round(100 * 23 / 40)] is 58. *)
Lemma priority_rows_depart_from_the_layout :
  TasksContext.priorityStats
    (createTasksContext (H := Sample.utc) Scenario.now
       (Some [Scenario.plain_task]) None)
  = Some [utf16 "none,1,0,0,"]
  /\ Spec.priority_rows (H := Sample.utc) [Scenario.plain_task]
     = [utf16 "urgent,0,0,0,"; utf16 "high,0,0,0,"; utf16 "medium,0,0,0,";
        utf16 "low,0,0,0,"]
  /\ (exists ctx,
         createAnalyticsContext (H := Sample.vietnam)
           (Some [Scenario.urgent_task]) (Some TaskStats.empty) None None = Ok ctx
         /\ AnalyticsContext.priorityStats ctx
            = [utf16 "urgent,1,0,0,23:59:00.0:25.9:2025"; utf16 "high,0,0,0,";
               utf16 "medium,0,0,0,"; utf16 "low,0,0,0,"])
  /\ Spec.priority_rows (H := Sample.vietnam) [Scenario.urgent_task]
     = [utf16 "urgent,1,0,0,23:59:00.000:25.9:2025"; utf16 "high,0,0,0,";
        utf16 "medium,0,0,0,"; utf16 "low,0,0,0,"]
  /\ (exists ctx,
         createAnalyticsContext (H := Sample.utc)
           (Some Scenario.forty_urgent) (Some TaskStats.empty) None None = Ok ctx
         /\ head (AnalyticsContext.priorityStats ctx)
            = Some (utf16 "urgent,40,23,57,"))
  /\ head (Spec.priority_rows (H := Sample.utc) Scenario.forty_urgent)
     = Some (utf16 "urgent,40,23,58,").
Proof.
  split; [vm_compute; reflexivity|]. split; [vm_compute; reflexivity|].
  split; [eexists; split; [reflexivity|]; vm_compute; reflexivity|].
  split; [vm_compute; reflexivity|].
  split; [|vm_compute; reflexivity].
  eexists. split; [reflexivity|]. vm_compute. reflexivity.
Qed.

(** ** The chat handler and the fenced blocks of an answer *)

Section FencePattern.
Import Fence.

Lemma startsWith_app (p s t : list N) :
  startsWith p s = true -> startsWith p (s ++ t) = true.
Proof.
  revert s. induction p as [|a p IH]; intros [|b s]; simpl; try easy.
  rewrite !andb_true_iff. intros [Hab Hps]. auto.
Qed.

Lemma startsWith_length (p s : list N) :
  startsWith p s = true -> (length p <= length s)%nat.
Proof.
  revert s. induction p as [|a p IH]; intros [|b s]; simpl; try easy; try lia.
  rewrite andb_true_iff. intros [_ Hps]. apply IH in Hps. lia.
Qed.

Lemma startsWith_app_false (p s t : list N) :
  startsWith p s = false -> (length p <= length s)%nat ->
  startsWith p (s ++ t) = false.
Proof.
  revert s. induction p as [|a p IH]; intros [|b s]; simpl; try easy; try lia.
  rewrite !andb_false_iff. intros [Hab | Hps] Hlen; [now left|].
  right. apply IH; [exact Hps|lia].
Qed.

Lemma startsWith_split (p s : list N) :
  startsWith p s = true -> s = p ++ skipn (length p) s.
Proof.
  revert s. induction p as [|a p IH]; intros [|b s]; simpl; try easy.
  rewrite andb_true_iff, N.eqb_eq. intros [-> Hps]. f_equal. now apply IH.
Qed.

Lemma startsWith_prefix_of (p q s : list N) :
  startsWith (p ++ q) s = true -> startsWith p s = true.
Proof.
  revert s. induction p as [|a p IH]; intros [|b s]; simpl; try easy.
  rewrite !andb_true_iff. intros [Hab Hps]. eauto.
Qed.

Lemma includes_length (p s : list N) :
  includes p s = true -> (length p <= length s)%nat.
Proof.
  induction s as [|c s IH]; simpl.
  - rewrite orb_false_r. apply startsWith_length.
  - rewrite orb_true_iff. intros [Hp | Hs].
    + apply startsWith_length in Hp. exact Hp.
    + apply IH in Hs. lia.
Qed.

Lemma includes_prefix_of (p q s : list N) :
  includes (p ++ q) s = true -> includes p s = true.
Proof.
  induction s as [|c s IH]; simpl; rewrite !orb_true_iff.
  - intros [Hp | Hf]; [left; eapply startsWith_prefix_of; eauto|easy].
  - intros [Hp | Hs]; [left; eapply startsWith_prefix_of; eauto|right; auto].
Qed.

Lemma trimStart_length (s : list N) : (length (trimStart s) <= length s)%nat.
Proof.
  induction s as [|c s IH]; simpl; [lia|]. destruct (is_ws c); simpl; lia.
Qed.

Lemma trimStart_app (s t : list N) :
  trimStart s <> [] -> trimStart (s ++ t) = trimStart s ++ t.
Proof.
  induction s as [|c s IH]; simpl; [easy|].
  destruct (is_ws c); [exact IH|reflexivity].
Qed.

Lemma trimStart_keeps (c : N) (s : list N) :
  is_ws c = false -> trimStart (c :: s) = c :: s.
Proof. intros Hws. simpl. now rewrite Hws. Qed.

Lemma skipn_app_within {A} (n : nat) (s t : list A) :
  (n <= length s)%nat -> skipn n (s ++ t) = skipn n s ++ t.
Proof.
  intros Hn. rewrite skipn_app.
  replace (n - length s)%nat with 0%nat by lia. reflexivity.
Qed.

Lemma closes_app (s t r : list N) :
  closes s = Some r -> closes (s ++ t) = Some (r ++ t).
Proof.
  unfold closes.
  destruct (startsWith close_tag (trimStart s)) eqn:Hstart; [|easy].
  intros [= <-].
  assert (Hne : trimStart s <> []).
  { intros Heq. rewrite Heq in Hstart. discriminate Hstart. }
  rewrite (trimStart_app s t Hne), (startsWith_app _ _ t Hstart).
  f_equal. apply (skipn_app_within (length close_tag)).
  exact (startsWith_length close_tag _ Hstart).
Qed.

Lemma lazy_body_eq (s : list N) :
  lazy_body s
  = match closes s with
    | Some rest => Some ([], rest)
    | None =>
      match s with
      | [] => None
      | c :: r =>
        match lazy_body r with
        | Some (body, rest) => Some (c :: body, rest)
        | None => None
        end
      end
    end.
Proof. now destruct s. Qed.

Lemma closes_skips_white_space (c : N) (s : list N) :
  is_ws c = true -> closes (c :: s) = closes s.
Proof. intros Hws. unfold closes. simpl. now rewrite Hws. Qed.

Lemma lazy_body_length (s : list N) :
  lazy_body s <> None -> (length close_tag <= length s)%nat.
Proof.
  induction s as [|c s IH]; rewrite lazy_body_eq.
  - intros Hlazy. exfalso. apply Hlazy. vm_compute. reflexivity.
  - destruct (closes (c :: s)) eqn:Hcl.
    + intros _. unfold closes in Hcl.
      destruct (startsWith close_tag (trimStart (c :: s))) eqn:Hstart; [|easy].
      pose proof (startsWith_length close_tag _ Hstart).
      pose proof (trimStart_length (c :: s)). lia.
    + destruct (lazy_body s) as [[body rest]|]; [|easy].
      intros _. assert (length close_tag <= length s)%nat by now apply IH.
      cbn [length]. lia.
Qed.

(** A position at which the closing part fails keeps failing when text is
    added at the end, provided a closing fence comes later. *)
Lemma closes_stable (s t : list N) :
  closes s = None -> lazy_body s <> None -> closes (s ++ t) = None.
Proof.
  induction s as [|c s IH]; intros Hcl Hlazy.
  - now rewrite lazy_body_eq in Hlazy.
  - destruct (is_ws c) eqn:Hws.
    + simpl. rewrite closes_skips_white_space in * by exact Hws.
      apply IH; [exact Hcl|].
      rewrite lazy_body_eq, closes_skips_white_space, Hcl in Hlazy by exact Hws.
      now destruct (lazy_body s).
    + pose proof (lazy_body_length _ Hlazy) as Hlen.
      unfold closes in Hcl |- *.
      change ((c :: s) ++ t) with (c :: s ++ t).
      rewrite (trimStart_keeps c (s ++ t) Hws).
      rewrite (trimStart_keeps c s Hws) in Hcl.
      destruct (startsWith close_tag (c :: s)) eqn:Hstart; [easy|].
      change (c :: s ++ t) with ((c :: s) ++ t).
      now rewrite (startsWith_app_false _ _ t Hstart Hlen).
Qed.

Lemma lazy_body_app (s t body rest : list N) :
  lazy_body s = Some (body, rest) ->
  lazy_body (s ++ t) = Some (body, rest ++ t).
Proof.
  revert body. induction s as [|c s IH]; intros body Hlazy.
  - now rewrite lazy_body_eq in Hlazy.
  - assert (Hsome : lazy_body (c :: s) <> None) by now rewrite Hlazy.
    rewrite lazy_body_eq in Hlazy. rewrite lazy_body_eq.
    destruct (closes (c :: s)) as [r|] eqn:Hcl.
    + injection Hlazy as <- <-. now rewrite (closes_app _ t _ Hcl).
    + rewrite (closes_stable _ t Hcl Hsome). simpl.
      destruct (lazy_body s) as [[body' rest']|]; [|easy].
      injection Hlazy as <- <-. now rewrite (IH body').
Qed.

Lemma after_tag_eq (s : list N) :
  after_tag s
  = match s with
    | c :: r =>
      if is_ws c then
        match after_tag r with
        | Some m => Some m
        | None => lazy_body s
        end
      else lazy_body s
    | [] => lazy_body s
    end.
Proof. now destruct s. Qed.

Lemma lazy_then_after_tag (s : list N) :
  lazy_body s <> None -> after_tag s <> None.
Proof.
  intros Hlazy. rewrite after_tag_eq. destruct s as [|c r]; [exact Hlazy|].
  destruct (is_ws c); [|exact Hlazy]. now destruct (after_tag r).
Qed.

Lemma lazy_body_past_white_space (c : N) (r : list N) :
  is_ws c = true -> lazy_body (c :: r) <> None -> lazy_body r <> None.
Proof.
  intros Hws Hc Hr. apply Hc.
  rewrite lazy_body_eq, closes_skips_white_space by exact Hws.
  cbv iota. rewrite Hr. rewrite lazy_body_eq in Hr.
  now destruct (closes r).
Qed.

Lemma after_tag_app (s t body rest : list N) :
  after_tag s = Some (body, rest) ->
  after_tag (s ++ t) = Some (body, rest ++ t).
Proof.
  induction s as [|c s IH]; intros Hafter.
  - now rewrite after_tag_eq, lazy_body_eq in Hafter.
  - rewrite after_tag_eq in Hafter.
    change ((c :: s) ++ t) with (c :: s ++ t). rewrite after_tag_eq.
    destruct (is_ws c) eqn:Hws.
    + destruct (after_tag s) as [m|] eqn:Hs.
      * injection Hafter as ->. now rewrite IH.
      * exfalso. apply (lazy_then_after_tag s); [|exact Hs].
        apply (lazy_body_past_white_space c); [exact Hws|]. now rewrite Hafter.
    + now apply (lazy_body_app (c :: s)).
Qed.

Lemma match_here_app (s t body rest : list N) :
  match_here s = Some (body, rest) ->
  match_here (s ++ t) = Some (body, rest ++ t).
Proof.
  unfold match_here.
  destruct (startsWith open_tag s) eqn:Hstart; [|easy]. intros Hafter.
  rewrite (startsWith_app _ _ t Hstart).
  rewrite (skipn_app_within (length open_tag))
    by exact (startsWith_length open_tag _ Hstart).
  now apply after_tag_app.
Qed.

Lemma not_white_space_at_fence (c : N) (s : list N) :
  startsWith close_tag (c :: s) = true -> is_ws c = false.
Proof.
  change close_tag with [96; 96; 96]%N. cbn [startsWith].
  rewrite andb_true_iff, N.eqb_eq. now intros [<- _].
Qed.

Lemma includes_close_then_lazy (s : list N) :
  includes close_tag s = true -> lazy_body s <> None.
Proof.
  induction s as [|c s IH]; [easy|].
  cbn [includes]. rewrite orb_true_iff, lazy_body_eq.
  intros [Hstart | Hin].
  - unfold closes.
    rewrite (trimStart_keeps c s (not_white_space_at_fence c s Hstart)).
    now rewrite Hstart.
  - destruct (closes (c :: s)); [easy|].
    specialize (IH Hin). now destruct (lazy_body s) as [[? ?]|].
Qed.

Lemma exec_eq (s : list N) :
  exec s
  = match match_here s with
    | Some m => Some m
    | None =>
      match s with
      | [] => None
      | _ :: r => exec r
      end
    end.
Proof. now destruct s. Qed.

Lemma exec_then_includes (s : list N) :
  exec s <> None -> includes open_tag s = true.
Proof.
  induction s as [|c s IH]; rewrite exec_eq.
  - intros Hexec. exfalso. apply Hexec. vm_compute. reflexivity.
  - cbn [includes]. unfold match_here at 1.
    destruct (startsWith open_tag (c :: s)); [easy|].
    intros Hexec. rewrite orb_true_iff. right. now apply IH.
Qed.

(** Two opening tags do not overlap: an opening tag found after the first
    code unit of one starts after its end. *)
Lemma no_overlap (rest : list N) :
  includes open_tag (tl (open_tag ++ rest)) = true ->
  includes open_tag rest = true.
Proof.
  change (tl (open_tag ++ rest))
    with (96 :: 96 :: 106 :: 115 :: 111 :: 110 :: rest)%N.
  change open_tag with [96; 96; 96; 106; 115; 111; 110]%N.
  cbn [includes startsWith N.eqb Pos.eqb andb orb]. exact (fun H => H).
Qed.

Lemma includes_tail (p s : list N) :
  includes p (tl s) = true -> includes p s = true.
Proof.
  destruct s as [|c s]; [easy|]. cbn [tl includes]. intros ->.
  apply orb_true_r.
Qed.

(** The search is leftmost and the body lazy: text added after an answer
    that has a block changes neither the block found nor its body. *)
Lemma exec_app (s t body rest : list N) :
  exec s = Some (body, rest) -> exec (s ++ t) = Some (body, rest ++ t).
Proof.
  induction s as [|c s IH]; intros Hexec.
  - now vm_compute in Hexec.
  - rewrite exec_eq in Hexec. rewrite exec_eq.
    destruct (match_here (c :: s)) as [m|] eqn:Hhere.
    + injection Hexec as ->. now rewrite (match_here_app _ t _ _ Hhere).
    + assert (Hin : includes open_tag s = true).
      { apply exec_then_includes. now rewrite Hexec. }
      assert (Hnone : match_here ((c :: s) ++ t) = None).
      { unfold match_here in Hhere |- *.
        destruct (startsWith open_tag (c :: s)) eqn:Hstart.
        - exfalso. pose proof (startsWith_split _ _ Hstart) as Hsplit.
          set (r := skipn (length open_tag) (c :: s)) in *.
          apply (lazy_then_after_tag r); [|exact Hhere].
          apply includes_close_then_lazy.
          apply (includes_prefix_of close_tag (utf16 "json")).
          apply no_overlap. rewrite <- Hsplit. exact Hin.
        - rewrite startsWith_app_false; [reflexivity|exact Hstart|].
          apply includes_length in Hin. cbn [length]. lia. }
      rewrite Hnone. change ((c :: s) ++ t) with (c :: s ++ t). cbv iota.
      now apply IH.
Qed.

Lemma exec_none_iff (aiResponse : list N) :
  json_diagnostic aiResponse = NoJsonFound <-> exec aiResponse = None.
Proof.
  unfold json_diagnostic. destruct (exec aiResponse) as [[body rest]|].
  - split; [|easy]. unfold try_catch, bind.
    destruct (Json.parse body) as [v|e]; [|easy].
    destruct (Json.prop v "action"); [|easy].
    now destruct (Json.prop v "taskData").
  - easy.
Qed.


(** After a model answer the handler cannot throw: its reply is the answer
    as the model wrote it. *)
Lemma chat_try_resume_answered (now : Z) (body : ChatRequest.t)
    (aiResponse : list N) (m : Memory) :
  fst (chat_try_resume now body (Answered aiResponse) m)
  = Ok (Json
          {| ChatResponse.success := true;
             ChatResponse.response := aiResponse;
             ChatResponse.timestamp := toISOString now;
             ChatResponse.note := None;
             ChatResponse.debug := None |}, json_diagnostic aiResponse).
Proof.
  unfold chat_try_resume, bindM.
  destruct (addMessageToHistory_returns now
              (default (utf16 "default") (ChatRequest.userId body))
              aiResponse false m) as [r Hr].
  destruct (addMessageToHistory _ _ _ _ m) as [res m'].
  simpl in Hr. subst res. reflexivity.
Qed.

Lemma extracted_without_validation (aiResponse body rest : list N)
    (v : Json.value) :
  exec aiResponse = Some (body, rest) -> Json.parse body = Ok v ->
  v <> Json.Null -> json_diagnostic aiResponse = Extracted v.
Proof.
  intros Hexec Hparse Hv. unfold json_diagnostic. rewrite Hexec, Hparse.
  now destruct v.
Qed.

End FencePattern.

(** C1, amended. The chat handler has no action extractor. On a model
    answer it replies with success and the answer text unchanged, whatever
    blocks the text holds. What it examines, for its log only, is the first
    fenced json block: none gives [NoJsonFound]; a first block whose body
    parses to a value other than [null] is reported as extracted, with no
    check of its action or fields; a body that does not parse is reported
    with the error caught; text after an answer that has a block, later
    blocks included, does not change the report. *)
Theorem chat_examines_first_block_only
    (now : Z) (body : ChatRequest.t) (aiResponse tail : list N) (m : Memory) :
  fst (chat_try_resume now body (Answered aiResponse) m)
  = Ok (Json
          {| ChatResponse.success := true;
             ChatResponse.response := aiResponse;
             ChatResponse.timestamp := toISOString now;
             ChatResponse.note := None;
             ChatResponse.debug := None |}, json_diagnostic aiResponse)
  /\ (json_diagnostic aiResponse = NoJsonFound
      <-> Fence.exec aiResponse = None)
  /\ (forall block rest v,
         Fence.exec aiResponse = Some (block, rest) ->
         Json.parse block = Ok v -> v <> Json.Null ->
         json_diagnostic aiResponse = Extracted v)
  /\ (forall block rest e,
         Fence.exec aiResponse = Some (block, rest) ->
         Json.parse block = Throw e ->
         json_diagnostic aiResponse = Caught e)
  /\ (Fence.exec aiResponse <> None ->
      json_diagnostic (aiResponse ++ tail) = json_diagnostic aiResponse).
Proof.
  split; [apply chat_try_resume_answered|].
  split; [apply exec_none_iff|].
  split; [apply extracted_without_validation|].
  split.
  { intros block rest e Hexec Hparse. unfold json_diagnostic.
    now rewrite Hexec, Hparse. }
  intros Hexec. unfold json_diagnostic.
  destruct (Fence.exec aiResponse) as [[block rest]|] eqn:Hblock; [|easy].
  now rewrite (exec_app _ tail _ _ Hblock).
Qed.

(** An answer with an invalid [create_task] block followed by a valid
    [delete_task] block: the handler reports the first as extracted and
    replies with the whole text, where the specification's extractor yields
    the delete and sets the create aside. *)
Lemma chat_reports_the_invalid_first_block :
  exists v,
    json_diagnostic Scenario.two_blocks = Extracted v
    /\ Json.parse Scenario.create_without_category = Ok v
    /\ Spec.validate v = None
    /\ Spec.extract Scenario.two_blocks
       = ([Spec.Delete (Json.Str (utf16 "task_1"))],
          [Scenario.create_without_category])
    /\ fst (chat_try_resume Scenario.now
              {| ChatRequest.message := Some (utf16 "xoá task 1");
                 ChatRequest.tasks := None; ChatRequest.taskStats := None;
                 ChatRequest.userId := None |}
              (Answered Scenario.two_blocks) empty_memory)
       = Ok (Json
               {| ChatResponse.success := true;
                  ChatResponse.response := Scenario.two_blocks;
                  ChatResponse.timestamp := utf16 "2025-09-15T16:59:00.000Z";
                  ChatResponse.note := None;
                  ChatResponse.debug := None |},
             Extracted v).
Proof.
  eexists. split; [vm_compute; reflexivity|].
  repeat split; vm_compute; reflexivity.
Qed.

(** ** What a match of the fence pattern is made of *)

Section FenceParts.
Import Fence.

Lemma trimStart_parts (s : list N) :
  exists ws, s = ws ++ trimStart s /\ forallb is_ws ws = true.
Proof.
  induction s as [|c s (ws & Hs & Hws)]; [now exists []|].
  cbn [trimStart]. destruct (is_ws c) eqn:Hc.
  - exists (c :: ws). cbn [forallb app]. rewrite Hc, Hws. split; [|reflexivity].
    now rewrite <- Hs.
  - now exists [].
Qed.

Lemma closes_parts (s rest : list N) :
  closes s = Some rest ->
  exists ws, s = ws ++ close_tag ++ rest /\ forallb is_ws ws = true.
Proof.
  unfold closes.
  destruct (startsWith close_tag (trimStart s)) eqn:Hstart; [|easy].
  intros [= <-]. destruct (trimStart_parts s) as (ws & Hs & Hws).
  exists ws. split; [|exact Hws].
  rewrite Hs at 1. f_equal. exact (startsWith_split _ _ Hstart).
Qed.

Lemma lazy_body_parts (s body rest : list N) :
  lazy_body s = Some (body, rest) ->
  exists ws, s = body ++ ws ++ close_tag ++ rest /\ forallb is_ws ws = true.
Proof.
  revert body. induction s as [|c s IH]; intros body; rewrite lazy_body_eq.
  - destruct (closes []) as [r|] eqn:Hcl; [|easy].
    intros [= <- <-]. now apply closes_parts.
  - destruct (closes (c :: s)) as [r|] eqn:Hcl.
    + intros [= <- <-]. now apply closes_parts.
    + destruct (lazy_body s) as [[body' rest']|]; [|easy].
      intros [= <- <-]. destruct (IH body' eq_refl) as (ws & Hs & Hws).
      exists ws. split; [|exact Hws]. cbn [app]. now rewrite <- Hs.
Qed.

Lemma after_tag_parts (s body rest : list N) :
  after_tag s = Some (body, rest) ->
  exists ws1 ws2,
    s = ws1 ++ body ++ ws2 ++ close_tag ++ rest
    /\ forallb is_ws ws1 = true /\ forallb is_ws ws2 = true.
Proof.
  induction s as [|c s IH]; rewrite after_tag_eq.
  - intros Hlazy. destruct (lazy_body_parts _ _ _ Hlazy) as (ws & Hs & Hws).
    now exists [], ws.
  - destruct (is_ws c) eqn:Hc.
    + destruct (after_tag s) as [m|].
      * intros [= ->]. destruct (IH eq_refl) as (ws1 & ws2 & Hs & Hws1 & Hws2).
        exists (c :: ws1), ws2. cbn [forallb app]. rewrite Hc, Hws1, <- Hs.
        auto.
      * intros Hlazy. destruct (lazy_body_parts _ _ _ Hlazy) as (ws & Hs & Hws).
        now exists [], ws.
    + intros Hlazy. destruct (lazy_body_parts _ _ _ Hlazy) as (ws & Hs & Hws).
      now exists [], ws.
Qed.

Lemma exec_parts (s body rest : list N) :
  exec s = Some (body, rest) ->
  exists before ws1 ws2,
    s = before ++ open_tag ++ ws1 ++ body ++ ws2 ++ close_tag ++ rest
    /\ forallb is_ws ws1 = true /\ forallb is_ws ws2 = true.
Proof.
  induction s as [|c s IH]; rewrite exec_eq.
  - intros Hexec. vm_compute in Hexec. discriminate Hexec.
  - unfold match_here at 1.
    destruct (startsWith open_tag (c :: s)) eqn:Hstart.
    + destruct (after_tag (skipn (length open_tag) (c :: s))) as [m|] eqn:Hafter.
      * intros [= ->].
        destruct (after_tag_parts _ _ _ Hafter) as (ws1 & ws2 & Hs & Hws1 & Hws2).
        exists [], ws1, ws2. cbn [app]. rewrite <- Hs.
        split; [|auto]. exact (startsWith_split _ _ Hstart).
      * intros Hexec. destruct (IH Hexec) as (before & ws1 & ws2 & Hs & Hws).
        exists (c :: before), ws1, ws2. cbn [app]. now rewrite <- Hs.
    + intros Hexec. destruct (IH Hexec) as (before & ws1 & ws2 & Hs & Hws).
      exists (c :: before), ws1, ws2. cbn [app]. now rewrite <- Hs.
Qed.

End FenceParts.

(** X7. The text the chat handler hands to [JSON.parse] is a part of the
    answer: it stands after an opening fence tagged json and white space,
    and before white space and a closing fence. *)
Theorem parsed_block_is_fenced_in_the_answer
    (aiResponse block rest : list N) :
  Fence.exec aiResponse = Some (block, rest) ->
  exists before ws1 ws2,
    aiResponse
    = before ++ utf16 "```json" ++ ws1 ++ block ++ ws2 ++ utf16 "```" ++ rest
    /\ forallb is_ws ws1 = true /\ forallb is_ws ws2 = true.
Proof. apply exec_parts. Qed.

(** The first block of an answer with two blocks. *)
Lemma parsed_block_is_fenced_in_the_answer_witness :
  exists block rest before ws1 ws2,
    Fence.exec Scenario.two_blocks = Some (block, rest)
    /\ Scenario.two_blocks
       = before ++ utf16 "```json" ++ ws1 ++ block ++ ws2 ++ utf16 "```" ++ rest
    /\ forallb is_ws ws1 = true /\ forallb is_ws ws2 = true.
Proof.
  destruct (Fence.exec Scenario.two_blocks) as [[block rest]|] eqn:Hexec.
  - destruct (parsed_block_is_fenced_in_the_answer _ _ _ Hexec)
      as (before & ws1 & ws2 & Hparts).
    exists block, rest, before, ws1, ws2. split; [reflexivity|exact Hparts].
  - vm_compute in Hexec. discriminate Hexec.
Defined.

(** ** Clock times of the +7:00 zone in the prompt and in the reply *)

Lemma worked_examples_rendered (currentDate tomorrowDate : list N) :
  List.map (Prompt.example_line currentDate tomorrowDate) Prompt.worked_examples
  = firstn 6 (skipn 10 (Prompt.time_section currentDate tomorrowDate)).
Proof.
  unfold Prompt.time_section, Prompt.worked_examples.
  cbn [List.map firstn skipn].
  unfold Prompt.example_line, Prompt.stamp, Prompt.clock, quoted.
  cbn [Prompt.anchor Prompt.phrase Prompt.vn_hour Prompt.utc_hour].
  repeat (f_equal; []).
  all: rewrite <- ?app_assoc; repeat (f_equal; []).
  all: try reflexivity.
  all: rewrite ?app_assoc; repeat (f_equal; []); vm_compute; reflexivity.
Qed.

Lemma worked_examples_subtract_seven (day : Z) :
  Forall
    (fun c =>
       Prompt.utc_instant day (Prompt.utc_hour c) 0
       = Prompt.vn_instant day (Prompt.vn_hour c) 0
       /\ (0 <= Prompt.utc_hour c < 24)%Z)
    Prompt.worked_examples.
Proof.
  unfold Prompt.worked_examples, Prompt.utc_instant, Prompt.vn_instant.
  repeat constructor; cbn [Prompt.utc_hour Prompt.vn_hour]; lia.
Qed.

(** C4, amended. The server converts no clock time itself: it writes the
    rule into the prompt and passes the model's answer on. The six worked
    examples of the prompt are the lines rendered from [worked_examples] on
    today's and tomorrow's date; each of them subtracts exactly seven hours
    and stays on the same calendar date; 11:00 tomorrow is written as 04:00
    UTC on tomorrow's date. The reply to the caller is the model's text
    unchanged, whatever hour it carries. *)
Theorem prompt_examples_subtract_seven_hours `{Engine}
    (now day : Z) (body : ChatRequest.t) (aiResponse : list N) (m : Memory) :
  List.map
    (Prompt.example_line (Prompt.currentDate now) (Prompt.tomorrowDate now))
    Prompt.worked_examples
  = firstn 6
      (skipn 10
         (Prompt.time_section (Prompt.currentDate now) (Prompt.tomorrowDate now)))
  /\ Forall
       (fun c =>
          Prompt.utc_instant day (Prompt.utc_hour c) 0
          = Prompt.vn_instant day (Prompt.vn_hour c) 0
          /\ (0 <= Prompt.utc_hour c < 24)%Z)
       Prompt.worked_examples
  /\ In (utf16 "  + Ví dụ: " ++ [dquote] ++ utf16 "11:00 mai" ++ [dquote]
           ++ utf16 " = " ++ Prompt.tomorrowDate now
           ++ utf16 "T04:00:00.000Z (11:00 VN = 04:00 UTC)")
        (Prompt.time_section (Prompt.currentDate now) (Prompt.tomorrowDate now))
  /\ fst (chat_resume now body (Answered aiResponse) m)
     = Ok (Json
             {| ChatResponse.success := true;
                ChatResponse.response := aiResponse;
                ChatResponse.timestamp := toISOString now;
                ChatResponse.note := None;
                ChatResponse.debug := None |}).
Proof.
  split; [apply worked_examples_rendered|].
  split; [apply worked_examples_subtract_seven|].
  split.
  - unfold Prompt.time_section. do 12 right. left. reflexivity.
  - unfold chat_resume, catchM, bindM.
    pose proof (chat_try_resume_answered now body aiResponse m) as Hanswer.
    destruct (chat_try_resume now body (Answered aiResponse) m) as [r m'].
    cbn [fst] in Hanswer. subst r. reflexivity.
Qed.

(** At 23:59 on 15 September 2025 in Vietnam a user asks for 11:00
    tomorrow; the model answers with the hour of 12:00; the reply carries
    that answer, with 05:00 and without 04:00 on tomorrow's date. *)
Lemma reply_may_carry_another_hour :
  Prompt.tomorrowDate Scenario.now = utf16 "2025-09-16"
  /\ (let reply :=
        fst (chat_handler (H := Sample.utc) false Scenario.now
               {| ChatRequest.message :=
                    Some (utf16 "tạo lịch học toán 12 lúc 11:00 mai");
                  ChatRequest.tasks := Some [];
                  ChatRequest.taskStats := None;
                  ChatRequest.userId := None |}
               (Answered Scenario.wrong_hour_answer) empty_memory) in
      reply
      = Ok (Json
              {| ChatResponse.success := true;
                 ChatResponse.response := Scenario.wrong_hour_answer;
                 ChatResponse.timestamp := utf16 "2025-09-15T16:59:00.000Z";
                 ChatResponse.note := None;
                 ChatResponse.debug := None |}))
  /\ includes (Prompt.stamp (Prompt.tomorrowDate Scenario.now) 5)
       Scenario.wrong_hour_answer = true
  /\ includes (Prompt.stamp (Prompt.tomorrowDate Scenario.now) 4)
       Scenario.wrong_hour_answer = false.
Proof. repeat split; vm_compute; reflexivity. Qed.

(** ** The conversation memory, one operation at a time *)

Section MemoryFacts.

Lemma well_formed_empty : well_formed empty_memory.
Proof.
  repeat split; intros *; cbn [chatHistory empty_memory awaiting];
    try (rewrite lookup_empty; discriminate).
  constructor.
Qed.

Lemma awaiting_kept (m m' : Memory) (calls : list Suspended.t) :
  grows m m' ->
  Forall (fun call =>
            (MAX_HISTORY_LENGTH < length (turns_of m (Suspended.history call)))%nat)
    calls ->
  Forall (fun call =>
            (MAX_HISTORY_LENGTH < length (turns_of m' (Suspended.history call)))%nat)
    calls.
Proof.
  intros Hgrows Hcalls. eapply Forall_impl; [exact Hcalls|].
  intros call Hcall. cbv beta in *.
  specialize (Hgrows (Suspended.history call)). lia.
Qed.

Lemma turns_of_insert (m : Memory) (ref ref' : nat) (turns : list Turn.t) ch aw :
  (ref < length (arrays m))%nat ->
  turns_of {| arrays := <[ref := turns]> (arrays m); chatHistory := ch;
              awaiting := aw |} ref'
  = if decide (ref' = ref) then turns else turns_of m ref'.
Proof.
  intros Href. unfold turns_of. cbn [arrays].
  destruct (decide (ref' = ref)) as [->|Hne].
  - now rewrite list_lookup_insert_eq.
  - now rewrite list_lookup_insert_ne.
Qed.

Lemma turns_of_alloc (m : Memory) (ref' : nat) (turns : list Turn.t) ch aw :
  turns_of {| arrays := arrays m ++ [turns]; chatHistory := ch;
              awaiting := aw |} ref'
  = if decide (ref' = length (arrays m)) then turns else turns_of m ref'.
Proof.
  unfold turns_of. cbn [arrays].
  destruct (decide (ref' = length (arrays m))) as [->|Hne].
  - now rewrite list_lookup_middle.
  - destruct (decide (ref' < length (arrays m))%nat) as [Hlt|Hge].
    + now rewrite lookup_app_l.
    + rewrite lookup_app_r by lia.
      rewrite (lookup_ge_None_2 (arrays m)) by lia.
      destruct (ref' - length (arrays m))%nat as [|n] eqn:Hn; [lia|].
      reflexivity.
Qed.

Lemma stored_history_same (m m' : Memory) (userId : list N) :
  arrays m' = arrays m -> chatHistory m' = chatHistory m ->
  stored_history m' userId = stored_history m userId.
Proof.
  intros Harrays Hmap. unfold stored_history, turns_of.
  now rewrite Harrays, Hmap.
Qed.

Lemma well_formed_same (m m' : Memory) :
  arrays m' = arrays m -> chatHistory m' = chatHistory m ->
  Forall
    (fun call =>
       (MAX_HISTORY_LENGTH < length (turns_of m' (Suspended.history call)))%nat)
    (awaiting m') ->
  well_formed m -> well_formed m'.
Proof.
  intros Harrays Hmap Hcalls (Hrange & Hinj & _).
  unfold well_formed. rewrite Harrays, Hmap. auto.
Qed.

Lemma grows_refl (m : Memory) : grows m m.
Proof. intros ref. lia. Qed.

Lemma grows_trans (m1 m2 m3 : Memory) : grows m1 m2 -> grows m2 m3 -> grows m1 m3.
Proof. intros H12 H23 ref. specialize (H12 ref). specialize (H23 ref). lia. Qed.

Lemma turns_of_out_of_range (m : Memory) (ref : nat) :
  (length (arrays m) <= ref)%nat -> turns_of m ref = [].
Proof. intros Href. unfold turns_of. now rewrite lookup_ge_None_2. Qed.

Lemma getOrCreateUserHistory_spec (userId : list N) (m : Memory) :
  well_formed m ->
  exists ref m1,
    getOrCreateUserHistory userId m = (Ok ref, m1)
    /\ chatHistory m1 !! userId = Some ref
    /\ (forall u, stored_history m1 u = stored_history m u)
    /\ awaiting m1 = awaiting m
    /\ grows m m1
    /\ well_formed m1.
Proof.
  intros (Hrange & Hinj & Hcalls). unfold getOrCreateUserHistory.
  destruct (chatHistory m !! userId) as [ref|] eqn:Huser.
  - exists ref, m. repeat split; auto using grows_refl.
  - set (m1 := {| arrays := arrays m ++ [[]];
                  chatHistory := <[userId := length (arrays m)]> (chatHistory m);
                  awaiting := awaiting m |}).
    exists (length (arrays m)), m1. split; [reflexivity|].
    assert (Hgrows : grows m m1).
    { intros ref. unfold m1. rewrite turns_of_alloc.
      destruct (decide (ref = length (arrays m))) as [->|_]; [|lia].
      rewrite turns_of_out_of_range by lia. simpl. lia. }
    split; [cbn [chatHistory m1]; apply lookup_insert_eq|].
    split; [|split; [reflexivity|split; [exact Hgrows|]]].
    + intros u. unfold stored_history. cbn [chatHistory m1].
      destruct (decide (u = userId)) as [->|Hne].
      * rewrite lookup_insert_eq, Huser. unfold m1. rewrite turns_of_alloc.
        now rewrite decide_True.
      * rewrite lookup_insert_ne by congruence.
        destruct (chatHistory m !! u) as [r|] eqn:Hu; [|reflexivity].
        unfold m1. rewrite turns_of_alloc.
        apply Hrange in Hu. rewrite decide_False by lia. reflexivity.
    + split; [|split].
      * intros u ref. cbn [chatHistory arrays m1]. rewrite length_app.
        cbn [length].
        destruct (decide (u = userId)) as [->|Hne].
        -- rewrite lookup_insert_eq. intros [= <-]. lia.
        -- rewrite lookup_insert_ne by congruence. intros Hu.
           apply Hrange in Hu. lia.
      * intros u1 u2 ref. cbn [chatHistory m1].
        destruct (decide (u1 = userId)) as [->|Hne1];
          destruct (decide (u2 = userId)) as [->|Hne2]; try easy.
        -- rewrite lookup_insert_eq, lookup_insert_ne by congruence.
           intros [= <-] Hu2. apply Hrange in Hu2. lia.
        -- rewrite lookup_insert_eq, lookup_insert_ne by congruence.
           intros Hu1 [= <-]. apply Hrange in Hu1. lia.
        -- rewrite !lookup_insert_ne by congruence. apply Hinj.
      * cbn [awaiting m1]. now apply (awaiting_kept m).
Qed.

Lemma push_spec (ref : nat) (turn : Turn.t) (m : Memory) :
  (ref < length (arrays m))%nat ->
  exists m2,
    push ref turn m = (Ok (S (length (turns_of m ref))), m2)
    /\ turns_of m2 ref = turns_of m ref ++ [turn]
    /\ (forall r, r <> ref -> turns_of m2 r = turns_of m r)
    /\ chatHistory m2 = chatHistory m
    /\ awaiting m2 = awaiting m
    /\ length (arrays m2) = length (arrays m).
Proof.
  intros Href. unfold push. cbv zeta. eexists. split.
  - rewrite length_app. cbn [length]. rewrite Nat.add_1_r. reflexivity.
  - split; [|split; [|split; [|split]]]; try reflexivity.
    + rewrite turns_of_insert by exact Href. now rewrite decide_True.
    + intros r Hr. rewrite turns_of_insert by exact Href.
      now rewrite decide_False.
    + cbn [arrays]. apply length_insert.
Qed.

Lemma addMessageToHistory_spec (now : Z) (userId message : list N)
    (isUser : bool) (m : Memory) :
  well_formed m ->
  exists m',
    addMessageToHistory now userId message isUser m
    = (Ok (if (MAX_HISTORY_LENGTH <? S (length (stored_history m userId)))%nat
           then Some (length (awaiting m)) else None), m')
    /\ stored_history m' userId
       = stored_history m userId ++ [turn_of now message isUser]
    /\ (forall u, u <> userId -> stored_history m' u = stored_history m u)
    /\ grows m m'
    /\ well_formed m'.
Proof.
  intros Hwf.
  destruct (getOrCreateUserHistory_spec userId m Hwf)
    as (ref & m1 & Hget & Hlook & Hsame & Haw & Hgrows & Hwf1).
  assert (Href : (ref < length (arrays m1))%nat).
  { destruct Hwf1 as (Hrange & _). now apply (Hrange userId). }
  destruct (push_spec ref (turn_of now message isUser) m1 Href)
    as (m2 & Hpush & Hturns & Hothers & Hmap & Haw2 & Hlen).
  assert (Hmine : turns_of m1 ref = stored_history m userId).
  { rewrite <- Hsame. unfold stored_history. now rewrite Hlook. }
  assert (Hgrows2 : grows m1 m2).
  { intros r. destruct (decide (r = ref)) as [->|Hne].
    - rewrite Hturns, length_app. lia.
    - rewrite Hothers by exact Hne. lia. }
  assert (Hstored : stored_history m2 userId
                    = stored_history m userId ++ [turn_of now message isUser]).
  { unfold stored_history at 1. now rewrite Hmap, Hlook, Hturns, Hmine. }
  assert (Hrest : forall u, u <> userId -> stored_history m2 u = stored_history m u).
  { intros u Hu. rewrite <- Hsame. unfold stored_history. rewrite Hmap.
    destruct (chatHistory m1 !! u) as [r|] eqn:Hr; [|reflexivity].
    apply Hothers. intros ->. destruct Hwf1 as (_ & Hinj & _).
    apply Hu. now apply (Hinj u userId ref). }
  assert (Hwf2 : forall calls,
             Forall (fun call =>
                       (MAX_HISTORY_LENGTH
                        < length (turns_of m2 (Suspended.history call)))%nat)
               calls ->
             forall m3, arrays m3 = arrays m2 -> chatHistory m3 = chatHistory m2 ->
                        awaiting m3 = calls -> well_formed m3).
  { intros calls Hcalls m3 Harrays Hmap3 Hcalls3.
    destruct Hwf1 as (Hrange & Hinj & _). unfold well_formed.
    rewrite Harrays, Hmap3, Hmap, Hlen, Hcalls3.
    split; [exact Hrange|]. split; [exact Hinj|].
    eapply Forall_impl; [exact Hcalls|]. intros call. cbv beta.
    unfold turns_of. now rewrite Harrays. }
  assert (Hold : Forall (fun call =>
                           (MAX_HISTORY_LENGTH
                            < length (turns_of m2 (Suspended.history call)))%nat)
                   (awaiting m)).
  { apply (awaiting_kept m); [now apply (grows_trans m m1 m2)|].
    now destruct Hwf as (_ & _ & Hcalls). }
  unfold addMessageToHistory, bindM. rewrite Hget.
  change {| Turn.message := message; Turn.isUser := isUser;
            Turn.timestamp := toISOString now |}
    with (turn_of now message isUser).
  rewrite Hpush, Hmine.
  destruct (MAX_HISTORY_LENGTH <? S (length (stored_history m userId)))%nat
    eqn:Hfull.
  - unfold summarizeAndResetHistory, ret. rewrite Haw2, Haw.
    eexists. split; [reflexivity|].
    split; [now rewrite (stored_history_same m2)|].
    split; [intros u Hu; now rewrite (stored_history_same m2), Hrest|].
    split.
    + intros r. unfold turns_of at 2. cbn [arrays].
      apply (grows_trans m m1 m2 Hgrows Hgrows2).
    + apply (Hwf2 (awaiting m
                     ++ [{| Suspended.userId := userId;
                            Suspended.history := ref;
                            Suspended.summaryPrompt :=
                              summaryPrompt_of (turns_of m2 ref) |}]));
        try reflexivity.
      apply Forall_app. split; [exact Hold|]. constructor; [|constructor].
      cbn [Suspended.history]. rewrite Hturns, Hmine, length_app.
      apply Nat.ltb_lt in Hfull. cbn [length]. lia.
  - unfold ret. exists m2. split; [reflexivity|].
    split; [exact Hstored|]. split; [exact Hrest|].
    split; [now apply (grows_trans m m1 m2)|].
    apply (Hwf2 (awaiting m)); try reflexivity; [exact Hold|].
    now rewrite Haw2, Haw.
Qed.

(** [chatHistory.set(userId, turns)] with a fresh array. *)
Lemma fresh_array_spec (userId : list N) (turns : list Turn.t)
    (calls : list Suspended.t) (m : Memory) :
  well_formed m ->
  Forall
    (fun call =>
       (MAX_HISTORY_LENGTH < length (turns_of m (Suspended.history call)))%nat)
    calls ->
  let m' := {| arrays := arrays m ++ [turns];
               chatHistory := <[userId := length (arrays m)]> (chatHistory m);
               awaiting := calls |} in
  stored_history m' userId = turns
  /\ (forall u, u <> userId -> stored_history m' u = stored_history m u)
  /\ grows m m'
  /\ well_formed m'.
Proof.
  intros (Hrange & Hinj & _) Hcalls m'.
  assert (Hgrows : grows m m').
  { intros ref. unfold m'. rewrite turns_of_alloc.
    destruct (decide (ref = length (arrays m))) as [->|_]; [|lia].
    rewrite turns_of_out_of_range by lia. simpl. lia. }
  split; [|split; [|split; [exact Hgrows|]]].
  - unfold stored_history. cbn [chatHistory m']. rewrite lookup_insert_eq.
    unfold m'. rewrite turns_of_alloc. now rewrite decide_True.
  - intros u Hu. unfold stored_history. cbn [chatHistory m'].
    rewrite lookup_insert_ne by congruence.
    destruct (chatHistory m !! u) as [r|] eqn:Hr; [|reflexivity].
    unfold m'. rewrite turns_of_alloc. apply Hrange in Hr.
    rewrite decide_False by lia. reflexivity.
  - split; [|split].
    + intros u ref. cbn [chatHistory arrays m']. rewrite length_app.
      cbn [length]. destruct (decide (u = userId)) as [->|Hne].
      * rewrite lookup_insert_eq. intros [= <-]. lia.
      * rewrite lookup_insert_ne by congruence. intros Hu.
        apply Hrange in Hu. lia.
    + intros u1 u2 ref. cbn [chatHistory m'].
      destruct (decide (u1 = userId)) as [->|Hne1];
        destruct (decide (u2 = userId)) as [->|Hne2]; try easy.
      * rewrite lookup_insert_eq, lookup_insert_ne by congruence.
        intros [= <-] Hu2. apply Hrange in Hu2. lia.
      * rewrite lookup_insert_eq, lookup_insert_ne by congruence.
        intros Hu1 [= <-]. apply Hrange in Hu1. lia.
      * rewrite !lookup_insert_ne by congruence. apply Hinj.
    + cbn [awaiting m']. now apply (awaiting_kept m).
Qed.

Lemma last3_length {A} (l : list A) :
  (3 <= length l)%nat -> length (last3 l) = 3%nat.
Proof. intros Hlen. unfold last3. rewrite length_skipn. lia. Qed.

Lemma settle_spec (now : Z) (k : nat) (call : Suspended.t)
    (answer : option (list N)) (m : Memory) :
  well_formed m -> awaiting m !! k = Some call ->
  exists m',
    settle now k answer m = (Ok tt, m')
    /\ stored_history m' (Suspended.userId call)
       = match answer with
         | Some summary => [summary_turn now summary]
         | None => last3 (turns_of m (Suspended.history call))
         end
    /\ (forall u, u <> Suspended.userId call ->
                  stored_history m' u = stored_history m u)
    /\ awaiting m' = delete k (awaiting m)
    /\ grows m m'
    /\ well_formed m'.
Proof.
  intros Hwf Hcall.
  assert (Hcalls : Forall
                     (fun call =>
                        (MAX_HISTORY_LENGTH
                         < length (turns_of m (Suspended.history call)))%nat)
                     (delete k (awaiting m))).
  { destruct Hwf as (_ & _ & Hall). now apply Forall_delete. }
  unfold settle. rewrite Hcall.
  destruct answer as [summary|].
  - destruct (fresh_array_spec (Suspended.userId call)
                [summary_turn now summary] (delete k (awaiting m)) m Hwf Hcalls)
      as (Hmine & Hrest & Hgrows & Hwf').
    eexists. split; [reflexivity|].
    split; [exact Hmine|]. split; [exact Hrest|]. split; [reflexivity|].
    split; [exact Hgrows|exact Hwf'].
  - destruct (fresh_array_spec (Suspended.userId call)
                (last3 (turns_of m (Suspended.history call)))
                (delete k (awaiting m)) m Hwf Hcalls)
      as (Hmine & Hrest & Hgrows & Hwf').
    eexists. split; [reflexivity|].
    split; [exact Hmine|]. split; [exact Hrest|]. split; [reflexivity|].
    split; [exact Hgrows|exact Hwf'].
Qed.

Lemma keeps_ret {A} (a : A) : keeps (ret a).
Proof. intros m Hwf. split; [exact Hwf|apply grows_refl]. Qed.

Lemma keeps_throw {A} (e : exn) : keeps (throw (A := A) e).
Proof. intros m Hwf. split; [exact Hwf|apply grows_refl]. Qed.

Lemma keeps_bind {A B} (c : M A) (k : A -> M B) :
  keeps c -> (forall a, keeps (k a)) -> keeps (bindM c k).
Proof.
  intros Hc Hk m Hwf. unfold bindM.
  destruct (Hc m Hwf) as [Hwf1 Hgrows1].
  destruct (c m) as [[a|e] m1]; cbn [snd] in *.
  - destruct (Hk a m1 Hwf1) as [Hwf2 Hgrows2].
    split; [exact Hwf2|]. now apply (grows_trans m m1).
  - split; assumption.
Qed.

Lemma keeps_catch {A} (c : M A) (h : exn -> M A) :
  keeps c -> (forall e, keeps (h e)) -> keeps (catchM c h).
Proof.
  intros Hc Hh m Hwf. unfold catchM.
  destruct (Hc m Hwf) as [Hwf1 Hgrows1].
  destruct (c m) as [[a|e] m1]; cbn [snd] in *.
  - split; assumption.
  - destruct (Hh e m1 Hwf1) as [Hwf2 Hgrows2].
    split; [exact Hwf2|]. now apply (grows_trans m m1).
Qed.

Lemma keeps_addMessageToHistory now userId message isUser :
  keeps (addMessageToHistory now userId message isUser).
Proof.
  intros m Hwf.
  destruct (addMessageToHistory_spec now userId message isUser m Hwf)
    as (m' & Heq & _ & _ & Hgrows & Hwf').
  rewrite Heq. now split.
Qed.

Lemma keeps_getHistoryContext userId : keeps (getHistoryContext userId).
Proof.
  unfold getHistoryContext. apply keeps_bind.
  - intros m Hwf.
    destruct (getOrCreateUserHistory_spec userId m Hwf)
      as (ref & m1 & Heq & _ & _ & _ & Hgrows & Hwf1).
    rewrite Heq. now split.
  - intros history m Hwf.
    destruct (turns_of m history); split; auto using grows_refl.
Qed.

Lemma keeps_settle now k answer : keeps (settle now k answer).
Proof.
  intros m Hwf. destruct (awaiting m !! k) as [call|] eqn:Hcall.
  - destruct (settle_spec now k call answer m Hwf Hcall)
      as (m' & Heq & _ & _ & _ & Hgrows & Hwf').
    rewrite Heq. now split.
  - unfold settle. rewrite Hcall. split; [exact Hwf|apply grows_refl].
Qed.

Lemma keeps_reset_history userId : keeps (reset_history userId).
Proof.
  intros m (Hrange & Hinj & Hcalls). unfold reset_history. cbn [snd].
  split; [|intros ref; unfold turns_of; cbn [arrays]; lia].
  split; [|split].
  - intros u ref. cbn [chatHistory arrays]. rewrite lookup_delete_Some.
    intros [_ Hu]. now apply (Hrange u).
  - intros u1 u2 ref. cbn [chatHistory]. rewrite !lookup_delete_Some.
    intros [_ Hu1] [_ Hu2]. now apply (Hinj u1 u2 ref).
  - exact Hcalls.
Qed.

End MemoryFacts.

Section HandlersKeepTheMemory.
Context `{Engine}.

Lemma keeps_chat_catch now body : keeps (chat_catch now body).
Proof.
  unfold chat_catch. apply keeps_bind; [apply keeps_addMessageToHistory|].
  intros _. apply keeps_ret.
Qed.

Lemma keeps_chat_begin FORCE_FALLBACK now body :
  keeps (chat_begin FORCE_FALLBACK now body).
Proof.
  unfold chat_begin. apply keeps_catch.
  - unfold chat_try_begin.
    destruct (ChatRequest.message body) as [[|c message]|];
      try apply keeps_ret.
    apply keeps_bind; [apply keeps_addMessageToHistory|]. intros summaryResult.
    apply keeps_bind; [destruct summaryResult; [apply keeps_throw|apply keeps_ret]|].
    intros _. destruct FORCE_FALLBACK.
    + apply keeps_bind; [apply keeps_addMessageToHistory|].
      intros _. apply keeps_ret.
    + apply keeps_bind; [apply keeps_getHistoryContext|].
      intros historyContext. apply keeps_ret.
  - intros error. apply keeps_bind; [apply keeps_chat_catch|].
    intros reply. apply keeps_ret.
Qed.

Lemma keeps_chat_resume now body outcome : keeps (chat_resume now body outcome).
Proof.
  unfold chat_resume. apply keeps_catch; [|intros error; apply keeps_chat_catch].
  apply keeps_bind; [|intros r; apply keeps_ret].
  unfold chat_try_resume. destruct outcome; try apply keeps_throw.
  apply keeps_bind; [apply keeps_addMessageToHistory|].
  intros _. apply keeps_ret.
Qed.

Lemma keeps_chat_handler FORCE_FALLBACK now body outcome :
  keeps (chat_handler FORCE_FALLBACK now body outcome).
Proof.
  unfold chat_handler. apply keeps_bind; [apply keeps_chat_begin|].
  intros [reply|tasksContext historyContext];
    [apply keeps_ret|apply keeps_chat_resume].
Qed.

End HandlersKeepTheMemory.

(** X1. Appending a turn adds exactly that turn at the end of the user's
    stored history and leaves every other user's history as it was; the
    history is not cut at the append. When the new length exceeds
    [MAX_HISTORY_LENGTH] the call returns the promise of the summarization
    it started, else [null]. *)
Theorem append_adds_one_turn
    (now : Z) (userId message : list N) (isUser : bool) (m : Memory) :
  well_formed m ->
  fst (addMessageToHistory now userId message isUser m)
  = Ok (if (MAX_HISTORY_LENGTH <? S (length (stored_history m userId)))%nat
        then Some (length (awaiting m)) else None)
  /\ stored_history (snd (addMessageToHistory now userId message isUser m)) userId
     = stored_history m userId ++ [turn_of now message isUser]
  /\ (forall u, u <> userId ->
         stored_history (snd (addMessageToHistory now userId message isUser m)) u
         = stored_history m u).
Proof.
  intros Hwf.
  destruct (addMessageToHistory_spec now userId message isUser m Hwf)
    as (m' & Heq & Hmine & Hrest & _).
  rewrite Heq. cbn [fst snd]. auto.
Qed.

(** The first message of a user in an empty memory. *)
Lemma append_adds_one_turn_witness :
  well_formed empty_memory
  /\ stored_history
       (snd (addMessageToHistory Scenario.now Scenario.user (utf16 "m1") true
               empty_memory)) Scenario.user
     = stored_history empty_memory Scenario.user
         ++ [turn_of Scenario.now (utf16 "m1") true].
Proof.
  split; [exact well_formed_empty|].
  exact (proj1 (proj2 (append_adds_one_turn Scenario.now Scenario.user
                         (utf16 "m1") true empty_memory well_formed_empty))).
Defined.

(** X2. When a waiting summarization settles, the call does not throw; on
    a summary the user's stored history becomes the single non-user turn
    that carries the marked summary; on a failure it becomes the last three
    turns of the array the summarization was started with, exactly three
    turns; every other user's history is as it was, and the call no longer
    waits. *)
Theorem compaction_leaves_one_or_three_turns
    (now : Z) (k : nat) (call : Suspended.t) (answer : option (list N))
    (m : Memory) :
  well_formed m -> awaiting m !! k = Some call ->
  fst (settle now k answer m) = Ok tt
  /\ stored_history (snd (settle now k answer m)) (Suspended.userId call)
     = match answer with
       | Some summary => [summary_turn now summary]
       | None => last3 (turns_of m (Suspended.history call))
       end
  /\ length (stored_history (snd (settle now k answer m)) (Suspended.userId call))
     = match answer with
       | Some _ => 1%nat
       | None => 3%nat
       end
  /\ (forall u, u <> Suspended.userId call ->
         stored_history (snd (settle now k answer m)) u = stored_history m u)
  /\ awaiting (snd (settle now k answer m)) = delete k (awaiting m).
Proof.
  intros Hwf Hcall.
  destruct (settle_spec now k call answer m Hwf Hcall)
    as (m' & Heq & Hmine & Hrest & Hwaiting & _).
  rewrite Heq. cbn [fst snd].
  split; [reflexivity|]. split; [exact Hmine|].
  split; [|split; [exact Hrest|exact Hwaiting]].
  rewrite Hmine. destruct answer as [summary|]; [reflexivity|].
  apply last3_length. destruct Hwf as (_ & _ & Hcalls).
  pose proof (Forall_lookup_1 _ _ _ _ Hcalls Hcall) as Hlong.
  cbv beta in Hlong. unfold MAX_HISTORY_LENGTH in Hlong. lia.
Qed.

(** After three exchanges of one user the summarization of the six turns
    waits; it fails, and the last three turns are kept. *)
Lemma compaction_leaves_one_or_three_turns_witness :
  well_formed Scenario.full_memory
  /\ awaiting Scenario.full_memory !! 0%nat = Some Scenario.waiting_call
  /\ length
       (stored_history (snd (settle Scenario.now 0 None Scenario.full_memory))
          Scenario.user) = 3%nat.
Proof.
  assert (Hwf : well_formed Scenario.full_memory).
  { unfold Scenario.full_memory, Scenario.three_exchanges, Scenario.chat.
    apply (keeps_bind (A := Reply ChatResponse.t));
      [apply keeps_chat_handler| |exact well_formed_empty].
    intros _.
    apply (keeps_bind (A := Reply ChatResponse.t));
      [apply keeps_chat_handler|].
    intros _. apply keeps_chat_handler. }
  assert (Hcall : awaiting Scenario.full_memory !! 0%nat
                  = Some Scenario.waiting_call).
  { vm_compute. reflexivity. }
  split; [exact Hwf|]. split; [exact Hcall|].
  exact (proj1 (proj2 (proj2
           (compaction_leaves_one_or_three_turns Scenario.now 0
              Scenario.waiting_call None Scenario.full_memory Hwf Hcall)))).
Defined.

(** X3. Every operation on the memory keeps it well formed: the two runs
    of the chat handler, a summarization settling either way, and the reset
    of a user. References stay inside the heap, no two users share an
    array, and the array of a waiting summarization keeps more than
    [MAX_HISTORY_LENGTH] turns. *)
Theorem operations_keep_the_memory_well_formed `{Engine}
    (FORCE_FALLBACK : bool) (now : Z) (body : ChatRequest.t)
    (outcome : ModelOutcome) (k : nat) (answer : option (list N))
    (userId : list N) (m : Memory) :
  well_formed m ->
  well_formed (snd (chat_begin FORCE_FALLBACK now body m))
  /\ well_formed (snd (chat_resume now body outcome m))
  /\ well_formed (snd (chat_handler FORCE_FALLBACK now body outcome m))
  /\ well_formed (snd (settle now k answer m))
  /\ well_formed (snd (reset_history userId m)).
Proof.
  intros Hwf.
  split; [apply keeps_chat_begin, Hwf|].
  split; [apply keeps_chat_resume, Hwf|].
  split; [apply keeps_chat_handler, Hwf|].
  split; [apply keeps_settle, Hwf|apply keeps_reset_history, Hwf].
Qed.

(** The empty memory of a fresh server, and a first request. *)
Lemma operations_keep_the_memory_well_formed_witness :
  well_formed empty_memory
  /\ well_formed
       (snd (chat_handler (H := Sample.utc) false Scenario.now Scenario.question
               (Answered (utf16 "a1")) empty_memory)).
Proof.
  split; [exact well_formed_empty|].
  exact (proj1 (proj2 (proj2
           (operations_keep_the_memory_well_formed (H := Sample.utc) false
              Scenario.now Scenario.question (Answered (utf16 "a1")) 0 None
              Scenario.user empty_memory well_formed_empty)))).
Defined.

(** ** The calendar of the date anchors *)

Section Calendar.
Local Open Scope Z_scope.
Import JsDate.

(** Every day number is the day number of its civil date. *)
Lemma civil_round_trip (z : Z) :
  let '(y, m, d) := civil_from_days z in
  1 <= m <= 12 /\ 1 <= d /\ days_from_civil y m d = z.
Proof.
  unfold civil_from_days, days_from_civil. cbv zeta.
  set (z' := z + 719468).
  set (era := z' / 146097).
  set (doe := z' - era * 146097).
  assert (Hdoe : 0 <= doe < 146097).
  { unfold doe, era. Z.div_mod_to_equations. lia. }
  set (yoe := (doe - doe / 1460 + doe / 36524 - doe / 146096) / 365).
  assert (Hyoe : 0 <= yoe < 400).
  { unfold yoe. Z.div_mod_to_equations. lia. }
  set (doy := doe - (365 * yoe + yoe / 4 - yoe / 100)).
  assert (Hdoy : 0 <= doy <= 365).
  { unfold doy, yoe. Z.div_mod_to_equations. lia. }
  set (mp := (5 * doy + 2) / 153).
  assert (Hmp : 0 <= mp <= 11).
  { unfold mp. Z.div_mod_to_equations. lia. }
  assert (Hd : 1 <= doy - (153 * mp + 2) / 5 + 1).
  { unfold mp. Z.div_mod_to_equations. lia. }
  destruct (mp <? 10) eqn:Hten.
  - apply Z.ltb_lt in Hten.
    destruct (mp + 3 <=? 2) eqn:Hfeb; [apply Z.leb_le in Hfeb; lia|].
    replace (yoe + era * 400 + 0) with (yoe + era * 400) by ring.
    rewrite Z.div_add by lia. rewrite (Z.div_small yoe 400) by lia.
    replace (yoe + era * 400 - (0 + era) * 400) with yoe by ring.
    replace (mp + 3 - 3) with mp by ring.
    split; [lia|]. split; [exact Hd|]. unfold doy, doe, z'. lia.
  - apply Z.ltb_ge in Hten.
    destruct (mp - 9 <=? 2) eqn:Hfeb; [|apply Z.leb_gt in Hfeb; lia].
    replace (yoe + era * 400 + 1 - 1) with (yoe + era * 400) by ring.
    rewrite Z.div_add by lia. rewrite (Z.div_small yoe 400) by lia.
    replace (yoe + era * 400 - (0 + era) * 400) with yoe by ring.
    replace (mp - 9 + 9) with mp by ring.
    split; [lia|]. split; [exact Hd|]. unfold doy, doe, z'. lia.
Qed.

Lemma MakeDay_next (z : Z) :
  let '(y, m, d) := civil_from_days z in MakeDay y (m - 1) (d + 1) = z + 1.
Proof.
  pose proof (civil_round_trip z) as Htrip.
  destruct (civil_from_days z) as [[y m] d].
  destruct Htrip as (Hm & Hd & Hback). unfold MakeDay.
  rewrite (Z.div_small (m - 1) 12), (Z.mod_small (m - 1) 12) by lia.
  replace (y + 0) with y by ring. replace (m - 1 + 1) with m by ring.
  rewrite <- Hback. unfold days_from_civil. cbv zeta. lia.
Qed.

End Calendar.

(** X4. The date the prompt gives for tomorrow is the Vietnam date of the
    instant one day later: [setDate(getDate() + 1)] carries over the end of
    a month and of a year. *)
Theorem tomorrow_is_the_next_calendar_day (now : Z) :
  Prompt.tomorrowDate now = Prompt.currentDate (now + JsDate.msPerDay).
Proof.
  unfold Prompt.tomorrowDate, Prompt.currentDate, Prompt.vnTime, JsDate.fields_at.
  cbv zeta.
  replace ((now + JsDate.msPerDay + Prompt.vn_offset) / JsDate.msPerDay)%Z
    with ((now + Prompt.vn_offset) / JsDate.msPerDay + 1)%Z.
  2:{ replace (now + JsDate.msPerDay + Prompt.vn_offset)%Z
        with (now + Prompt.vn_offset + 1 * JsDate.msPerDay)%Z by ring.
      rewrite Z.div_add; [reflexivity|]. unfold JsDate.msPerDay. lia. }
  pose proof (MakeDay_next ((now + Prompt.vn_offset) / JsDate.msPerDay)) as Hnext.
  destruct (JsDate.civil_from_days ((now + Prompt.vn_offset) / JsDate.msPerDay))
    as [[y m] d].
  cbn [JsDate.year JsDate.month0 JsDate.date]. rewrite Hnext.
  destruct (JsDate.civil_from_days
              ((now + Prompt.vn_offset) / JsDate.msPerDay + 1)) as [[y' m'] d'].
  reflexivity.
Qed.

(** ** The chat endpoint always answers *)

Section ChatAlwaysAnswers.
Context `{Engine}.












End ChatAlwaysAnswers.


(** X6. A request whose message is missing or empty is refused with the
    400 before anything is stored: the memory is unchanged. *)
Theorem chat_without_message_is_refused `{Engine}
    (FORCE_FALLBACK : bool) (now : Z) (body : ChatRequest.t)
    (outcome : ModelOutcome) (m : Memory) :
  ChatRequest.message body = None \/ ChatRequest.message body = Some [] ->
  chat_handler FORCE_FALLBACK now body outcome m
  = (Ok (BadRequest (utf16 "Message is required")), m).
Proof.
  intros Hmessage.
  unfold chat_handler, chat_begin, catchM, bindM, chat_try_begin.
  destruct Hmessage as [-> | ->]; reflexivity.
Qed.

(** A request with an empty message, on a memory that holds a history. *)
Lemma chat_without_message_is_refused_witness :
  chat_handler (H := Sample.utc) false Scenario.now
    {| ChatRequest.message := Some []; ChatRequest.tasks := None;
       ChatRequest.taskStats := None; ChatRequest.userId := Some Scenario.user |}
    Failed Scenario.full_memory
  = (Ok (BadRequest (utf16 "Message is required")), Scenario.full_memory).
Proof.
  apply (chat_without_message_is_refused (H := Sample.utc)).
  right. reflexivity.
Defined.

(** ** The week of the fallback recommendations *)

Section WeekWindow.
Local Open Scope Z_scope.
Import JsDate.

Lemma MakeDay_of_civil (z dt : Z) :
  let '(y, m, d) := civil_from_days z in MakeDay y (m - 1) dt = z + (dt - d).
Proof.
  pose proof (civil_round_trip z) as Htrip.
  destruct (civil_from_days z) as [[y m] d].
  destruct Htrip as (Hm & Hd & Hback). unfold MakeDay.
  rewrite (Z.div_small (m - 1) 12), (Z.mod_small (m - 1) 12) by lia.
  replace (y + 0) with y by ring. replace (m - 1 + 1) with m by ring.
  rewrite <- Hback. unfold days_from_civil. cbv zeta. lia.
Qed.

Lemma MakeTime_of_fields (tod : Z) :
  0 <= tod < msPerDay ->
  MakeTime (tod / msPerHour) ((tod / msPerMinute) mod 60)
    ((tod / msPerSecond) mod 60) (tod mod 1000) = tod.
Proof.
  unfold MakeTime, msPerDay, msPerHour, msPerMinute, msPerSecond. intros Htod.
  Z.div_mod_to_equations. lia.
Qed.

(** [d.setDate(n)] moves a date by whole days. *)
Lemma setDate_moves_days (tza t n : Z) :
  setDate tza t n = t + (n - date (fields_at tza t)) * msPerDay.
Proof.
  unfold setDate, of_fields, fields_at. cbv zeta.
  pose proof (MakeDay_of_civil ((t + tza) / msPerDay) n) as Hday.
  destruct (civil_from_days ((t + tza) / msPerDay)) as [[y m] d].
  cbn [year month0 date hours minutes seconds milliseconds].
  rewrite Hday, MakeTime_of_fields
    by (apply Z.mod_pos_bound; unfold msPerDay; lia).
  pose proof (Z.div_mod (t + tza) msPerDay). unfold msPerDay in *. lia.
Qed.

(** [d.setHours(h, mi, s, ms)] keeps the local day. *)
Lemma setHours_keeps_day (tza t h mi s ms : Z) :
  setHours tza t h mi s ms
  = (t + tza) / msPerDay * msPerDay + MakeTime h mi s ms - tza.
Proof.
  unfold setHours, of_fields, fields_at. cbv zeta.
  pose proof (MakeDay_of_civil ((t + tza) / msPerDay)) as Hday.
  destruct (civil_from_days ((t + tza) / msPerDay)) as [[y m] d].
  cbn [year month0 date]. rewrite Hday. ring.
Qed.

Lemma weekday_at (tza t : Z) :
  weekday (fields_at tza t) = ((t + tza) / msPerDay + 4) mod 7.
Proof.
  unfold fields_at. cbv zeta.
  now destruct (civil_from_days ((t + tza) / msPerDay)) as [[y m] d].
Qed.

Context `{Engine}.

Lemma startOfWeek_eq (now : Z) :
  let day := (now + localTZA) / msPerDay in
  startOfWeek now = (day - (day + 4) mod 7) * msPerDay - localTZA.
Proof.
  cbv zeta. unfold startOfWeek. cbv zeta.
  rewrite setHours_keeps_day, setDate_moves_days, weekday_at.
  set (day := (now + localTZA) / msPerDay). set (w := (day + 4) mod 7).
  replace (now + (date (fields_at localTZA now) - w
                  - date (fields_at localTZA now)) * msPerDay + localTZA)
    with (now + localTZA + (- w) * msPerDay) by ring.
  rewrite Z.div_add by (unfold msPerDay; lia). fold day.
  unfold MakeTime. ring.
Qed.

Lemma endOfWeek_eq (now : Z) :
  endOfWeek now = startOfWeek now + 7 * msPerDay - 1.
Proof.
  unfold endOfWeek. cbv zeta.
  rewrite setHours_keeps_day, setDate_moves_days.
  pose proof (startOfWeek_eq now) as Hstart. cbv zeta in Hstart.
  revert Hstart. generalize (startOfWeek now) as s. intros s.
  generalize (date (fields_at localTZA s)) as d.
  generalize ((now + localTZA) / msPerDay
              - ((now + localTZA) / msPerDay + 4) mod 7) as k.
  generalize localTZA as tza. intros tza k d ->.
  replace ((k * msPerDay - tza + (d + 6 - d) * msPerDay + tza) / msPerDay)
    with (k + 6).
  - unfold MakeTime, msPerDay, msPerHour, msPerMinute, msPerSecond. lia.
  - unfold msPerDay. Z.div_mod_to_equations. lia.
Qed.

End WeekWindow.

(** X8. The week of [generateFallbackRecommendations] starts at local
    midnight of a Sunday, holds the current instant, and ends one
    millisecond before the next Sunday's local midnight, whatever the
    instant and the server's offset from UTC. *)
Theorem week_runs_from_sunday_to_saturday `{Engine} (now : Z) :
  JsDate.weekday (JsDate.fields_at localTZA (startOfWeek now)) = 0%Z
  /\ ((startOfWeek now + localTZA) mod JsDate.msPerDay = 0)%Z
  /\ (startOfWeek now <= now <= endOfWeek now)%Z
  /\ (endOfWeek now = startOfWeek now + 7 * JsDate.msPerDay - 1)%Z.
Proof.
  pose proof (startOfWeek_eq now) as Hstart. cbv zeta in Hstart.
  pose proof (endOfWeek_eq now) as Hend.
  rewrite weekday_at, Hend, Hstart.
  set (day := ((now + localTZA) / JsDate.msPerDay)%Z).
  replace ((day - (day + 4) mod 7) * JsDate.msPerDay - localTZA + localTZA)%Z
    with (0 + (day - (day + 4) mod 7) * JsDate.msPerDay)%Z by ring.
  rewrite Z.div_add, Z.mod_add by (unfold JsDate.msPerDay; lia).
  pose proof (Z.div_mod (now + localTZA) JsDate.msPerDay) as Hnow.
  pose proof (Z.mod_pos_bound (now + localTZA) JsDate.msPerDay) as Hmod.
  fold day in Hnow. unfold JsDate.msPerDay in *.
  pose proof (Z.mod_pos_bound (day + 4) 7) as Hw.
  repeat split; try (Z.div_mod_to_equations; lia).
Qed.

(** ** The create endpoint *)


(** X10. The properties of a created task follow its [type]: the nine
    common ones, then the five of a task when the type is ['task'], or the
    six of an event when it is ['event']; any other type is accepted with
    the common properties alone, and the message then says that an event
    was created. No other property of the request is copied, and the
    defaults replace every falsy value (a duration of 0 becomes 60). *)
Theorem created_properties_follow_the_type
    (now createdAt updatedAt : Z) (random : list N) (body : CreateRequest.t)
    (r : CreateResponse.t) :
  create_handler now createdAt updatedAt random body = Created r ->
  let type := field_of (CreateRequest.taskData body) (utf16 "type") in
  List.map fst (CreateResponse.task r)
  = common_keys
      ++ (if Val.is_str type (utf16 "task") then task_keys else [])
      ++ (if Val.is_str type (utf16 "event") then event_keys else [])
  /\ CreateResponse.message r
     = (if Val.is_str type (utf16 "task") then utf16 "Task" else utf16 "Event")
         ++ utf16 " created successfully"
  /\ (Val.is_str type (utf16 "task") = true ->
      Obj.get (CreateResponse.task r) (utf16 "estimatedDuration")
      = Some (Val.or_else
                (field_of (CreateRequest.taskData body) (utf16 "estimatedDuration"))
                (Val.Num 60%float))).
Proof.
  unfold create_handler, field_of.
  destruct (CreateRequest.taskData body) as [taskData|]; [|discriminate].
  destruct (negb (Val.truthy (Some taskData))); [discriminate|].
  destruct (0 <? length _)%nat; [discriminate|].
  intros [= <-]. cbv zeta.
  cbn [mbind option_bind CreateResponse.task CreateResponse.message].
  destruct (Val.is_str (Val.get taskData (utf16 "type")) (utf16 "task"));
    destruct (Val.is_str (Val.get taskData (utf16 "type")) (utf16 "event"));
    (split; [reflexivity|]; split; [reflexivity|]);
    intros [=]; vm_compute; reflexivity.
Qed.

(** A note with an id of its own and a duration of 0: it is accepted as it
    is neither task nor event, with the common properties alone. *)
Lemma created_properties_follow_the_type_witness :
  exists r,
    create_handler Scenario.now Scenario.now Scenario.now (utf16 "k3j9x0q1z")
      Example.note_request = Created r
    /\ List.map fst (CreateResponse.task r) = common_keys ++ [] ++ []
    /\ CreateResponse.message r = utf16 "Event" ++ utf16 " created successfully".
Proof.
  eexists. split; [reflexivity|].
  pose proof (created_properties_follow_the_type Scenario.now Scenario.now
                Scenario.now (utf16 "k3j9x0q1z") Example.note_request _ eq_refl)
    as (Hkeys & Hmessage & _).
  split; [exact Hkeys|exact Hmessage].
Defined.

(** ** Resetting, reading and filling a history *)

Section HistoryFacts.




End HistoryFacts.







(** ** What the two encoders count *)

Section Counting.





Context {A : Type} (compare : A -> A -> float).



End Counting.

Section EncoderCounts.
Context `{Engine}.





End EncoderCounts.




(** ** The lines [parseRecommendations] keeps *)

Section LinesOfTheAnswer.

Lemma trimStart_head (s : list N) (c : N) (r : list N) :
  trimStart s = c :: r -> is_ws c = false.
Proof.
  induction s as [|a s IH]; [discriminate|]. cbn [trimStart].
  destruct (is_ws a) eqn:Ha; [exact IH|]. now intros [= <- <-].
Qed.

Lemma trimStart_idempotent (s : list N) : trimStart (trimStart s) = trimStart s.
Proof.
  destruct (trimStart s) as [|c r] eqn:Hs; [reflexivity|].
  apply trimStart_keeps. now apply (trimStart_head s c r).
Qed.

Lemma trimEnd_parts (s : list N) :
  exists ws, s = trimEnd s ++ ws /\ forallb is_ws ws = true.
Proof.
  destruct (trimStart_parts (rev s)) as (ws & Hs & Hws).
  exists (rev ws). split.
  - unfold trimEnd. rewrite <- rev_app_distr, <- Hs. now rewrite rev_involutive.
  - rewrite forallb_forall in *. intros c Hc. apply Hws. now apply in_rev.
Qed.

Lemma trimEnd_idempotent (s : list N) : trimEnd (trimEnd s) = trimEnd s.
Proof.
  unfold trimEnd. now rewrite rev_involutive, trimStart_idempotent.
Qed.

Lemma trim_idempotent (s : list N) : trim (trim s) = trim s.
Proof.
  unfold trim. set (t := trimStart s).
  assert (Hkeep : trimStart (trimEnd t) = trimEnd t).
  { destruct (trimEnd t) as [|c r] eqn:Hend; [reflexivity|].
    apply trimStart_keeps.
    destruct (trimEnd_parts t) as (ws & Ht & _). rewrite Hend in Ht.
    apply (trimStart_head s c (r ++ ws)). fold t. exact Ht. }
  now rewrite Hkeep, trimEnd_idempotent.
Qed.

Lemma trim_parts (s : list N) : exists a b, s = a ++ trim s ++ b.
Proof.
  destruct (trimStart_parts s) as (a & Hs & _).
  destruct (trimEnd_parts (trimStart s)) as (b & Ht & _).
  exists a, b. unfold trim. now rewrite <- Ht.
Qed.

Lemma startsWith_self (p b : list N) : startsWith p (p ++ b) = true.
Proof.
  induction p as [|c p IH]; [reflexivity|]. cbn [startsWith app].
  now rewrite N.eqb_refl, IH.
Qed.

Lemma includes_part (p a b : list N) : includes p (a ++ p ++ b) = true.
Proof.
  induction a as [|c a IH].
  - cbn [app]. destruct (p ++ b) as [|x r] eqn:Hpb.
    + cbn [includes]. rewrite <- Hpb, startsWith_self. reflexivity.
    + cbn [includes]. rewrite <- Hpb, startsWith_self. reflexivity.
  - cbn [app includes]. rewrite IH. apply orb_true_r.
Qed.

Lemma split_on_spec (sep : N) (s : list N) :
  exists h t,
    split_on sep s = h :: t
    /\ ~ In sep h
    /\ (exists b, s = h ++ b)
    /\ (forall line, In line t ->
          (exists a b, s = a ++ line ++ b) /\ ~ In sep line).
Proof.
  induction s as [|c s (h & t & Hsplit & Hsep & (b & Hs) & Htail)].
  - exists [], []. repeat split; try easy. now exists [].
  - cbn [split_on]. rewrite Hsplit. destruct (c =? sep)%N eqn:Hc.
    + exists [], (h :: t). split; [reflexivity|]. split; [easy|].
      split; [now exists (c :: s)|].
      intros line [<-|Hin].
      * split; [|exact Hsep]. exists [c], b. cbn [app]. now rewrite <- Hs.
      * destruct (Htail line Hin) as ((a' & b' & Hs') & Hsep').
        split; [|exact Hsep']. exists (c :: a'), b'. cbn [app]. now rewrite <- Hs'.
    + exists (c :: h), t. split; [reflexivity|]. split.
      * intros [->|Hin]; [now rewrite N.eqb_refl in Hc|now apply Hsep].
      * split; [exists b; cbn [app]; now rewrite <- Hs|].
        intros line Hin. destruct (Htail line Hin) as ((a' & b' & Hs') & Hsep').
        split; [|exact Hsep']. exists (c :: a'), b'. cbn [app]. now rewrite <- Hs'.
Qed.

Lemma split_on_parts (sep : N) (s line : list N) :
  In line (split_on sep s) ->
  (exists a b, s = a ++ line ++ b) /\ ~ In sep line.
Proof.
  destruct (split_on_spec sep s) as (h & t & -> & Hsep & (b & Hs) & Htail).
  intros [<-|Hin]; [|now apply Htail].
  split; [|exact Hsep]. now exists [], b.
Qed.

Lemma part_of_part (s line a b a' b' : list N) (r : list N) :
  s = a ++ line ++ b -> line = a' ++ r ++ b' ->
  s = (a ++ a') ++ r ++ (b' ++ b).
Proof. intros -> ->. now rewrite <- !app_assoc. Qed.

Context `{Engine}.

(** What a kept line becomes. *)
Lemma kept_line (aiResponse line : list N) :
  In line (List.filter nonblank (split_on newline aiResponse)) ->
  trim line <> [] /\ trim (trim line) = trim line
  /\ ~ In newline (trim line) /\ includes (trim line) aiResponse = true.
Proof.
  intros Hin. apply filter_In in Hin as [Hin Hnonblank].
  destruct (split_on_parts newline aiResponse line Hin) as ((a & b & Hs) & Hsep).
  destruct (trim_parts line) as (a' & b' & Hline).
  split; [|split; [apply trim_idempotent|split]].
  - unfold nonblank in Hnonblank. now destruct (trim line).
  - intros Hnl. apply Hsep. rewrite Hline.
    apply in_or_app. right. apply in_or_app. now left.
  - rewrite (part_of_part _ _ _ _ _ _ _ Hs Hline). apply includes_part.
Qed.

End LinesOfTheAnswer.

(** X16. When a non-blank line of the model's answer carries a label or an
    emoji marker, every recommendation returned is such a line of the
    answer with the white space around it removed: it is not empty, holds
    no line break, has no white space at either end and occurs in the
    answer. The parser adds no text of its own. *)
Theorem parsed_recommendations_are_lines_of_the_answer `{Engine}
    (now : Z) (aiResponse : list N) (language : option (list N))
    (line : list N) :
  In line (split_on newline aiResponse) -> nonblank line = true ->
  has_label line = true \/ has_marker line = true ->
  exists recs,
    parseRecommendations now aiResponse language = Ok recs
    /\ Forall
         (fun r =>
            r <> [] /\ trim r = r /\ ~ In newline r
            /\ includes r aiResponse = true)
         recs.
Proof.
  intros Hin Hnonblank Hkind. unfold parseRecommendations. cbv zeta.
  set (lines := List.filter nonblank (split_on newline aiResponse)).
  assert (Hline : In line lines) by (apply filter_In; now split).
  assert (Hkept : forall keep,
             Forall (fun r => r <> [] /\ trim r = r /\ ~ In newline r
                              /\ includes r aiResponse = true)
               (List.map trim (List.filter keep lines))).
  { intros keep. apply List.Forall_forall. intros r Hr.
    apply in_map_iff in Hr as (l & <- & Hl). apply filter_In in Hl as [Hl _].
    now apply kept_line. }
  destruct (List.map trim (List.filter has_label lines)) as [|r1 rs1] eqn:Hlabelled.
  - destruct (List.map trim (List.filter has_marker lines)) as [|r2 rs2] eqn:Hmarked.
    + exfalso. destruct Hkind as [Hlabel|Hmarker].
      * assert (Hl : In (trim line) (List.map trim (List.filter has_label lines))).
        { apply in_map, filter_In. now split. }
        now rewrite Hlabelled in Hl.
      * assert (Hl : In (trim line) (List.map trim (List.filter has_marker lines))).
        { apply in_map, filter_In. now split. }
        now rewrite Hmarked in Hl.
    + eexists. split; [reflexivity|]. rewrite <- Hmarked. apply Hkept.
  - eexists. split; [reflexivity|]. rewrite <- Hlabelled. apply Hkept.
Qed.

(** An answer of three lines: a labelled one, a blank one and a remark. *)
Lemma parsed_recommendations_are_lines_of_the_answer_witness :
  exists recs,
    parseRecommendations (H := Sample.utc) Scenario.now
      (utf16 "  Time: start earlier  " ++ [newline] ++ utf16 "   " ++ [newline]
         ++ utf16 "Good luck!") None = Ok recs
    /\ Forall
         (fun r =>
            r <> [] /\ trim r = r /\ ~ In newline r
            /\ includes r
                 (utf16 "  Time: start earlier  " ++ [newline] ++ utf16 "   "
                    ++ [newline] ++ utf16 "Good luck!") = true)
         recs.
Proof.
  apply (parsed_recommendations_are_lines_of_the_answer (H := Sample.utc)
           Scenario.now _ None (utf16 "  Time: start earlier  ")).
  - vm_compute. left. reflexivity.
  - vm_compute. reflexivity.
  - left. vm_compute. reflexivity.
Defined.

(** ** The fallback answer of the chat *)

Section FallbackAnswer.
Context `{Engine}.

Lemma literal_first (a b : list N) : (0 < length a)%nat -> a ++ b <> [].
Proof. destruct a; simpl; [lia|easy]. Qed.

Ltac starts_with_text :=
  rewrite <- ?app_assoc;
  first [ apply literal_first; vm_compute; lia
        | vm_compute; discriminate ].

Lemma fallback_response_nonempty now userMessage tasks :
  generateFallbackResponse now userMessage tasks <> [].
Proof.
  unfold generateFallbackResponse. cbv zeta.
  repeat match goal with
         | |- context [if mentions ?l ?w then _ else _] =>
           destruct (mentions l w)
         end.
  - starts_with_text.
  - repeat match goal with
           | |- context [if (0 <? ?n)%nat then _ else _] =>
             destruct (0 <? n)%nat
           end; starts_with_text.
  - destruct (TasksContext.upcomingDeadlines _); starts_with_text.
  - starts_with_text.
  - starts_with_text.
  - starts_with_text.
  - starts_with_text.
  - starts_with_text.
Qed.

End FallbackAnswer.

(** X17. The fallback answer of the chat is never empty, whatever the
    message, the items and the engine's lower-casing: every branch of
    [generateFallbackResponse] opens with fixed text. *)
Theorem fallback_answer_is_never_empty `{Engine}
    (now : Z) (userMessage : list N) (tasks : option (list Item.t)) :
  generateFallbackResponse now userMessage tasks <> []
  /\ (0 < length (generateFallbackResponse now userMessage tasks))%nat.
Proof.
  pose proof (fallback_response_nonempty now userMessage tasks) as Hne.
  split; [exact Hne|].
  destruct (generateFallbackResponse now userMessage tasks); [easy|simpl; lia].
Qed.



(** ** The entries of the fallback recommendations *)


(** ** Reading the category tokens back *)

Section DecimalRoundTrip.
Local Open Scope Z_scope.

Lemma digits_prefix_units (d : Decimal.uint) (acc : Z) :
  digits_prefix (Some acc) (uint_units d) = Some (digits_value d acc).
Proof.
  revert acc. induction d; intros acc; cbn [uint_units digits_value];
    [reflexivity|..]; cbn [digits_prefix]; apply IHd.
Qed.

Lemma digits_prefix_first (d : Decimal.uint) :
  d <> Decimal.Nil ->
  digits_prefix None (uint_units d) = Some (digits_value d 0).
Proof.
  destruct d; [easy|..]; intros _; cbn [uint_units digits_value digits_prefix];
    apply digits_prefix_units.
Qed.

Lemma of_uint_acc_value (d : Decimal.uint) (p : positive) :
  Z.pos (Pos.of_uint_acc d p) = digits_value d (Z.pos p).
Proof.
  revert p. induction d; intros p; cbn [Pos.of_uint_acc digits_value];
    [reflexivity|..]; rewrite IHd; f_equal; lia.
Qed.

Lemma of_uint_value (d : Decimal.uint) : Z.of_uint d = digits_value d 0.
Proof.
  unfold Z.of_uint.
  induction d; cbn [Pos.of_uint digits_value]; [reflexivity|exact IHd|..];
    cbn [Z.of_N]; rewrite of_uint_acc_value; reflexivity.
Qed.

Lemma units_head (d : Decimal.uint) :
  d <> Decimal.Nil ->
  exists c r, uint_units d = c :: r /\ (48 <= c <= 57)%N.
Proof.
  destruct d; [easy|..]; intros _; cbn [uint_units]; eexists _, _;
    (split; [reflexivity|lia]).
Qed.

Lemma parseInt_digit_head (c : N) (r : list N) :
  (48 <= c <= 57)%N -> parseInt (c :: r) = digits_prefix None (c :: r).
Proof.
  intros Hc.
  assert (Hcases : (c = 48 \/ c = 49 \/ c = 50 \/ c = 51 \/ c = 52 \/ c = 53
                    \/ c = 54 \/ c = 55 \/ c = 56 \/ c = 57)%N) by lia.
  destruct Hcases as [->|[->|[->|[->|[->|[->|[->|[->|[->| ->]]]]]]]]];
    reflexivity.
Qed.

(** [parseInt] reads a printed count back. *)
Lemma parseInt_nat_str (n : nat) : parseInt (nat_str n) = Some (Z.of_nat n).
Proof.
  unfold nat_str, Z_str.
  pose proof (DecimalZ.of_to (Z.of_nat n)) as Hback.
  destruct (Z.to_int (Z.of_nat n)) as [d|d] eqn:Hint.
  - assert (Hd : d <> Decimal.Nil).
    { destruct (Z.of_nat n) eqn:Hn; unfold Z.to_int in Hint;
        [injection Hint as <-; easy
        |injection Hint as <-; apply DecimalPos.Unsigned.to_uint_nonnil
        |discriminate]. }
    destruct (units_head d Hd) as (c & r & Hunits & Hc).
    rewrite Hunits, (parseInt_digit_head c r Hc), <- Hunits.
    rewrite (digits_prefix_first d Hd), <- of_uint_value.
    cbn [Z.of_int] in Hback. now rewrite Hback.
  - exfalso. destruct (Z.of_nat n) eqn:Hn; unfold Z.to_int in Hint;
      try discriminate. lia.
Qed.

End DecimalRoundTrip.

Section MostActiveCategory.
Context `{Engine}.

Lemma split_on_none (sep : N) (s : list N) :
  ~ In sep s -> split_on sep s = [s].
Proof.
  induction s as [|c s IH]; [reflexivity|]. intros Hsep. cbn [split_on].
  destruct (N.eqb_spec c sep) as [->|Hc]; [exfalso; apply Hsep; now left|].
  rewrite IH; [reflexivity|]. intros Hin. apply Hsep. now right.
Qed.

Lemma split_on_two (sep : N) (a b : list N) :
  ~ In sep a -> ~ In sep b -> split_on sep (a ++ sep :: b) = [a; b].
Proof.
  intros Ha Hb. induction a as [|c a IH].
  - cbn [app split_on]. now rewrite N.eqb_refl, split_on_none.
  - cbn [app split_on].
    destruct (N.eqb_spec c sep) as [->|Hc]; [exfalso; apply Ha; now left|].
    rewrite IH; [reflexivity|]. intros Hin. apply Ha. now right.
Qed.

Lemma units_without (sep : N) (d : Decimal.uint) :
  (sep < 48 \/ 57 < sep)%N -> ~ In sep (uint_units d).
Proof.
  intros Hsep. induction d; cbn [uint_units]; [easy|..];
    intros [Heq|Hin]; try (now apply IHd); lia.
Qed.

Lemma nat_str_without_comma (n : nat) : ~ In comma (nat_str n).
Proof.
  unfold nat_str, Z_str. destruct (Z.to_int (Z.of_nat n)) as [d|d] eqn:Hint.
  - apply units_without. unfold comma. lia.
  - destruct (Z.of_nat n) eqn:Hn; unfold Z.to_int in Hint; try discriminate. lia.
Qed.

(** One step of the [reduce] on the token of a category without comma. *)
Lemma more_active_token (max : MostActive.t) (tasks : list Item.t)
    (category : list N) :
  ~ In comma category ->
  more_active max (category_token tasks category)
  = if (MostActive.total max <? Z.of_nat (category_count tasks category))%Z
    then {| MostActive.total := Z.of_nat (category_count tasks category);
            MostActive.category := category |}
    else max.
Proof.
  intros Hcategory. unfold more_active, category_token.
  change (utf16 "," ++ nat_str (category_count tasks category))
    with (comma :: nat_str (category_count tasks category)).
  rewrite split_on_two by (auto using nat_str_without_comma).
  now rewrite parseInt_nat_str.
Qed.

Lemma most_active_fold (tasks : list Item.t) (cs : list (list N))
    (init : MostActive.t) :
  Forall (fun c => ~ In comma c) cs ->
  let best := List.fold_left more_active (List.map (category_token tasks) cs) init in
  (MostActive.total init <= MostActive.total best)%Z
  /\ Forall (fun c => (Z.of_nat (category_count tasks c) <= MostActive.total best)%Z) cs
  /\ (best = init
      \/ exists before after,
           cs = before ++ MostActive.category best :: after
           /\ MostActive.total best
              = Z.of_nat (category_count tasks (MostActive.category best))
           /\ (MostActive.total init < MostActive.total best)%Z
           /\ Forall (fun c => (category_count tasks c
                                < category_count tasks (MostActive.category best))%nat)
                before).
Proof.
  intros Hcs. revert init. induction Hcs as [|c cs Hc Hcs IH]; intros init.
  - cbn. split; [lia|]. split; [constructor|now left].
  - cbn [List.map List.fold_left]. rewrite (more_active_token _ _ _ Hc).
    destruct (Z.ltb_spec (MostActive.total init)
                (Z.of_nat (category_count tasks c))) as [Hlt|Hge].
    + specialize (IH {| MostActive.total := Z.of_nat (category_count tasks c);
                        MostActive.category := c |}).
      cbv zeta in *. cbn [MostActive.total] in IH.
      set (best := List.fold_left more_active _ _) in *.
      destruct IH as (Hle & Hall & Hbest).
      split; [lia|]. split; [constructor; [lia|exact Hall]|].
      right. destruct Hbest as [Hinit|(before & after & Heq & Htotal & Hmore & Hless)].
      * exists [], cs. rewrite Hinit.
        cbn [MostActive.category MostActive.total app].
        repeat split; [lia|constructor].
      * exists (c :: before), after. split; [cbn [app]; now rewrite <- Heq|].
        split; [exact Htotal|]. split; [lia|].
        constructor; [lia|exact Hless].
    + specialize (IH init). cbv zeta in *.
      set (best := List.fold_left more_active _ _) in *.
      destruct IH as (Hle & Hall & Hbest).
      split; [exact Hle|]. split; [constructor; [lia|exact Hall]|].
      destruct Hbest as [Hinit|(before & after & Heq & Htotal & Hmore & Hless)];
        [now left|right].
      exists (c :: before), after. split; [cbn [app]; now rewrite <- Heq|].
      split; [exact Htotal|]. split; [exact Hmore|].
      constructor; [lia|exact Hless].
Qed.

End MostActiveCategory.

(** X20. The fallback reads its own category tokens back without loss:
    [mostActiveCategory] is the first of the five fixed categories that has
    the greatest number of items, with that number, and it is empty with
    total 0 when no item has one of the five categories. In that case the
    recommendations hold no preferences entry, however many items of other
    categories there are. *)
Theorem most_active_category_is_the_first_greatest `{Engine}
    (now : Z) (tasks : list Item.t) (taskStats : TaskStats.t)
    (timeAccuracy : option TimeAccuracy.t) (language : option (list N)) :
  let best := mostActiveCategory_of tasks in
  Forall
    (fun c => (Z.of_nat (category_count tasks c) <= MostActive.total best)%Z)
    categories
  /\ ((MostActive.total best = 0%Z /\ MostActive.category best = [])
      \/ exists before after,
           categories = before ++ MostActive.category best :: after
           /\ MostActive.total best
              = Z.of_nat (category_count tasks (MostActive.category best))
           /\ (0 < MostActive.total best)%Z
           /\ Forall
                (fun c => (category_count tasks c
                           < category_count tasks (MostActive.category best))%nat)
                before)
  /\ (MostActive.total best = 0%Z ->
      exists recs,
        generateFallbackRecommendations now (Some tasks) (Some taskStats)
          timeAccuracy language = Ok recs
        /\ existsb (startsWith (utf16 "Sở thích:")) recs = false
        /\ existsb (startsWith (utf16 "Preferences:")) recs = false).
Proof.
  cbv zeta.
  assert (Hplain : Forall (fun c => ~ In comma c) categories).
  { repeat constructor; vm_compute; intuition discriminate. }
  destruct (most_active_fold tasks categories
              {| MostActive.total := 0; MostActive.category := [] |} Hplain)
    as (_ & Hall & Hbest).
  fold (mostActiveCategory_of tasks) in Hall, Hbest.
  split; [exact Hall|]. split.
  - destruct Hbest as [->|Hfirst]; [now left|now right].
  - intros Hzero. unfold generateFallbackRecommendations.
    cbn [deref bind]. cbv zeta.
    set (best := List.fold_left more_active _ _).
    assert (Hsame : best = mostActiveCategory_of tasks) by reflexivity.
    clearbody best. subst best. rewrite Hzero.
    change (0 <? 0)%Z with false. cbv iota.
    destruct (str_eqb (default (utf16 "vi") language) (utf16 "vi"));
      repeat match goal with
      | |- context [if ?c then _ else _] => destruct c; cbv iota
      end;
      (eexists; split; [reflexivity|]; split; vm_compute; reflexivity).
Qed.

(** ** The to-do template *)

Section TodoLists.

Lemma split_on_head (sep : N) (a rest : list N) :
  ~ In sep a -> split_on sep (a ++ sep :: rest) = a :: split_on sep rest.
Proof.
  intros Ha. induction a as [|c a IH].
  - cbn [app split_on]. now rewrite N.eqb_refl.
  - cbn [app split_on].
    destruct (N.eqb_spec c sep) as [->|Hc]; [exfalso; apply Ha; now left|].
    rewrite IH; [reflexivity|]. intros Hin. apply Ha. now right.
Qed.

Lemma split_on_joined (sep : N) (items : list (list N)) (rest : list N) :
  items <> [] -> Forall (fun item => ~ In sep item) items ->
  split_on sep (join [sep] items ++ sep :: rest) = items ++ split_on sep rest.
Proof.
  intros Hne Hitems. induction Hitems as [|x items Hx Hitems IH]; [easy|].
  destruct items as [|y items].
  - cbn [join app]. now apply split_on_head.
  - change (join [sep] (x :: y :: items)) with (x ++ sep :: join [sep] (y :: items)).
    rewrite <- app_assoc. cbn [app].
    rewrite split_on_head by exact Hx. cbn [app]. f_equal. now apply IH.
Qed.

Lemma todo_item_one_line (task time priority : list N) :
  ~ In newline task -> ~ In newline time -> ~ In newline priority ->
  ~ In newline (TodoTemplate.createTodoItem task time priority).
Proof.
  intros Htask Htime Hpriority. unfold TodoTemplate.createTodoItem. cbv zeta.
  assert (Hemoji : ~ In newline
                     (or_str (Obj.get TodoTemplate.priorityEmojis priority)
                        (utf16 "📝"))).
  { unfold TodoTemplate.priorityEmojis. cbn [Obj.get].
    repeat match goal with
           | |- context [if ?c then _ else _] => destruct c; cbv iota
           end; vm_compute; intuition discriminate. }
  rewrite !in_app_iff.
  intros [Hin|[Hin|[Hin|[Hin|[Hin|[Hin|Hin]]]]]]; auto;
    revert Hin; vm_compute; intuition discriminate.
Qed.

End TodoLists.

(** X21. A to-do list reads back line by line: when the title, the advice
    and every item hold no line break and there is at least one item, the
    lines of [createTodoList] are the title, an empty line, the items in
    order, an empty line and the advice. An item made by [createTodoItem]
    from parts without line break, for a priority that is no member name
    of [Object.prototype], holds none, so lists of such items read back. *)
Theorem todo_list_reads_back
    (title advice : list N) (items : list (list N)) :
  ~ In newline title -> ~ In newline advice -> items <> [] ->
  Forall (fun item => ~ In newline item) items ->
  split_on newline (TodoTemplate.createTodoList title items advice)
  = title :: [] :: items ++ [[]; advice]
  /\ (forall task time priority,
         ~ In priority inherited_names ->
         ~ In newline task -> ~ In newline time -> ~ In newline priority ->
         ~ In newline (TodoTemplate.createTodoItem task time priority)).
Proof.
  intros Htitle Hadvice Hne Hitems.
  split; [|intros task time priority _; apply todo_item_one_line].
  unfold TodoTemplate.createTodoList. cbn [app].
  rewrite split_on_head by exact Htitle.
  change (newline :: join [newline] items ++ newline :: newline :: advice)
    with ([] ++ newline :: join [newline] items ++ newline :: newline :: advice).
  rewrite split_on_head by easy.
  rewrite split_on_joined by assumption.
  change (newline :: advice) with ([] ++ newline :: advice).
  rewrite split_on_head by easy. now rewrite split_on_none.
Qed.

(** Two items made by [createTodoItem], one of them for the priority
    the template spells IN-PROGRESS. *)
Lemma todo_list_reads_back_witness :
  split_on newline
    (TodoTemplate.createTodoList (utf16 "TODO") 
       [TodoTemplate.createTodoItem (utf16 "Toán") (utf16 "Hôm nay") (utf16 "URGENT");
        TodoTemplate.createTodoItem (utf16 "Lý") (utf16 "Liên tục")
          (utf16 "IN-PROGRESS")]
       (utf16 "Tip"))
  = utf16 "TODO" :: [] ::
      [TodoTemplate.createTodoItem (utf16 "Toán") (utf16 "Hôm nay") (utf16 "URGENT");
       TodoTemplate.createTodoItem (utf16 "Lý") (utf16 "Liên tục")
         (utf16 "IN-PROGRESS")]
      ++ [[]; utf16 "Tip"].
Proof.
  apply todo_list_reads_back.
  - vm_compute. intuition discriminate.
  - vm_compute. intuition discriminate.
  - discriminate.
  - repeat constructor; vm_compute; intuition discriminate.
Defined.

(** ** A whole exchange *)


